(** * Workforce AI Transition Simulator: the visualization scripts

    A shallow embedding of [visualization/plot_simulation.py],
    [visualization/plot_sensitivity.py] and
    [visualization/interactive_dashboard.py].

    The scripts read a result file, reshape it and hand data to charting
    primitives.  The embedding keeps the data that flows through them:
    parsed JSON as Python values, data frames as named columns, a file
    system as a finite map from paths to contents, and every drawing call
    as a record of the primitive and its data arguments.  Styling and
    layout calls (colours, labels of axes, grids, legends) carry no data
    and are left out.

    Exceptions raised by the Python code itself are modelled: a missing
    key, an operation on a value of the wrong type, an unbound local
    variable, [sys.exit].  What matplotlib, seaborn or plotly do with data
    they cannot draw is not. *)

From Stdlib Require Import QArith Ascii String Lqa.
From stdpp Require Import base option list strings gmap pretty.

Set Warnings "-register-all".
Local Open Scope Z_scope.
Local Open Scope string_scope.
Local Open Scope list_scope.

(** ** Numbers *)

(** A Python [float]: a finite one is the rational it stands for, and the
    three special values are kept because numpy division by zero yields
    them instead of raising.  The operations below are the exact ones;
    where the code rounds, the result goes through [round_q] of the
    library ([fround]). *)
Inductive float64 :=
| Fin (q : Q)
| PosInf
| NegInf
| NaN.

Definition fzero : float64 := Fin 0.

Definition fadd (a b : float64) : float64 :=
  match a, b with
  | NaN, _ | _, NaN => NaN
  | PosInf, NegInf | NegInf, PosInf => NaN
  | PosInf, _ | _, PosInf => PosInf
  | NegInf, _ | _, NegInf => NegInf
  | Fin x, Fin y => Fin (x + y)
  end.

Definition fsign (q : Q) : comparison := (0 ?= q)%Q.

Definition fneg (a : float64) : float64 :=
  match a with
  | Fin x => Fin (- x)
  | PosInf => NegInf
  | NegInf => PosInf
  | NaN => NaN
  end.

(** IEEE multiplication, signs of zero ignored. *)
Definition fmul (a b : float64) : float64 :=
  match a, b with
  | NaN, _ | _, NaN => NaN
  | Fin x, Fin y => Fin (x * y)
  | Fin x, PosInf | PosInf, Fin x =>
      match fsign x with Lt => PosInf | Gt => NegInf | Eq => NaN end
  | Fin x, NegInf | NegInf, Fin x =>
      match fsign x with Lt => NegInf | Gt => PosInf | Eq => NaN end
  | PosInf, PosInf | NegInf, NegInf => PosInf
  | PosInf, NegInf | NegInf, PosInf => NaN
  end.

(** numpy true division: a zero divisor gives an infinity or NaN, never an
    exception. *)
Definition fdiv (a b : float64) : float64 :=
  match a, b with
  | NaN, _ | _, NaN => NaN
  | Fin x, Fin y =>
      if Qeq_bool y 0 then
        match fsign x with Lt => PosInf | Gt => NegInf | Eq => NaN end
      else Fin (x / y)
  | Fin _, (PosInf | NegInf) => Fin 0
  | PosInf, Fin y => if Qle_bool 0 y then PosInf else NegInf
  | NegInf, Fin y => if Qle_bool 0 y then NegInf else PosInf
  | (PosInf | NegInf), (PosInf | NegInf) => NaN
  end.

(** [a > b] on floats; every comparison with NaN is false. *)
Definition fgt (a b : float64) : bool :=
  match a, b with
  | NaN, _ | _, NaN => false
  | Fin x, Fin y => negb (Qle_bool x y)
  | PosInf, PosInf => false
  | PosInf, _ => true
  | _, NegInf => match a with NegInf => false | _ => true end
  | _, _ => false
  end.

Definition feq (a b : float64) : bool :=
  match a, b with
  | Fin x, Fin y => Qeq_bool x y
  | PosInf, PosInf | NegInf, NegInf => true
  | _, _ => false
  end.

(** ** Python values *)

(** What [json.load] returns, and what a data-frame cell holds.  A [dict]
    keeps its insertion order, so it is an association list; lookups take
    the first binding of a key. *)
Inductive value :=
| VNone
| VBool (b : bool)
| VInt (z : Z)
| VFloat (f : float64)
| VStr (s : string)
| VList (l : list value)
| VDict (d : list (string * value)).

Abbreviation Series := (list value).

Inductive exn :=
| KeyError (k : string)
| TypeError
| AttributeError
| ValueError
| ZeroDivisionError
| OverflowError
| NotImplementedError
| UnboundLocalError (name : string)
| FileNotFoundError
| FileExistsError
| IsADirectoryError
| JSONDecodeError
| ParserError
| SystemExit (code : Z)
| NotModelled.

Inductive result (A : Type) :=
| Ok (a : A)
| Raise (e : exn).
Arguments Ok {A} a.
Arguments Raise {A} e.

#[export] Instance result_ret : MRet result := fun A a => Ok a.
#[export] Instance result_bind : MBind result := fun A B f r =>
  match r with
  | Ok a => f a
  | Raise e => Raise e
  end.

Fixpoint dict_lookup (k : string) (d : list (string * value)) : option value :=
  match d with
  | [] => None
  | (k', v) :: d' => if String.eqb k k' then Some v else dict_lookup k d'
  end.

Definition is_substring (k s : string) : bool :=
  match String.index 0 k s with Some _ => true | None => false end.

(** [k in v] for a string literal [k]. *)
Definition py_in (k : string) (v : value) : result bool :=
  match v with
  | VDict d => Ok (bool_decide (is_Some (dict_lookup k d)))
  | VList l =>
      Ok (existsb (fun x => match x with VStr s => String.eqb s k | _ => false end) l)
  | VStr s => Ok (is_substring k s)
  | _ => Raise TypeError
  end.

(** [v[k]] for a string literal [k]. *)
Definition py_getitem (v : value) (k : string) : result value :=
  match v with
  | VDict d =>
      match dict_lookup k d with
      | Some x => Ok x
      | None => Raise (KeyError k)
      end
  | _ => Raise TypeError
  end.

(** [v.get(k, default)] *)
Definition py_get (v : value) (k : string) (default : value) : result value :=
  match v with
  | VDict d =>
      match dict_lookup k d with
      | Some x => Ok x
      | None => Ok default
      end
  | _ => Raise AttributeError
  end.

(** Truth value of an object, as tested by [if v:] and [not v]. *)
Definition py_truthy (v : value) : bool :=
  match v with
  | VNone => false
  | VBool b => b
  | VInt z => negb (Z.eqb z 0)
  | VFloat f => negb (feq f fzero)
  | VStr s => negb (String.eqb s "")
  | VList l => negb (bool_decide (l = []))
  | VDict d => negb (bool_decide (d = []))
  end.

Definition chars (s : string) : list value :=
  (fun c => VStr (String c EmptyString)) <$> String.list_ascii_of_string s.

(** The items a [for] loop visits. *)
Definition py_iter (v : value) : result (list value) :=
  match v with
  | VList l => Ok l
  | VDict d => Ok ((fun kv => VStr kv.1) <$> d)
  | VStr s => Ok (chars s)
  | _ => Raise TypeError
  end.

Definition py_len (v : value) : result nat :=
  match v with
  | VList l => Ok (length l)
  | VDict d => Ok (length d)
  | VStr s => Ok (String.length s)
  | _ => Raise TypeError
  end.

Definition py_keys (v : value) : result (list value) :=
  match v with
  | VDict d => Ok ((fun kv => VStr kv.1) <$> d)
  | _ => Raise AttributeError
  end.

Definition py_values (v : value) : result (list value) :=
  match v with
  | VDict d => Ok (snd <$> d)
  | _ => Raise AttributeError
  end.

(** The number a cell or JSON value stands for on a chart.  [None] in a
    numeric column is a missing value; text and containers are not
    numbers. *)
Definition to_float (v : value) : result float64 :=
  match v with
  | VInt z => Ok (Fin (inject_Z z))
  | VFloat f => Ok f
  | VBool b => Ok (Fin (if b then 1 else 0))
  | VNone => Ok NaN
  | _ => Raise TypeError
  end.

(** The number of a Python scalar in [max], [sum] and comparisons: here
    [None] is not a number. *)
Definition as_number (v : value) : result float64 :=
  match v with
  | VInt z => Ok (Fin (inject_Z z))
  | VFloat f => Ok f
  | VBool b => Ok (Fin (if b then 1 else 0))
  | _ => Raise TypeError
  end.

Fixpoint mapM {A B : Type} (f : A -> result B) (l : list A) : result (list B) :=
  match l with
  | [] => Ok []
  | x :: l' => y ← f x; ys ← mapM f l'; Ok (y :: ys)
  end.

(** ** Library functions taken as given *)

Class PyLib := {
  (** [str(v)], also what an f-string field without format does *)
  py_str : value -> string;
  (** [format(x, spec)] of a number, e.g. with spec [.3f] *)
  py_format : string -> float64 -> string;
  (** [Series.corr], pairwise Pearson correlation; pandas raises on a
      column it cannot convert to float *)
  series_corr : Series -> Series -> result value;
  (** the binary64 number nearest to a rational, ties to even, and an
      infinity beyond the range: how every float operation rounds its
      exact result *)
  round_q : Q -> float64
}.

(** The float an operation returns for the exact result [a]. *)
Definition fround {lib : PyLib} (a : float64) : float64 :=
  match a with Fin q => round_q q | _ => a end.

(** ** Python numbers *)

(** An [int] has any size, a [float] is a binary64; [True] and [False]
    are the ints 1 and 0. *)
Inductive pynum :=
| PInt (z : Z)
| PFloat (f : float64).

Definition py_number (v : value) : result pynum :=
  match v with
  | VInt z => Ok (PInt z)
  | VBool b => Ok (PInt (if b then 1 else 0))
  | VFloat f => Ok (PFloat f)
  | _ => Raise TypeError
  end.

Section Numbers.
Context {lib : PyLib}.

(** [float(z)]: an int beyond the range of floats is refused. *)
Definition py_float_of_int (z : Z) : result float64 :=
  match round_q (inject_Z z) with
  | Fin q => Ok (Fin q)
  | _ => Raise OverflowError
  end.

(** [a + b]: exact on ints, in floats as soon as one of them is a float. *)
Definition py_add (a b : pynum) : result pynum :=
  match a, b with
  | PInt x, PInt y => Ok (PInt (x + y))
  | PInt x, PFloat g => f ← py_float_of_int x; Ok (PFloat (fround (fadd f g)))
  | PFloat f, PInt y => g ← py_float_of_int y; Ok (PFloat (fround (fadd f g)))
  | PFloat f, PFloat g => Ok (PFloat (fround (fadd f g)))
  end.

(** [acc + l[0] + l[1] + ...], as [sum] adds from the left. *)
Fixpoint py_sum_from (acc : pynum) (l : list value) : result pynum :=
  match l with
  | [] => Ok acc
  | v :: l' => x ← py_number v; acc' ← py_add acc x; py_sum_from acc' l'
  end.

(** [sum(l)] *)
Definition py_sum (l : list value) : result pynum := py_sum_from (PInt 0) l.

(** [a / n] for the length [n] of a non-empty list: the quotient of two
    ints is rounded once, and refused when it is beyond the range. *)
Definition py_truediv_len (a : pynum) (n : nat) : result float64 :=
  match a with
  | PInt x =>
      match round_q (inject_Z x / inject_Z (Z.of_nat n)) with
      | Fin q => Ok (Fin q)
      | _ => Raise OverflowError
      end
  | PFloat f => g ← py_float_of_int (Z.of_nat n); Ok (fround (fdiv f g))
  end.

End Numbers.

(** ** Paths *)

(** A [pathlib.Path] is its list of components.  Two different lists name
    two different files: links and [..] are not resolved. *)
Definition path := list string.

Fixpoint split_on (c : ascii) (l : list ascii) : list (list ascii) :=
  match l with
  | [] => [[]]
  | x :: l' =>
      let r := split_on c l' in
      if Ascii.eqb x c then [] :: r
      else match r with
           | h :: t => (x :: h) :: t
           | [] => [[x]]
           end
  end.

(** [Path(s)]: split at the slashes, dropping empty and [.] components. *)
Definition Path (s : string) : path :=
  let comps := String.string_of_list_ascii <$> split_on "/"%char (String.list_ascii_of_string s) in
  (if String.prefix "/" s then ["/"] else []) ++
  filter (fun c => c ≠ "" ∧ c ≠ ".") comps.

Definition path_name (p : path) : string := List.last p "".
Definition path_parent (p : path) : path := removelast p.
Definition path_join (p : path) (name : string) : path := p ++ [name].

(** [str(p)]: the current directory prints as a dot, and the root is not
    followed by a second slash. *)
Definition path_str (p : path) : string :=
  match p with
  | [] => "."
  | c :: rest =>
      if String.eqb c "/" then "/" +:+ String.concat "/" rest
      else String.concat "/" p
  end.

(** Index of the last dot of a name, [name.rfind('.')]. *)
Fixpoint rfind_dot (l : list ascii) : option nat :=
  match l with
  | [] => None
  | c :: l' =>
      match rfind_dot l' with
      | Some i => Some (S i)
      | None => if Ascii.eqb c "."%char then Some 0%nat else None
      end
  end.

(** Where the suffix of a name starts: the last dot, unless it is the
    first or the last character ([0 < i < len(name) - 1]). *)
Definition suffix_start (l : list ascii) : option nat :=
  match rfind_dot l with
  | Some i => if bool_decide (0 < i < length l - 1)%nat then Some i else None
  | None => None
  end.

Definition path_suffix (p : path) : string :=
  let l := String.list_ascii_of_string (path_name p) in
  match suffix_start l with
  | Some i => String.string_of_list_ascii (drop i l)
  | None => ""
  end.

Definition path_stem (p : path) : string :=
  let l := String.list_ascii_of_string (path_name p) in
  match suffix_start l with
  | Some i => String.string_of_list_ascii (take i l)
  | None => path_name p
  end.

Definition lower_char (c : ascii) : ascii :=
  let n := Ascii.nat_of_ascii c in
  if bool_decide (65 ≤ n ≤ 90)%nat then Ascii.ascii_of_nat (n + 32) else c.

(** [str.lower()], on the ASCII letters. *)
Definition lower (s : string) : string :=
  String.string_of_list_ascii (lower_char <$> String.list_ascii_of_string s).

Definition endswith (s suf : string) : bool :=
  let l := String.list_ascii_of_string s in
  let u := String.list_ascii_of_string suf in
  bool_decide (drop (length l - length u) l = u).

(** ** Data frames *)

(** A frame is its number of rows and its columns in order, each with one
    cell per row. *)
Record DataFrame := {
  nrows : nat;
  cols : list (string * Series)
}.

Definition df_columns (df : DataFrame) : list string := (cols df).*1.

(** [c in df.columns] *)
Definition has_column (df : DataFrame) (c : string) : bool :=
  bool_decide (c ∈ df_columns df).

Fixpoint col_lookup (c : string) (l : list (string * Series)) : option Series :=
  match l with
  | [] => None
  | (c', s) :: l' => if String.eqb c c' then Some s else col_lookup c l'
  end.

(** [df[c]] *)
Definition df_getitem (df : DataFrame) (c : string) : result Series :=
  match col_lookup c (cols df) with
  | Some s => Ok s
  | None => Raise (KeyError c)
  end.

Definition is_dict (v : value) : bool :=
  match v with VDict _ => true | _ => false end.

Definition record_keys (v : value) : list string :=
  match v with VDict d => d.*1 | _ => [] end.

(** What the record [v] holds under [c], if anything. *)
Definition record_cell (c : string) (v : value) : option value :=
  match v with VDict d => dict_lookup c d | _ => None end.

(** Keys in order of first appearance. *)
Fixpoint first_seen (seen : list string) (ks : list string) : list string :=
  match ks with
  | [] => []
  | k :: ks' =>
      if bool_decide (k ∈ seen) then first_seen seen ks'
      else k :: first_seen (k :: seen) ks'
  end.

(** The [i]-th row, as the record of its cells. *)
Definition df_row (df : DataFrame) (i : nat) : list (string * value) :=
  (fun '(c, s) => (c, default (VFloat NaN) (s !! i))) <$> cols df.

(** *** Column types *)

Definition in_int64 (z : Z) : bool := Z.leb (- 2 ^ 63) z && Z.ltb z (2 ^ 63).

(** numpy's int64 arithmetic wraps around silently. *)
Definition wrap64 (z : Z) : Z := (z + 2 ^ 63) mod 2 ^ 64 - 2 ^ 63.

Inductive dtype := Int64 | Float64 | Bool | Object.

Definition is_int64 (v : value) : bool :=
  match v with VInt z => in_int64 z | _ => false end.
Definition is_float (v : value) : bool :=
  match v with VFloat _ => true | _ => false end.
Definition is_bool (v : value) : bool :=
  match v with VBool _ => true | _ => false end.

(** The type pandas has given a column with these cells: floats only,
    ints only, booleans only, or objects.  A column without cells
    computes to a column without cells whatever its type; it is counted
    with the floats. *)
Definition dtype_of (s : Series) : dtype :=
  if forallb is_float s then Float64
  else if forallb is_int64 s then Int64
  else if forallb is_bool s then Bool
  else Object.

Definition cell_int (v : value) : Z :=
  match v with
  | VInt z => z
  | VBool b => if b then 1 else 0
  | _ => 0
  end.

Definition cell_bool (v : value) : bool :=
  match v with VBool b => b | _ => false end.

(** The cells of a column as numbers. *)
Definition series_floats (s : Series) : result (list float64) := mapM to_float s.

Section Frames.
Context {lib : PyLib}.

(** [float(z)] of an int64, which is always in range. *)
Definition float_of_int64 (z : Z) : float64 := round_q (inject_Z z).

(** A cell of a numeric column as numpy converts it to float64. *)
Definition cell_float (v : value) : float64 :=
  match v with
  | VInt z => float_of_int64 z
  | VFloat f => f
  | VBool b => Fin (if b then 1 else 0)
  | _ => NaN
  end.

(** *** A frame from records *)

Definition is_int_cell (x : option value) : bool :=
  match x with Some (VInt _) => true | _ => false end.
Definition is_null_cell (x : option value) : bool :=
  match x with Some VNone => true | _ => false end.
Definition is_numeric_cell (x : option value) : bool :=
  match x with
  | None | Some VNone | Some (VFloat _) | Some (VInt _) => true
  | _ => false
  end.
Definition out_of_range (x : option value) : bool :=
  match x with Some (VInt z) => negb (in_int64 z) | _ => false end.

Definition float_cell (x : option value) : value :=
  match x with
  | Some (VInt z) => VFloat (float_of_int64 z)
  | Some (VFloat f) => VFloat f
  | _ => VFloat NaN
  end.

Definition object_cell (x : option value) : value :=
  match x with Some v => v | None => VFloat NaN end.

(** The column pandas builds from the cells of the records, [None] where
    a record lacks the key.  A column of ints stays as it is.  Numbers
    with a float, a [null] or a missing cell among them become float64:
    every int is converted and every [null] or missing cell is NaN.  Any
    other column holds the objects themselves, and NaN for a missing
    cell.  Ints beyond int64 in a numeric column are outside this
    model. *)
Definition convert_column (cells : list (option value)) : result Series :=
  if forallb is_numeric_cell cells && negb (forallb is_null_cell cells) then
    if existsb out_of_range cells then Raise NotModelled
    else if forallb is_int_cell cells then Ok (object_cell <$> cells)
    else Ok (float_cell <$> cells)
  else Ok (object_cell <$> cells).

Definition frame_of_records (recs : list value) : result DataFrame :=
  let names := first_seen [] (concat (record_keys <$> recs)) in
  columns ← mapM (fun c => s ← convert_column (record_cell c <$> recs); Ok (c, s)) names;
  Ok {| nrows := length recs; cols := columns |}.

(** [pd.DataFrame(v)].  A list of records gives one row per record and
    one column per key.  A scalar is refused by pandas.  The other shapes
    give frames whose column labels are integers or need an index; they
    are outside this model. *)
Definition pd_DataFrame (v : value) : result DataFrame :=
  match v with
  | VList recs =>
      if forallb is_dict recs then frame_of_records recs
      else Raise NotModelled
  | VNone => Ok {| nrows := 0; cols := [] |}
  | VBool _ | VInt _ | VFloat _ | VStr _ => Raise ValueError
  | VDict _ => Raise NotModelled
  end.

(** *** Element-wise arithmetic of columns *)

(** [a + b]: int64 wraps around, two boolean columns are or-ed, and a
    float on either side makes the sum a float.  Columns of objects
    compute cell by cell in Python; they are outside this model. *)
Definition series_add (a b : Series) : result Series :=
  match dtype_of a, dtype_of b with
  | Object, _ | _, Object => Raise NotModelled
  | Bool, Bool => Ok (zip_with (fun x y => VBool (cell_bool x || cell_bool y)) a b)
  | Int64, Int64 | Int64, Bool | Bool, Int64 =>
      Ok (zip_with (fun x y => VInt (wrap64 (cell_int x + cell_int y))) a b)
  | _, _ =>
      Ok (zip_with (fun x y => VFloat (fround (fadd (cell_float x) (cell_float y)))) a b)
  end.

(** [a / b]: both sides are converted to float64 and divided, a zero
    divisor giving an infinity or NaN; pandas refuses to divide a boolean
    column by a boolean column. *)
Definition series_div (a b : Series) : result Series :=
  match dtype_of a, dtype_of b with
  | Object, _ | _, Object => Raise NotModelled
  | Bool, Bool => Raise NotImplementedError
  | _, _ =>
      Ok (zip_with (fun x y => VFloat (fround (fdiv (cell_float x) (cell_float y)))) a b)
  end.

(** [a * k] for a Python int [k]. *)
Definition series_mul_scalar (a : Series) (k : Z) : result Series :=
  match dtype_of a with
  | Object => Raise NotModelled
  | Float64 => Ok ((fun x => VFloat (fround (fmul (cell_float x) (Fin (inject_Z k))))) <$> a)
  | Int64 | Bool => Ok ((fun x => VInt (wrap64 (cell_int x * k))) <$> a)
  end.

End Frames.

(** ** Figures and files *)

(** One drawing call: the axes (or subplot cell) it targets, the
    primitive, and its data arguments. *)
Record draw := Draw {
  draw_ax : string;
  draw_prim : string;
  draw_args : list Series
}.

Definition figure := list draw.

Inductive content :=
| Json (data : value)      (* text that json.load parses to data *)
| Csv (df : DataFrame)     (* text that pd.read_csv parses to df *)
| Png (fig : figure)       (* image written by plt.savefig *)
| Html (fig : figure)      (* page written by plotly.offline.plot *)
| Blob.                    (* anything else *)

Record world := World {
  files : gmap path content;
  dirs : gset path;
  stdout : list string
}.

(** ** The monad of the scripts: state and exceptions *)

Definition M (A : Type) : Type := world -> result A * world.

#[export] Instance M_ret : MRet M := fun A a w => (Ok a, w).
#[export] Instance M_bind : MBind M := fun A B f m w =>
  match m w with
  | (Ok a, w') => f a w'
  | (Raise e, w') => (Raise e, w')
  end.

Definition raise {A} (e : exn) : M A := fun w => (Raise e, w).
Definition lift {A} (r : result A) : M A := fun w => (r, w).

Definition print (s : string) : M unit := fun w =>
  (Ok tt, World (files w) (dirs w) (stdout w ++ [s])).

Definition sys_exit {A} (code : Z) : M A := raise (SystemExit code).

(** The working directory always exists. *)
Definition is_dir (w : world) (p : path) : bool :=
  bool_decide (p = [] ∨ p ∈ dirs w).

(** [with open(p) as f: json.load(f)] *)
Definition json_load (p : path) : M value := fun w =>
  if is_dir w p then (Raise IsADirectoryError, w)
  else match files w !! p with
       | None => (Raise FileNotFoundError, w)
       | Some (Json v) => (Ok v, w)
       | Some _ => (Raise JSONDecodeError, w)
       end.

(** [pd.read_csv(p)] *)
Definition read_csv (p : path) : M DataFrame := fun w =>
  if is_dir w p then (Raise IsADirectoryError, w)
  else match files w !! p with
       | None => (Raise FileNotFoundError, w)
       | Some (Csv df) => (Ok df, w)
       | Some _ => (Raise ParserError, w)
       end.

(** [p.mkdir(exist_ok=True)] *)
Definition mkdir_exist_ok (p : path) : M unit := fun w =>
  if is_dir w p then (Ok tt, w)
  else if bool_decide (is_Some (files w !! p)) then (Raise FileExistsError, w)
  else if is_dir w (path_parent p) then
    (Ok tt, World (files w) ({[p]} ∪ dirs w) (stdout w))
  else (Raise FileNotFoundError, w).

(** Creating or overwriting the file at [p]. *)
Definition write_file (p : path) (c : content) : M unit := fun w =>
  if is_dir w p then (Raise IsADirectoryError, w)
  else if is_dir w (path_parent p) then
    (Ok tt, World (<[p := c]> (files w)) (dirs w) (stdout w))
  else (Raise FileNotFoundError, w).

(** [plt.savefig(p)] for the figure drawn so far. *)
Definition savefig (p : path) (fig : figure) : M unit := write_file p (Png fig).

(** The file [plotly.offline.plot] writes for [filename]: the library
    appends [.html] to a name that does not end with it. *)
Definition html_target (filename : string) : path :=
  if endswith filename ".html" then Path filename
  else Path (filename +:+ ".html").

(** [pyo.plot(fig, filename=str(p), auto_open=False)] *)
Definition pyo_plot (p : path) (fig : figure) : M unit :=
  write_file (html_target (path_str p)) (Html fig).

Definition nl : string := String (Ascii.ascii_of_nat 10) EmptyString.

(** [a and b], where [b] is only evaluated when [a] holds. *)
Definition and_then (a : result bool) (b : result bool) : result bool :=
  x ← a; if (x : bool) then b else Ok false.

Section Shared.
Context {lib : PyLib}.

(** [f"{v:spec}"] with a float format such as [.2f]: numbers only. *)
Definition format_value (spec : string) (v : value) : result string :=
  match v with
  | VInt _ | VFloat _ | VBool _ => x ← as_number v; Ok (py_format spec x)
  | VStr _ => Raise ValueError
  | _ => Raise TypeError
  end.

(** The names of the [*.png] files directly inside [dir], as
    [dir.glob('*.png')] lists them (in an order the model fixes). *)
Definition glob_png (dir : path) (w : world) : list string :=
  path_name <$>
    filter (fun p => p ≠ [] ∧ path_parent p = dir ∧ endswith (path_name p) ".png" = true)
           (elements (dom (files w))).

Fixpoint print_all (lines : list string) : M unit :=
  match lines with
  | [] => (mret tt : M unit)
  | l :: ls => print l;; print_all ls
  end.

Definition print_generated (dir : path) : M unit := fun w =>
  print_all ((fun n => "  - " +:+ n) <$> glob_png dir w) w.

(** The budget-utilization series of both scripts:
    [(df['TotalCost'] / (df['TotalCost'] + df['AvailableBudget'])) * 100]. *)
Definition budget_utilization (df : DataFrame) : result Series :=
  c ← df_getitem df "TotalCost";
  c' ← df_getitem df "TotalCost";
  b ← df_getitem df "AvailableBudget";
  s ← series_add c' b;
  q ← series_div c s;
  series_mul_scalar q 100.

(** The comprehension of both sensitivity scripts:
    [[param_result['TimeToEquilibriumByValue'].get(str(v), 0) for v in
    param_values]] *)
Definition time_values (param_result : value) (param_values : list value) : result Series :=
  mapM (fun v => d ← py_getitem param_result "TimeToEquilibriumByValue";
                 py_get d (py_str v) (VInt 0)) param_values.

(** [not data or key not in data] *)
Definition lacks (data : value) (key : string) : result bool :=
  if py_truthy data then b ← py_in key data; Ok (negb b) else Ok true.

End Shared.

(** * plot_simulation.py *)
Module PlotSimulation.
Section Script.
Context {lib : PyLib}.

Definition load_simulation_data (file_path : string) : M (value * option DataFrame) :=
  let file_path := Path file_path in
  if String.eqb (lower (path_suffix file_path)) ".json" then
    data ← json_load file_path;
    has_ts ← lift (py_in "TimeSeries" data);
    if (has_ts : bool) then
      ts ← lift (py_getitem data "TimeSeries");
      df ← lift (pd_DataFrame ts);
      mret (data, Some df)
    else
      print "Error: No TimeSeries data found in JSON file";;
      mret (VNone, None)
  else if String.eqb (lower (path_suffix file_path)) ".csv" then
    df ← read_csv file_path;
    mret (VNone, Some df)
  else
    print ("Error: Unsupported file format " +:+ path_suffix file_path);;
    mret (VNone, None).

(** The columns holding the head counts, or [None] when the function
    gives up with a warning. *)
Definition workforce_columns (df : DataFrame) : option (string * string) :=
  if has_column df "Workforce.Humans.Total" then
    Some ("Workforce.Humans.Total", "Workforce.AIAgents.Total")
  else if has_column df "TotalHumans" then Some ("TotalHumans", "TotalAIAgents")
  else None.

Definition workforce_figure (df : DataFrame) (humans_col ai_col : string) : result figure :=
  t1 ← df_getitem df "TimeStep"; h1 ← df_getitem df humans_col;
  t2 ← df_getitem df "TimeStep"; a2 ← df_getitem df ai_col;
  t3 ← df_getitem df "TimeStep"; h3 ← df_getitem df humans_col;
  t4 ← df_getitem df "TimeStep"; h4 ← df_getitem df humans_col;
  h5 ← df_getitem df humans_col; a5 ← df_getitem df ai_col;
  top ← series_add h5 a5;
  Ok [ Draw "ax1" "plot" [t1; h1];
       Draw "ax1" "plot" [t2; a2];
       Draw "ax2" "fill_between" [t3; [VInt 0]; h3];
       Draw "ax2" "fill_between" [t4; h4; top] ].

Definition plot_workforce_composition (df : DataFrame) (output_dir : path) : M unit :=
  match workforce_columns df with
  | None => print "Warning: Could not find workforce composition columns"
  | Some (humans_col, ai_col) =>
      fig ← lift (workforce_figure df humans_col ai_col);
      savefig (path_join output_dir "workforce_composition.png") fig
  end.

(** [ax.plot(df['TimeStep'], df[c])] when [c] is a column. *)
Definition plot_column (ax : string) (df : DataFrame) (c : string) : result figure :=
  if has_column df c then
    t ← df_getitem df "TimeStep"; y ← df_getitem df c;
    Ok [Draw ax "plot" [t; y]]
  else Ok [].

Definition revenue_figure (df : DataFrame) : result figure :=
  r ← plot_column "ax1" df "RevenueOutput";
  p ← plot_column "ax2" df "TotalProductivity";
  Ok (r ++ p).

Definition plot_revenue_and_productivity (df : DataFrame) (output_dir : path) : M unit :=
  fig ← lift (revenue_figure df);
  savefig (path_join output_dir "revenue_productivity.png") fig.

Definition cost_figure (df : DataFrame) : result figure :=
  if has_column df "TotalCost" && has_column df "AvailableBudget" then
    t1 ← df_getitem df "TimeStep"; c ← df_getitem df "TotalCost";
    t2 ← df_getitem df "TimeStep"; b ← df_getitem df "AvailableBudget";
    u ← budget_utilization df;
    t3 ← df_getitem df "TimeStep";
    Ok [ Draw "ax1" "plot" [t1; c];
         Draw "ax1" "plot" [t2; b];
         Draw "ax2" "plot" [t3; u] ]
  else Ok [].

Definition plot_cost_analysis (df : DataFrame) (output_dir : path) : M unit :=
  fig ← lift (cost_figure df);
  savefig (path_join output_dir "cost_analysis.png") fig.

(** ['EquilibriumState' in data and 'Workforce' in data['EquilibriumState']] *)
Definition has_workforce (data : value) : result bool :=
  and_then (py_in "EquilibriumState" data)
           (es ← py_getitem data "EquilibriumState"; py_in "Workforce" es).

Definition get_workforce (data : value) : result value :=
  es ← py_getitem data "EquilibriumState"; py_getitem es "Workforce".

Definition equilibrium_figure (data : value) : result figure :=
  has_t ← py_in "TimeToEquilibrium" data;
  f1 ← (if (has_t : bool) then
          t ← py_getitem data "TimeToEquilibrium";
          Ok [Draw "ax1" "bar" [[VStr "Time to Equilibrium"]; [t]]]
        else Ok []);
  has_w ← has_workforce data;
  f2 ← (if (has_w : bool) then
          workforce ← get_workforce data;
          both ← and_then (py_in "Humans" workforce) (py_in "AIAgents" workforce);
          if (both : bool) then
            hs ← py_getitem workforce "Humans"; h ← py_getitem hs "Total";
            ais ← py_getitem workforce "AIAgents"; a ← py_getitem ais "Total";
            Ok [Draw "ax2" "pie" [[h; a]; [VStr "Human Workers"; VStr "AI Agents"]]]
          else Ok []
        else Ok []);
  has_w' ← has_workforce data;
  f3 ← (if (has_w' : bool) then
          workforce ← get_workforce data;
          by_exp ← and_then (py_in "Humans" workforce)
                            (hs ← py_getitem workforce "Humans"; py_in "ByExperience" hs);
          if (by_exp : bool) then
            hs ← py_getitem workforce "Humans";
            exp_data ← py_getitem hs "ByExperience";
            levels ← py_keys exp_data;
            counts ← py_values exp_data;
            Ok [Draw "ax3" "bar" [levels; counts]]
          else Ok []
        else Ok []);
  has_f ← py_in "TotalCatastrophicFailures" data;
  f4 ← (if (has_f : bool) then
          n ← py_getitem data "TotalCatastrophicFailures";
          Ok [Draw "ax4" "bar" [[VStr "Total Failures"]; [n]]]
        else Ok []);
  Ok (f1 ++ f2 ++ f3 ++ f4).

Definition plot_equilibrium_analysis (data : value) (df : DataFrame) (output_dir : path) : M unit :=
  match data with
  | VNone => print "Warning: Cannot create equilibrium analysis without JSON data"
  | _ =>
      fig ← lift (equilibrium_figure data);
      savefig (path_join output_dir "equilibrium_analysis.png") fig
  end.

Definition text (ax : string) (s : string) : figure := [Draw ax "text" [[VStr s]]].

(** The bottom row of the dashboard, drawn [if data:]. *)
Definition key_metrics (data : value) : result figure :=
  has_t ← py_in "TimeToEquilibrium" data;
  f5 ← (if (has_t : bool) then
          t ← py_getitem data "TimeToEquilibrium";
          Ok (text "ax5" (py_str t +:+ nl +:+ "Time Steps"))
        else Ok []);
  has_w ← has_workforce data;
  f6 ← (if (has_w : bool) then
          workforce ← get_workforce data;
          both ← and_then (py_in "Humans" workforce) (py_in "AIAgents" workforce);
          if (both : bool) then
            hs ← py_getitem workforce "Humans"; total_humans ← py_getitem hs "Total";
            ais ← py_getitem workforce "AIAgents"; total_ai ← py_getitem ais "Total";
            h ← as_number total_humans;
            ratio ← (if fgt h fzero then a ← as_number total_ai; Ok (fdiv a h)
                     else Ok fzero);
            Ok (text "ax6" (py_format ".2f" ratio +:+ nl +:+ "AI:Human Ratio"))
          else Ok []
        else Ok []);
  has_f ← py_in "TotalCatastrophicFailures" data;
  f7 ← (if (has_f : bool) then
          n ← py_getitem data "TotalCatastrophicFailures";
          Ok (text "ax7" (py_str n +:+ nl +:+ "Failures"))
        else Ok []);
  has_r ← and_then (py_in "EquilibriumState" data)
                   (es ← py_getitem data "EquilibriumState"; py_in "RevenueOutput" es);
  f8 ← (if (has_r : bool) then
          es ← py_getitem data "EquilibriumState";
          revenue ← py_getitem es "RevenueOutput";
          s ← format_value ",.0f" revenue;
          Ok (text "ax8" ("$" +:+ s +:+ nl +:+ "Final Revenue"))
        else Ok []);
  Ok (f5 ++ f6 ++ f7 ++ f8).

Definition dashboard_figure (data : value) (df : DataFrame) : result figure :=
  let '(humans_col, ai_col) :=
    if has_column df "Workforce.Humans.Total"
    then ("Workforce.Humans.Total", "Workforce.AIAgents.Total")
    else ("TotalHumans", "TotalAIAgents") in
  f1 ← (if has_column df humans_col then
          t1 ← df_getitem df "TimeStep"; h ← df_getitem df humans_col;
          t2 ← df_getitem df "TimeStep"; a ← df_getitem df ai_col;
          Ok [Draw "ax1" "plot" [t1; h]; Draw "ax1" "plot" [t2; a]]
        else Ok []);
  f2 ← plot_column "ax2" df "RevenueOutput";
  f3 ← (if has_column df "TotalCost" then
          t1 ← df_getitem df "TimeStep"; c ← df_getitem df "TotalCost";
          b ← plot_column "ax3" df "AvailableBudget";
          Ok (Draw "ax3" "plot" [t1; c] :: b)
        else Ok []);
  f4 ← plot_column "ax4" df "TotalProductivity";
  f5 ← (if py_truthy data then key_metrics data else Ok []);
  Ok (f1 ++ f2 ++ f3 ++ f4 ++ f5).

Definition create_summary_dashboard (data : value) (df : DataFrame) (output_dir : path) : M unit :=
  fig ← lift (dashboard_figure data df);
  savefig (path_join output_dir "simulation_dashboard.png") fig.

(** The parsed command line. *)
Record args := Args {
  input_file : string;
  output : string;          (* -o, default 'plots' *)
  dashboard_only : bool
}.

Definition main (a : args) : M unit :=
  let output_dir := Path (output a) in
  mkdir_exist_ok output_dir;;
  print ("Loading simulation data from " +:+ input_file a +:+ "...");;
  '(data, df) ← load_simulation_data (input_file a);
  match df with
  | None => print "Error: Could not load simulation data";; sys_exit 1
  | Some df =>
      print ("Loaded " +:+ py_str (VInt (Z.of_nat (nrows df))) +:+ " time steps of simulation data");;
      (if dashboard_only a then
         print "Creating summary dashboard...";;
         create_summary_dashboard data df output_dir
       else
         print "Creating workforce composition plots...";;
         plot_workforce_composition df output_dir;;
         print "Creating revenue and productivity plots...";;
         plot_revenue_and_productivity df output_dir;;
         print "Creating cost analysis plots...";;
         plot_cost_analysis df output_dir;;
         print "Creating equilibrium analysis...";;
         plot_equilibrium_analysis data df output_dir;;
         print "Creating summary dashboard...";;
         create_summary_dashboard data df output_dir);;
      print ("Plots saved to " +:+ path_str output_dir +:+ "/");;
      print "Generated files:";;
      print_generated output_dir
  end.

End Script.
End PlotSimulation.

(** * plot_sensitivity.py *)
Module PlotSensitivity.
Section Script.
Context {lib : PyLib}.

Definition load_sensitivity_data (file_path : string) : M (value * option DataFrame) :=
  let file_path := Path file_path in
  if String.eqb (lower (path_suffix file_path)) ".json" then
    data ← json_load file_path;
    mret (data, None)
  else if String.eqb (lower (path_suffix file_path)) ".csv" then
    df ← read_csv file_path;
    mret (VNone, Some df)
  else
    print ("Error: Unsupported file format " +:+ path_suffix file_path);;
    mret (VNone, None).

(** The first loop: [time_impacts] and [param_names] grow together. *)
Fixpoint time_entries (rankings : list value) : result (list value * list value) :=
  match rankings with
  | [] => Ok ([], [])
  | param :: rest =>
      b ← py_in "TimeToEquilibriumImpact" param;
      here ← (if (b : bool) then
                 t ← py_getitem param "TimeToEquilibriumImpact";
                 n ← py_getitem param "ParameterName";
                 Ok (Some (t, n))
               else Ok None);
      '(ts, ns) ← time_entries rest;
      Ok match here with
         | Some (t, n) => (t :: ts, n :: ns)
         | None => (ts, ns)
         end
  end.

(** The second loop: [comp_impacts]. *)
Fixpoint comp_entries (rankings : list value) : result (list value) :=
  match rankings with
  | [] => Ok []
  | param :: rest =>
      b ← py_in "WorkforceCompositionImpact" param;
      here ← (if (b : bool) then
                 c ← py_getitem param "WorkforceCompositionImpact"; Ok [c]
               else Ok []);
      cs ← comp_entries rest;
      Ok (here ++ cs)
  end.

(** [np.arange(n)] *)
Definition arange (n : nat) : Series := (fun i => VInt (Z.of_nat i)) <$> seq 0 n.

(** Bar positions and widths must have the same length, or one of them
    length one (numpy broadcasting inside [Axes.barh]). *)
Definition broadcastable (n m : nat) : bool :=
  bool_decide (n = m ∨ n = 1%nat ∨ m = 1%nat).

(** [bars = ax.barh(y_pos, widths)], the ticks, and one value label
    [f'{width:.3f}'] per bar; the widths of bars are numbers. *)
Definition barh (ax : string) (y_pos widths names : Series) : result figure :=
  if broadcastable (length y_pos) (length widths) then
    ws ← mapM as_number widths;
    let bars := if bool_decide (length ws = 1%nat)
                then concat (replicate (length y_pos) ws) else ws in
    Ok ([Draw ax "barh" [y_pos; widths]; Draw ax "yticks" [y_pos; names]] ++
        ((fun w => Draw ax "text" [[VStr (py_format ".3f" w)]]) <$> bars))
  else Raise ValueError.

Definition rankings_figure (rankings : value) : result figure :=
  params ← py_iter rankings;
  '(time_impacts, param_names) ← time_entries params;
  (* y_pos is only bound inside [if time_impacts:] *)
  let y_pos := if bool_decide (time_impacts = []) then None
               else Some (arange (length param_names)) in
  f1 ← match y_pos with
       | Some ys => barh "ax1" ys time_impacts param_names
       | None => Ok []
       end;
  params' ← py_iter rankings;
  comp_impacts ← comp_entries params';
  f2 ← (if bool_decide (comp_impacts = []) then Ok []
        else match y_pos with
             | Some ys => barh "ax2" ys comp_impacts param_names
             | None => Raise (UnboundLocalError "y_pos")
             end);
  Ok (f1 ++ f2).

Definition plot_parameter_rankings (data : value) (output_dir : path) : M unit :=
  skip ← lift (lacks data "ParameterRankings");
  if (skip : bool) then print "Warning: No parameter rankings found in data"
  else
    rankings ← lift (py_getitem data "ParameterRankings");
    fig ← lift (rankings_figure rankings);
    savefig (path_join output_dir "parameter_rankings.png") fig.

(** What [axes[i]] is after the reshaping at the top of
    [plot_parameter_variations]. *)
Inductive axes_slot :=
| Axes (i : nat)        (* one subplot *)
| AxesArray.            (* a whole numpy array of subplots *)

(** [plt.subplots(rows, cols)] gives one subplot for a 1x1 grid, a flat
    array for a single row, a matrix otherwise; the function wraps the
    first two in a list and flattens the third. *)
Definition reshape_axes (n_params rows cols : nat) : list axes_slot :=
  if bool_decide (n_params = 1%nat) then [Axes 0]
  else if bool_decide (rows = 1%nat) then [AxesArray]
  else Axes <$> seq 0 (rows * cols).

(** [ax.plot(xs, ys)]: an array of subplots has no [plot]. *)
Definition plot_on (ax : axes_slot) (xs ys : Series) : result figure :=
  match ax with
  | Axes i => Ok [Draw ("axes[" +:+ pretty i +:+ "]") "plot" [xs; ys]]
  | AxesArray => Raise AttributeError
  end.

Fixpoint variation_plots (axes : list axes_slot) (i : nat) (results : list value)
  : result figure :=
  match results with
  | [] => Ok []
  | param_result :: rest =>
      match axes !! i with
      | None => Ok []                      (* break *)
      | Some ax =>
          param_name ← py_getitem param_result "ParameterName";
          both ← and_then (py_in "ParameterValues" param_result)
                          (py_in "TimeToEquilibriumByValue" param_result);
          f ← (if (both : bool) then
                 pv ← py_getitem param_result "ParameterValues";
                 param_values ← py_iter pv;
                 tv ← time_values param_result param_values;
                 plot_on ax param_values tv
               else Ok []);
          fs ← variation_plots axes (S i) rest;
          Ok (f ++ fs)
      end
  end.

Definition variations_figure (results : value) : result figure :=
  n_params ← py_len results;
  let cols := Nat.min 3 n_params in
  rows ← (if bool_decide (cols = 0%nat) then Raise ZeroDivisionError
          else Ok ((n_params + cols - 1) / cols)%nat);
  let axes := reshape_axes n_params rows cols in
  items ← py_iter results;
  variation_plots axes 0 items.

Definition plot_parameter_variations (data : value) (output_dir : path) : M unit :=
  skip ← lift (lacks data "SensitivityResults");
  if (skip : bool) then print "Warning: No sensitivity results found in data"
  else
    results ← lift (py_getitem data "SensitivityResults");
    fig ← lift (variations_figure results);
    savefig (path_join output_dir "parameter_variations.png") fig.

Definition is_param_col (col : string) : bool :=
  String.prefix "Param_" col ||
  bool_decide (col ∈ ["InitialHumans"; "FixedBudget"; "NaturalRate"]).

Definition is_outcome_col (col : string) : bool :=
  bool_decide (col ∈ ["TimeToEquilibrium"; "FinalHumans"; "FinalAIAgents"; "FinalRevenue"]).

Definition param_cols (df : DataFrame) : list string :=
  filter (fun c => is_param_col c = true) (df_columns df).

Definition outcome_cols (df : DataFrame) : list string :=
  filter (fun c => is_param_col c = false ∧ is_outcome_col c = true) (df_columns df).

(** One record of [corr_data]. *)
Record corr_entry := CorrEntry {
  entry_parameter : string;
  entry_outcome : string;
  entry_correlation : value
}.

Definition corr_data (df : DataFrame) : result (list corr_entry) :=
  rows ← mapM (fun param =>
            cells ← mapM (fun outcome =>
                if has_column df param && has_column df outcome then
                  a ← df_getitem df param;
                  b ← df_getitem df outcome;
                  corr ← series_corr a b;
                  Ok [CorrEntry param outcome corr]
                else Ok []) (outcome_cols df);
            Ok (concat cells)) (param_cols df);
  Ok (concat rows).

Fixpoint insert_sorted (x : string) (l : list string) : list string :=
  match l with
  | [] => [x]
  | y :: l' => if String.leb x y then x :: l else y :: insert_sorted x l'
  end.

(** Sorted labels without repetition, as a pivot orders them. *)
Definition sorted_labels (l : list string) : list string :=
  foldr insert_sorted [] (remove_dups l).

Definition pivot_cell (entries : list corr_entry) (p o : string) : value :=
  match List.find (fun e => String.eqb (entry_parameter e) p && String.eqb (entry_outcome e) o) entries with
  | Some e => entry_correlation e
  | None => VFloat NaN
  end.

(** [corr_df.pivot(index='Parameter', columns='Outcome',
    values='Correlation')]: refused when a pair occurs twice. *)
Record pivot_table := PivotTable {
  pt_index : list string;
  pt_columns : list string;
  pt_rows : list Series
}.

Definition pivot (entries : list corr_entry) : result pivot_table :=
  if bool_decide (NoDup ((fun e => (entry_parameter e, entry_outcome e)) <$> entries)) then
    let index := sorted_labels (entry_parameter <$> entries) in
    let columns := sorted_labels (entry_outcome <$> entries) in
    Ok (PivotTable index columns
          ((fun p => pivot_cell entries p <$> columns) <$> index))
  else Raise ValueError.

(** [sns.heatmap(corr_matrix, annot=True)] *)
Definition heatmap (t : pivot_table) : draw :=
  Draw "" "heatmap" ((VStr <$> pt_index t) :: (VStr <$> pt_columns t) :: pt_rows t).

(** The figure, or [None] when the function returns early. *)
Definition heatmap_figure (df : DataFrame) : result (option figure) :=
  if bool_decide (param_cols df = []) || bool_decide (outcome_cols df = []) then Ok None
  else
    entries ← corr_data df;
    if bool_decide (entries = []) then Ok None
    else t ← pivot entries; Ok (Some [heatmap t]).

Definition plot_sensitivity_heatmap (df : option DataFrame) (output_dir : path) : M unit :=
  match df with
  | None => print "Warning: No CSV data available for heatmap"
  | Some df =>
      if bool_decide (param_cols df = []) || bool_decide (outcome_cols df = []) then
        print "Warning: Could not identify parameter and outcome columns for heatmap"
      else
        fig ← lift (heatmap_figure df);
        match fig with
        | None => mret tt
        | Some fig => savefig (path_join output_dir "sensitivity_heatmap.png") fig
        end
  end.

Definition is_label (s : string) (x : value) : bool :=
  match x with VStr s' => String.eqb s' s | _ => false end.

(** The number written in the cell of row [p] and column [o] of a drawn
    heatmap. *)
Definition heatmap_cell (d : draw) (p o : string) : option value :=
  match draw_args d with
  | index :: columns :: rows =>
      '(i, _) ← list_find (fun x => is_label p x = true) index;
      '(j, _) ← list_find (fun x => is_label o x = true) columns;
      row ← rows !! i;
      row !! j
  | _ => None
  end.

End Script.
End PlotSensitivity.

(** * interactive_dashboard.py *)
Module InteractiveDashboard.
Section Script.
Context {lib : PyLib}.

Definition load_simulation_data (file_path : string) : M (value * option DataFrame) :=
  let file_path := Path file_path in
  if String.eqb (lower (path_suffix file_path)) ".json" then
    data ← json_load file_path;
    has_ts ← lift (py_in "TimeSeries" data);
    if (has_ts : bool) then
      ts ← lift (py_getitem data "TimeSeries");
      df ← lift (pd_DataFrame ts);
      mret (data, Some df)
    else
      print "Error: No TimeSeries data found in JSON file";;
      mret (VNone, None)
  else
    print ("Error: Unsupported file format " +:+ path_suffix file_path);;
    mret (VNone, None).

(** [go.Scatter(x=df['TimeStep'], y=df[c])] in subplot [cell] when [c] is
    a column. *)
Definition scatter_column (cell : string) (df : DataFrame) (c : string) : result figure :=
  if has_column df c then
    t ← df_getitem df "TimeStep"; y ← df_getitem df c;
    Ok [Draw cell "Scatter" [t; y]]
  else Ok [].

(** The rows of the key-metrics table. *)
Definition metrics_data (data : value) : result (list (string * string)) :=
  has_t ← py_in "TimeToEquilibrium" data;
  m1 ← (if (has_t : bool) then
          t ← py_getitem data "TimeToEquilibrium";
          Ok [("Time to Equilibrium", py_str t +:+ " steps")]
        else Ok []);
  has_f ← py_in "TotalCatastrophicFailures" data;
  m2 ← (if (has_f : bool) then
          n ← py_getitem data "TotalCatastrophicFailures";
          Ok [("Catastrophic Failures", py_str n)]
        else Ok []);
  has_e ← py_in "EquilibriumState" data;
  m3 ← (if (has_e : bool) then
          eq_state ← py_getitem data "EquilibriumState";
          has_r ← py_in "RevenueOutput" eq_state;
          r ← (if (has_r : bool) then
                 v ← py_getitem eq_state "RevenueOutput";
                 s ← format_value ",.0f" v;
                 Ok [("Final Revenue", "$" +:+ s)]
               else Ok []);
          has_p ← py_in "TotalProductivity" eq_state;
          p ← (if (has_p : bool) then
                 v ← py_getitem eq_state "TotalProductivity";
                 s ← format_value ".2f" v;
                 Ok [("Final Productivity", s)]
               else Ok []);
          Ok (r ++ p)
        else Ok []);
  Ok (m1 ++ m2 ++ m3).

(** [go.Table] with the rows transposed by [zip]: one column of labels,
    one of values. *)
Definition table (cell : string) (rows : list (value * value)) : draw :=
  Draw cell "Table" [rows.*1; rows.*2].

Definition simulation_figure (data : value) (df : DataFrame) : result figure :=
  let '(humans_col, ai_col) :=
    if has_column df "Workforce.Humans.Total"
    then ("Workforce.Humans.Total", "Workforce.AIAgents.Total")
    else ("TotalHumans", "TotalAIAgents") in
  f1 ← (if has_column df humans_col then
          t1 ← df_getitem df "TimeStep"; h ← df_getitem df humans_col;
          t2 ← df_getitem df "TimeStep"; a ← df_getitem df ai_col;
          Ok [Draw "1,1" "Scatter" [t1; h]; Draw "1,1" "Scatter" [t2; a]]
        else Ok []);
  f2 ← scatter_column "1,2" df "RevenueOutput";
  f3 ← scatter_column "2,1" df "TotalCost";
  f4 ← scatter_column "2,1" df "AvailableBudget";
  f5 ← scatter_column "2,2" df "TotalProductivity";
  f6 ← (if has_column df "TotalCost" && has_column df "AvailableBudget" then
          u ← budget_utilization df;
          t ← df_getitem df "TimeStep";
          Ok [Draw "3,1" "Scatter" [t; u]]
        else Ok []);
  f7 ← (if py_truthy data then
          rows ← metrics_data data;
          Ok (if bool_decide (rows = []) then []
              else [table "3,2" ((fun '(k, v) => (VStr k, VStr v)) <$> rows)])
        else Ok []);
  Ok (f1 ++ f2 ++ f3 ++ f4 ++ f5 ++ f6 ++ f7).

Definition create_simulation_dashboard (data : value) (df : DataFrame) (output_path : path)
  : M unit :=
  fig ← lift (simulation_figure data df);
  pyo_plot output_path fig;;
  print ("Interactive dashboard saved to " +:+ path_str output_path).

(** The loop over the rankings: names, time impacts and composition
    impacts, one of each per entry. *)
Fixpoint ranking_columns (rankings : list value)
  : result (list value * list value * list value) :=
  match rankings with
  | [] => Ok ([], [], [])
  | param :: rest =>
      n ← py_getitem param "ParameterName";
      t ← py_get param "TimeToEquilibriumImpact" (VInt 0);
      c ← py_get param "WorkforceCompositionImpact" (VInt 0);
      '(ns, ts, cs) ← ranking_columns rest;
      Ok (n :: ns, t :: ts, c :: cs)
  end.

(** [max(l)] of a non-empty list: the first element no later one
    exceeds. *)
Definition py_max (x : float64) (l : list float64) : float64 :=
  fold_left (fun m y => if fgt y m then y else m) l x.

(** [l.index(m)]: the first position holding [m] (or the very object
    [m], which matters for NaN only). *)
Definition same_number (a b : float64) : bool :=
  feq a b || match a, b with NaN, NaN => true | _, _ => false end.

Fixpoint py_index (m : float64) (l : list float64) : option nat :=
  match l with
  | [] => None
  | x :: l' => if same_number x m then Some 0%nat else S <$> py_index m l'
  end.

(** [names[impacts.index(max(impacts))] if impacts else 'N/A'].  The
    impacts are taken as numbers here: the same list is summed a few lines
    below, where anything else raises [TypeError] as well. *)
Definition most_impactful (names impacts : list value) : result value :=
  match impacts with
  | [] => Ok (VStr "N/A")
  | _ :: _ =>
      xs ← mapM as_number impacts;
      match xs with
      | [] => Ok (VStr "N/A")
      | x :: rest =>
          match py_index (py_max x rest) xs with
          | Some i =>
              match names !! i with
              | Some n => Ok n
              | None => Raise ValueError
              end
          | None => Raise ValueError
          end
      end
  end.

(** [f"{sum(impacts)/len(impacts):.3f}" if impacts else 'N/A'] *)
Definition average_row (impacts : list value) : result value :=
  match impacts with
  | [] => Ok (VStr "N/A")
  | _ :: _ =>
      total ← py_sum impacts;
      m ← py_truediv_len total (length impacts);
      Ok (VStr (py_format ".3f" m))
  end.

Definition summary_data (names time_impacts comp_impacts : list value)
  : result (list (value * value)) :=
  r2 ← most_impactful names time_impacts;
  r3 ← most_impactful names comp_impacts;
  r4 ← average_row time_impacts;
  r5 ← average_row comp_impacts;
  Ok [ (VStr "Total Parameters Analyzed", VStr (py_str (VInt (Z.of_nat (length names)))));
       (VStr "Most Impactful (Time)", r2);
       (VStr "Most Impactful (Composition)", r3);
       (VStr "Avg Time Impact", r4);
       (VStr "Avg Composition Impact", r5) ].

(** The scatter traces of the parameter variations. *)
Fixpoint variation_traces (results : list value) : result figure :=
  match results with
  | [] => Ok []
  | param_result :: rest =>
      param_name ← py_getitem param_result "ParameterName";
      both ← and_then (py_in "ParameterValues" param_result)
                      (py_in "TimeToEquilibriumByValue" param_result);
      f ← (if (both : bool) then
             pv ← py_getitem param_result "ParameterValues";
             param_values ← py_iter pv;
             tv ← time_values param_result param_values;
             Ok [Draw "2,1" "Scatter" [param_values; tv]]
           else Ok []);
      fs ← variation_traces rest;
      Ok (f ++ fs)
  end.

Definition sensitivity_figure (data : value) : result figure :=
  rankings ← py_getitem data "ParameterRankings";
  params ← py_iter rankings;
  '(param_names, time_impacts, comp_impacts) ← ranking_columns params;
  has_r ← py_in "SensitivityResults" data;
  traces ← (if (has_r : bool) then
              results ← py_getitem data "SensitivityResults";
              items ← py_iter results;
              variation_traces items
            else Ok []);
  rows ← summary_data param_names time_impacts comp_impacts;
  Ok ([Draw "1,1" "Bar" [param_names; time_impacts];
       Draw "1,2" "Bar" [param_names; comp_impacts]] ++
      traces ++ [table "2,2" rows]).

Definition create_sensitivity_dashboard (data : value) (output_path : path) : M unit :=
  skip ← lift (lacks data "ParameterRankings");
  if (skip : bool) then print "Error: No parameter rankings found in sensitivity data"
  else
    fig ← lift (sensitivity_figure data);
    pyo_plot output_path fig;;
    print ("Interactive sensitivity dashboard saved to " +:+ path_str output_path).

(** The parsed command line; an empty [output] stands for an absent [-o]
    (both are false in [if args.output:]). *)
Record args := Args {
  input_file : string;
  output : string;
  sensitivity : bool;
  open_browser : bool
}.

Definition output_path (a : args) : path :=
  if negb (String.eqb (output a) "") then Path (output a)
  else
    let input_path := Path (input_file a) in
    if sensitivity a then
      path_join (path_parent input_path) (path_stem input_path +:+ "_sensitivity_dashboard.html")
    else
      path_join (path_parent input_path) (path_stem input_path +:+ "_dashboard.html").

Definition main (a : args) : M unit :=
  let output_path := output_path a in
  print ("Loading data from " +:+ input_file a +:+ "...");;
  (if sensitivity a then
     data ← json_load (Path (input_file a));
     create_sensitivity_dashboard data output_path
   else
     '(data, df) ← load_simulation_data (input_file a);
     match data, df with
     | VNone, _ | _, None => print "Error: Could not load simulation data";; sys_exit 1
     | _, Some df => create_simulation_dashboard data df output_path
     end);;
  if open_browser a then print "Dashboard opened in browser" else mret tt.

End Script.
End InteractiveDashboard.

(** * Concrete inputs used by the examples *)

(** Stand-ins for the library functions: integers and text print as
    themselves, a formatted number shows its format, and the correlation
    is left undefined.  In [plain_lib] no float operation rounds; in
    [binary64_lib] each rounds to the nearest binary64, ties to even. *)

(** [n / d] rounded to an integer, halves to the even one ([0 <= n],
    [0 < d]). *)
Definition div_half_even (n d : Z) : Z :=
  let q := n / d in
  let r := n mod d in
  if Z.ltb (2 * r) d then q
  else if Z.ltb d (2 * r) then q + 1
  else if Z.even q then q else q + 1.

(** The integer part of the binary logarithm of [n / d] ([0 < n],
    [0 < d]). *)
Definition log2_ratio (n d : Z) : Z :=
  let e := Z.log2 n - Z.log2 d in
  if Z.leb 0 e then (if Z.ltb n (d * 2 ^ e) then e - 1 else e)
  else (if Z.ltb (n * 2 ^ (- e)) d then e - 1 else e).

Definition binary64_pos (n d : Z) : float64 :=
  let e := Z.max (log2_ratio n d - 52) (-1074) in
  if Z.leb 0 e then
    let m := div_half_even n (d * 2 ^ e) in
    if Z.leb (2 ^ 1024) (m * 2 ^ e) then PosInf else Fin (inject_Z (m * 2 ^ e))
  else
    let m := div_half_even (n * 2 ^ (- e)) d in
    Fin (Qmake m (Z.to_pos (2 ^ (- e)))).

Definition binary64 (q : Q) : float64 :=
  match Qnum q with
  | Z0 => Fin 0
  | Zpos n => binary64_pos (Zpos n) (Zpos (Qden q))
  | Zneg n => fneg (binary64_pos (Zpos n) (Zpos (Qden q)))
  end.

Definition plain_str (v : value) : string :=
  match v with
  | VInt z => pretty z
  | VStr s => s
  | _ => "?"
  end.

Definition plain_lib : PyLib :=
  {| py_str := plain_str;
     py_format := fun spec _ => "{:" +:+ spec +:+ "}";
     series_corr := fun _ _ => Ok (VFloat NaN);
     round_q := Fin |}.

Definition binary64_lib : PyLib :=
  {| py_str := plain_str;
     py_format := fun spec _ => "{:" +:+ spec +:+ "}";
     series_corr := fun _ _ => Ok (VFloat NaN);
     round_q := binary64 |}.

(** * Vocabulary of the statements *)
(** The order of floats; NaN is not ordered. *)
Definition fle (a b : float64) : Prop :=
  match a with
  | NaN => False
  | NegInf => match b with NaN => False | _ => True end
  | Fin x => match b with Fin y => (x <= y)%Q | PosInf => True | _ => False end
  | PosInf => match b with PosInf => True | _ => False end
  end.

(** What the proofs use of rounding to nearest: it keeps the order, and
    it keeps every number [m * 2 ^ k] with [m] of at most 53 bits, which
    is a binary64 number already. *)
Record rounds_to_nearest (lib : PyLib) : Prop := {
  round_monotone : ∀ p q : Q, (p <= q)%Q → fle (round_q p) (round_q q);
  round_exact : ∀ m k : Z, Z.abs m <= 2 ^ 53 → 0 <= k <= 970 →
    ∃ q, round_q (inject_Z (m * 2 ^ k)) = Fin q ∧ (q == inject_Z (m * 2 ^ k))%Q
}.

(** [q] is a binary64 number: rounding leaves it alone. *)
Definition is_binary64 {lib : PyLib} (q : Q) : Prop :=
  ∃ q', round_q q = Fin q' ∧ (q' == q)%Q.






(** A sensitivity result that carries a series: a record with a name, the
    list [xs] of parameter values and the dict [by_value] of times. *)
Definition result_series (r : value) (xs : Series) (by_value : list (string * value)) : Prop :=
  ∃ d, r = VDict d ∧ is_Some (dict_lookup "ParameterName" d) ∧
       dict_lookup "ParameterValues" d = Some (VList xs) ∧
       dict_lookup "TimeToEquilibriumByValue" d = Some (VDict by_value).

(** The time drawn for each parameter value [v]: the entry under
    [str(v)], and the integer 0 where there is none. *)
Definition times_of {lib : PyLib} (by_value : list (string * value)) (xs : Series) : Series :=
  (fun v => default (VInt 0) (dict_lookup (py_str v) by_value)) <$> xs.

(** One scatter trace per result, as the interactive dashboard adds
    them. *)
Definition series_traces {lib : PyLib}
    (series : list (Series * list (string * value))) : list draw :=
  (fun s => Draw "2,1" "Scatter" [s.1; times_of s.2 s.1]) <$> series.

(** One line plot per result, on the subplots [axes[i]], [axes[i+1]],
    ... *)
Fixpoint series_plots {lib : PyLib} (i : nat)
    (series : list (Series * list (string * value))) : list draw :=
  match series with
  | [] => []
  | s :: rest =>
      Draw ("axes[" +:+ pretty i +:+ "]") "plot" [s.1; times_of s.2 s.1]
        :: series_plots (S i) rest
  end.





(** Whether a ranking entry contains [key]. *)
Definition contains (key : string) (param : value) : bool :=
  match py_in key param with Ok b => b | Raise _ => false end.

Definition count_with (key : string) (rankings : list value) : nat :=
  length (filter (fun p => contains key p = true) rankings).

(** A ranking entry as the simulator writes it: an object whose impacts
    are numbers, with a name whenever it has a time impact. *)
Definition ranking_entry (param : value) : Prop :=
  ∃ d, param = VDict d ∧
    (∀ t, dict_lookup "TimeToEquilibriumImpact" d = Some t →
          is_Some (dict_lookup "ParameterName" d) ∧ ∃ x, as_number t = Ok x) ∧
    (∀ c, dict_lookup "WorkforceCompositionImpact" d = Some c →
          ∃ x, as_number c = Ok x).

(** The counts of entries with a time impact ([nt]) and with a composition
    impact ([nc]) under which the two bar charts can be drawn: no
    composition impact at all, or some time impact and as many of the one
    as of the other, or one of the two counts is one (numpy then repeats
    the single position or the single width). *)
Definition drawable (nt nc : nat) : Prop :=
  nc = 0%nat ∨ (nt ≠ 0%nat ∧ (nc = nt ∨ nc = 1%nat ∨ nt = 1%nat)).
(** The column named [c]. *)
Definition column (df : DataFrame) (c : string) : Series :=
  default [] (col_lookup c (cols df)).

(** The records of [corr_data]: one per parameter and outcome column,
    with the coefficient [corr p o] of the pair. *)
Definition correlations (corr : string -> string -> value) (df : DataFrame)
  : list PlotSensitivity.corr_entry :=
  concat ((fun p =>
     (fun o => PlotSensitivity.CorrEntry p o (corr p o))
       <$> PlotSensitivity.outcome_cols df) <$> PlotSensitivity.param_cols df).

(** [corr p o] is what [df[p].corr(df[o])] returns, for every recognised
    parameter column [p] and outcome column [o]. *)
Definition correlated {lib : PyLib} (df : DataFrame) (corr : string -> string -> value)
  : Prop :=
  ∀ p o, p ∈ PlotSensitivity.param_cols df → o ∈ PlotSensitivity.outcome_cols df →
         series_corr (column df p) (column df o) = Ok (corr p o).

(** [df[p].corr(df[o])] raises for some recognised pair. *)
Definition uncorrelated {lib : PyLib} (df : DataFrame) : Prop :=
  ∃ p o e, p ∈ PlotSensitivity.param_cols df ∧ o ∈ PlotSensitivity.outcome_cols df ∧
           series_corr (column df p) (column df o) = Raise e.
(** Every int of the records fits in 64 bits. *)
Definition int64_records (recs : list value) : Prop :=
  ∀ r k z, r ∈ recs → record_cell k r = Some (VInt z) → in_int64 z = true.

(** The cells of the records under the key [k], [None] where a record
    lacks it. *)
Definition cells_of (recs : list value) (k : string) : list (option value) :=
  record_cell k <$> recs.

(** What [convert_column] makes of one cell, given the cells of its
    column. *)
Definition converted {lib : PyLib} (cells : list (option value)) (x : option value)
  : value :=
  if forallb is_numeric_cell cells && negb (forallb is_null_cell cells)
     && negb (forallb is_int_cell cells)
  then float_cell x else object_cell x.

(** The same, as a test. *)
Definition int64_record (r : value) : bool :=
  match r with
  | VDict d => forallb (fun kv => match kv.2 with VInt z => in_int64 z | _ => true end) d
  | _ => true
  end.
(** The exit status of the Python process: 0 on a normal return, the
    code of [sys.exit], and 1 for an uncaught exception. *)
Definition exit_status {A} (r : result A) : Z :=
  match r with
  | Ok _ => 0
  | Raise (SystemExit code) => code
  | Raise _ => 1
  end.

(** The file system after a sequence of writes. *)
Definition apply_writes (ws : list (path * content)) (fs : gmap path content)
  : gmap path content :=
  foldl (fun fs pc => <[pc.1 := pc.2]> fs) fs ws.

(** What the last write to [p] in [ws] wrote, if any. *)
Fixpoint last_write (ws : list (path * content)) (p : path) : option content :=
  match ws with
  | [] => None
  | (q, c) :: ws' =>
      match last_write ws' p with
      | Some c' => Some c'
      | None => if decide (q = p) then Some c else None
      end
  end.

(** Two worlds that show a script the same: the same directories, the
    same contents in the input file, and a file in the way of a directory
    the script makes in both or in neither.  The other files may hold
    anything, and so may the terminal. *)
Definition same_view (made : path -> Prop) (input : path) (w1 w2 : world) : Prop :=
  (∀ p, is_dir w1 p = is_dir w2 p) ∧
  (∀ p, made p → is_Some (files w1 !! p) ↔ is_Some (files w2 !! p)) ∧
  files w1 !! input = files w2 !! input.

(** A computation that reads no file but [input], writes only files
    allowed by [P] and makes only directories allowed by [made]: from two
    worlds with the same view it ends the same way, after the same
    writes. *)
Definition stable (P : path -> content -> Prop) (made : path -> Prop) (input : path)
    {A} (m : M A) : Prop :=
  ∀ w1 w2, same_view made input w1 w2 →
    ∃ ws ds, Forall (fun pc => P pc.1 pc.2) ws ∧ Forall made ds ∧
          (m w1).1 = (m w2).1 ∧
          files (m w1).2 = apply_writes ws (files w1) ∧
          files (m w2).2 = apply_writes ws (files w2) ∧
          dirs (m w1).2 = list_to_set ds ∪ dirs w1 ∧
          dirs (m w2).2 = list_to_set ds ∪ dirs w2.
(** The images [plot_simulation.py] can write. *)
Definition png_names : list string :=
  [ "workforce_composition.png"; "revenue_productivity.png"; "cost_analysis.png";
    "equilibrium_analysis.png"; "simulation_dashboard.png" ].

(** A PNG chart, under one of the five names, directly in [output_dir]. *)
Definition chart_file (output_dir : path) (p : path) (c : content) : Prop :=
  ∃ name fig, name ∈ png_names ∧ p = path_join output_dir name ∧ c = Png fig.

(** The HTML page at [target]. *)
Definition dashboard_file (target : path) (p : path) (c : content) : Prop :=
  p = target ∧ ∃ fig, c = Html fig.
(** Two paths that can be compared by their components: neither goes up
    through [..], and both start at the root or both at the current
    directory.  On a file system without links such paths name the same
    file only when they are equal. *)
Definition rooted (p : path) : bool := bool_decide (head p = Some "/").

Definition comparable (p q : path) : Prop :=
  (".." ∉ p) ∧ (".." ∉ q) ∧ rooted p = rooted q.
(** The file at [p] is a PNG chart. *)
Definition png_at (w : world) (p : path) : Prop :=
  ∃ fig, files w !! p = Some (Png fig).

(** What [main] of plot_simulation.py has loaded when it starts
    plotting. *)
Definition loaded {lib : PyLib} (a : PlotSimulation.args) (w : world)
  : result (value * option DataFrame) :=
  ((mkdir_exist_ok (Path (PlotSimulation.output a));;
    print ("Loading simulation data from " +:+ PlotSimulation.input_file a +:+ "...");;
    PlotSimulation.load_simulation_data (PlotSimulation.input_file a)) w).1.
(** [data is None] *)
Definition is_none (data : value) : bool :=
  match data with VNone => true | _ => false end.
(** A two-step run as a CSV frame. *)
Definition csv_frame : DataFrame :=
  {| nrows := 2;
     cols := [ ("TimeStep", [VInt 0; VInt 1]);
               ("TotalHumans", [VInt 5; VInt 4]);
               ("TotalAIAgents", [VInt 0; VInt 1]);
               ("TotalCost", [VInt 5; VInt 4]);
               ("AvailableBudget", [VInt 5; VInt 0]) ] |}.

Definition csv_world : world :=
  World {[ ["run.csv"] := Csv csv_frame ]} ∅ [].

(** A JSON report with two time steps. *)
Definition report : list (string * value) :=
  [ ("TimeToEquilibrium", VInt 2);
    ("TimeSeries",
     VList [ VDict [("TimeStep", VInt 0); ("TotalHumans", VInt 5); ("TotalAIAgents", VInt 0)];
             VDict [("TimeStep", VInt 1); ("TotalHumans", VInt 4)] ]) ].

Definition report_world : world :=
  World {[ ["report.json"] := Json (VDict report) ]} ∅ [].

(** A sensitivity report, stored under a name ending in [.html]. *)
Definition sensitivity_report : value :=
  VDict [ ("ParameterRankings",
           VList [ VDict [("ParameterName", VStr "rate"); ("TimeToEquilibriumImpact", VInt 1)];
                   VDict [("ParameterName", VStr "budget"); ("TimeToEquilibriumImpact", VInt 3);
                          ("WorkforceCompositionImpact", VInt 2)];
                   VDict [("ParameterName", VStr "humans"); ("TimeToEquilibriumImpact", VInt 3)] ]);
          ("SensitivityResults",
           VList [ VDict [("ParameterName", VStr "rate");
                          ("ParameterValues", VList [VInt 1; VInt 2]);
                          ("TimeToEquilibriumByValue", VDict [("1", VInt 7)])] ]) ].

Definition sensitivity_world : world :=
  World {[ ["report.html"] := Json sensitivity_report ]} ∅ [].

(** Rankings with time impacts only. *)
Definition time_only_rankings : list value :=
  [ VDict [("ParameterName", VStr "rate"); ("TimeToEquilibriumImpact", VInt 1)] ].

(** A sensitivity table as read from CSV. *)
Definition sensitivity_frame : DataFrame :=
  {| nrows := 2;
     cols := [ ("Param_rate", [VInt 1; VInt 2]);
               ("TimeToEquilibrium", [VInt 7; VInt 9]) ] |}.
(** * plot_sensitivity.py, the remaining functions *)

(** The statistics of a column, taken as given: [Series.mean], [std],
    [min] and [max].  pandas raises on a column it cannot reduce (text
    mixed with numbers, say), so each of them may fail. *)
Class StatsLib := {
  series_mean : Series -> result float64;
  series_std : Series -> result float64;
  series_min : Series -> result float64;
  series_max : Series -> result float64
}.

(** [fsub a b] is [a - b]. *)
Definition fsub (a b : float64) : float64 := fadd a (fneg b).

(** [v[:n]] followed by iteration: the first [n] items of a list or the
    first [n] characters of a string; a dict cannot be sliced ([TypeError],
    [KeyError] from Python 3.12 on). *)
Definition py_take (n : nat) (v : value) : result (list value) :=
  match v with
  | VList l => Ok (take n l)
  | VStr s => Ok (take n (chars s))
  | _ => Raise TypeError
  end.

(** [data and key in data] *)
Definition has_key (data : value) (key : string) : result bool :=
  if py_truthy data then py_in key data else Ok false.

Module PlotSensitivityRun.
Section Script.
Context {lib : PyLib} {stats : StatsLib}.

(** [[col for col in names if col in df.columns]] *)
Definition available (names : list string) (df : DataFrame) : list string :=
  filter (fun c => has_column df c = true) names.

(** One histogram with its mean and the two lines one standard deviation
    away.  What [hist] makes of cells that are not numbers is left to the
    library. *)
Definition distribution (ax : string) (df : DataFrame) (outcome : string) : result figure :=
  s ← df_getitem df outcome;
  s1 ← df_getitem df outcome;
  mean_val ← series_mean s1;
  s2 ← df_getitem df outcome;
  std_val ← series_std s2;
  Ok [ Draw ax "hist" [s];
       Draw ax "axvline" [[VFloat mean_val];
                          [VStr ("Mean: " +:+ py_format ".2f" mean_val)]];
       Draw ax "axvline" [[VFloat (fadd mean_val std_val)];
                          [VStr ("±1 Std: " +:+ py_format ".2f" std_val)]];
       Draw ax "axvline" [[VFloat (fsub mean_val std_val)]] ].

Fixpoint distributions (df : DataFrame) (i : nat) (outcomes : list string) : result figure :=
  match outcomes with
  | [] => Ok []
  | outcome :: rest =>
      f ← distribution ("axes[" +:+ pretty i +:+ "]") df outcome;
      fs ← distributions df (S i) rest;
      Ok (f ++ fs)
  end.

Definition plot_parameter_distributions (df : option DataFrame) (output_dir : path) : M unit :=
  match df with
  | None => mret tt
  | Some df =>
      let available_outcomes :=
        available ["TimeToEquilibrium"; "FinalHumans"; "FinalAIAgents"; "FinalRevenue"] df in
      if bool_decide (available_outcomes = []) then
        print "Warning: No outcome columns found for distribution plots"
      else
        fig ← lift (distributions df 0 (take 4 available_outcomes));
        savefig (path_join output_dir "outcome_distributions.png") fig
  end.

(** The text of the summary box. *)
Definition stats_text (df : DataFrame) : result string :=
  s1 ← df_getitem df "TimeToEquilibrium";
  mean_val ← series_mean s1;
  s2 ← df_getitem df "TimeToEquilibrium";
  min_val ← series_min s2;
  s3 ← df_getitem df "TimeToEquilibrium";
  max_val ← series_max s3;
  s4 ← df_getitem df "TimeToEquilibrium";
  std_val ← series_std s4;
  Ok ("Sensitivity Analysis Summary" +:+ nl +:+ "            " +:+ nl +:+
      "Total Runs: " +:+ py_str (VInt (Z.of_nat (nrows df))) +:+ nl +:+
      "Avg Time to Equilibrium: " +:+ py_format ".1f" mean_val +:+ nl +:+
      "Min Time: " +:+ py_format ".0f" min_val +:+ nl +:+
      "Max Time: " +:+ py_format ".0f" max_val +:+ nl +:+
      "Std Dev: " +:+ py_format ".1f" std_val).

(** The top row: the time impacts as bars, and the summary box.  The two
    lists of the bars grow together, so their lengths agree; what
    matplotlib makes of widths that are not numbers is left out. *)
Definition rankings_row (data : value) (df : option DataFrame) : result figure :=
  rankings ← py_getitem data "ParameterRankings";
  params ← py_iter rankings;
  '(time_impacts, param_names) ← PlotSensitivity.time_entries params;
  let f1 :=
    if bool_decide (time_impacts = []) then []
    else let y_pos := PlotSensitivity.arange (length param_names) in
         [Draw "ax1" "barh" [y_pos; time_impacts]; Draw "ax1" "yticks" [y_pos; param_names]] in
  f2 ← match df with
       | Some df =>
           if has_column df "TimeToEquilibrium" then
             s ← stats_text df; Ok [Draw "ax2" "text" [[VStr s]]]
           else Ok []
       | None => Ok []
       end;
  Ok (f1 ++ f2).

(** The middle rows: one plot per result, for [results[:6]]. *)
Fixpoint variation_panels (i : nat) (results : list value) : result figure :=
  match results with
  | [] => Ok []
  | param_result :: rest =>
      let row := (1 + i / 3)%nat in
      let col := (i mod 3)%nat in
      if bool_decide (3 ≤ row)%nat then Ok []          (* break *)
      else
        param_name ← py_getitem param_result "ParameterName";
        both ← and_then (py_in "ParameterValues" param_result)
                        (py_in "TimeToEquilibriumByValue" param_result);
        f ← (if (both : bool) then
               pv ← py_getitem param_result "ParameterValues";
               param_values ← py_iter pv;
               tv ← time_values param_result param_values;
               Ok [Draw ("gs[" +:+ pretty row +:+ "," +:+ pretty col +:+ "]") "plot"
                     [param_values; tv]]
             else Ok []);
        fs ← variation_panels (S i) rest;
        Ok (f ++ fs)
  end.

(** The bottom row: one histogram per available outcome, three at most. *)
Fixpoint histograms (df : DataFrame) (i : nat) (outcomes : list string) : result figure :=
  match outcomes with
  | [] => Ok []
  | outcome :: rest =>
      s ← df_getitem df outcome;
      fs ← histograms df (S i) rest;
      Ok (Draw ("gs[3," +:+ pretty i +:+ "]") "hist" [s] :: fs)
  end.

Definition dashboard_figure (data : value) (df : option DataFrame) : result figure :=
  has_r ← has_key data "ParameterRankings";
  top ← (if (has_r : bool) then rankings_row data df else Ok []);
  has_s ← has_key data "SensitivityResults";
  middle ← (if (has_s : bool) then
              results ← py_getitem data "SensitivityResults";
              first_six ← py_take 6 results;
              variation_panels 0 first_six
            else Ok []);
  bottom ← match df with
           | Some df =>
               histograms df 0
                 (take 3 (available ["TimeToEquilibrium"; "FinalHumans"; "FinalAIAgents"] df))
           | None => Ok []
           end;
  Ok (top ++ middle ++ bottom).

Definition create_sensitivity_dashboard (data : value) (df : option DataFrame)
    (output_dir : path) : M unit :=
  fig ← lift (dashboard_figure data df);
  savefig (path_join output_dir "sensitivity_dashboard.png") fig.

(** The parsed command line. *)
Record args := Args {
  input_file : string;
  output : string;          (* -o, default 'sensitivity_plots' *)
  dashboard_only : bool
}.

Definition main (a : args) : M unit :=
  let output_dir := Path (output a) in
  mkdir_exist_ok output_dir;;
  print ("Loading sensitivity analysis data from " +:+ input_file a +:+ "...");;
  '(data, df) ← PlotSensitivity.load_sensitivity_data (input_file a);
  match data, df with
  | VNone, None => print "Error: Could not load sensitivity analysis data";; sys_exit 1
  | _, _ =>
      match df with
      | Some df =>
          print ("Loaded " +:+ py_str (VInt (Z.of_nat (nrows df))) +:+
                 " sensitivity analysis runs")
      | None => mret tt
      end;;
      (if dashboard_only a then
         print "Creating sensitivity analysis dashboard...";;
         create_sensitivity_dashboard data df output_dir
       else
         (if py_truthy data then
            print "Creating parameter ranking plots...";;
            PlotSensitivity.plot_parameter_rankings data output_dir;;
            print "Creating parameter variation plots...";;
            PlotSensitivity.plot_parameter_variations data output_dir
          else mret tt);;
         match df with
         | Some _ =>
             print "Creating sensitivity heatmap...";;
             PlotSensitivity.plot_sensitivity_heatmap df output_dir;;
             print "Creating outcome distribution plots...";;
             plot_parameter_distributions df output_dir
         | None => mret tt
         end;;
         print "Creating sensitivity analysis dashboard...";;
         create_sensitivity_dashboard data df output_dir);;
      print ("Plots saved to " +:+ path_str output_dir +:+ "/");;
      print "Generated files:";;
      print_generated output_dir
  end.

End Script.
End PlotSensitivityRun.

(** A stand-in for the statistics: every one of them is zero. *)
Definition plain_stats : StatsLib :=
  {| series_mean := fun _ => Ok (Fin 0);
     series_std := fun _ => Ok (Fin 0);
     series_min := fun _ => Ok (Fin 0);
     series_max := fun _ => Ok (Fin 0) |}.
(** A PNG chart, under one of [names], directly in [output_dir]. *)
Definition png_under (names : list string) (output_dir : path) (p : path) (c : content)
  : Prop :=
  ∃ name fig, name ∈ names ∧ p = path_join output_dir name ∧ c = Png fig.

(** The images [plot_sensitivity.py] can write. *)
Definition sensitivity_png_names : list string :=
  [ "parameter_rankings.png"; "parameter_variations.png"; "sensitivity_heatmap.png";
    "outcome_distributions.png"; "sensitivity_dashboard.png" ].
(** [v] is a JSON number. *)
Definition is_number (v : value) : bool :=
  match v with VInt _ | VFloat _ => true | _ => false end.

(** A sensitivity result that can be plotted: a record with a name, a
    list of numbers as parameter values and a dict of numbers as times. *)
Definition plottable (r : value) : bool :=
  match r with
  | VDict d =>
      match dict_lookup "ParameterName" d, dict_lookup "ParameterValues" d,
            dict_lookup "TimeToEquilibriumByValue" d with
      | Some _, Some (VList xs), Some (VDict by_value) =>
          forallb is_number xs && forallb (fun kv => is_number kv.2) by_value
      | _, _, _ => false
      end
  | _ => false
  end.

(** How many drawing calls of a figure use the primitive [prim]. *)
Definition count_prim (prim : string) (fig : list draw) : nat :=
  length (filter (fun d => draw_prim d = prim) fig).
(** The limit of [fmul (fdiv (Fin x) (Fin 0)) (Fin 100)]: what numpy puts
    where the divisor is zero. *)
Definition zero_division (x : Q) : float64 :=
  match (0 ?= x)%Q with Lt => PosInf | Gt => NegInf | Eq => NaN end.

(** A cell of a column as a rational, when it is a finite number. *)
Definition cell_number (v : value) : option Q :=
  match v with
  | VInt z => Some (inject_Z z)
  | VFloat (Fin q) => Some q
  | _ => None
  end.

(** Cost and budget are two int64 columns or two float64 columns. *)
Definition measured (cost budget : Series) : Prop :=
  (Forall (fun v => is_int64 v = true) cost ∧ Forall (fun v => is_int64 v = true) budget) ∨
  (Forall (fun v => is_float v = true) cost ∧ Forall (fun v => is_float v = true) budget).

(** [cost + budget] of one time step as a float; the sum of two ints
    wraps around at 64 bits before it is converted. *)
Definition wrapped_total {lib : PyLib} (c b : value) : float64 :=
  match c, b with
  | VInt x, VInt y => float_of_int64 (wrap64 (x + y))
  | _, _ => fround (fadd (cell_float c) (cell_float b))
  end.

(** [cost / (cost + budget) * 100] of one time step. *)
Definition utilization_cell {lib : PyLib} (c b : value) : float64 :=
  fround (fmul (fround (fdiv (cell_float c) (wrapped_total c b))) (Fin 100)).

(** The columns of [names] on which mean and standard deviation are
    defined. *)
Definition reducible {stats : StatsLib} (df : DataFrame) (names : list string) : Prop :=
  ∀ c s, c ∈ names → df_getitem df c = Ok s →
    (∃ m, series_mean s = Ok m) ∧ (∃ sd, series_std s = Ok sd).
(** The columns of [names] that the frame has. *)
Definition present (df : DataFrame) (names : list string) : list string :=
  filter (fun c => has_column df c = true) names.

(** A column of numbers. *)
Definition numeric_column (df : DataFrame) (c : string) : Prop :=
  ∃ s xs, df_getitem df c = Ok s ∧ series_floats s = Ok xs.

(** The last segment of a path text: what follows its last slash. *)
Definition last_segment (l : list ascii) : list ascii :=
  List.last (split_on "/"%char l) [].
(** A sensitivity table stored as CSV. *)
Definition sensitivity_csv_world : world :=
  World {[ ["sens.csv"] := Csv sensitivity_frame ]} ∅ [].

(** An output directory that already holds a chart. *)
Definition used_world : world :=
  World (<[ ["plots"; "old.png"] := Blob ]> (files csv_world)) {[ ["plots"] ]} [].

(** Two sensitivity results. *)
Definition two_results : list value :=
  [ VDict [("ParameterName", VStr "rate"); ("ParameterValues", VList [VInt 1; VInt 2]);
           ("TimeToEquilibriumByValue", VDict [("1", VInt 7)])];
    VDict [("ParameterName", VStr "budget"); ("ParameterValues", VList [VInt 3]);
           ("TimeToEquilibriumByValue", VDict [])] ].

Definition results_report : list (string * value) :=
  [("SensitivityResults", VList two_results)].

(** Rankings with an entry that has no name. *)
Definition nameless_report : list (string * value) :=
  [("ParameterRankings", VList [VDict [("TimeToEquilibriumImpact", VInt 1)]])].

(** A step with neither cost nor budget. *)
Definition idle_frame : DataFrame :=
  {| nrows := 1; cols := [("TotalCost", [VInt 0]); ("AvailableBudget", [VInt 0])] |}.

(** An empty JSON object, and the output directory in place. *)
Definition empty_report_world : world :=
  World {[ ["empty.json"] := Json (VDict []) ]} {[ ["plots"] ]} [].

(** A frame with a revenue column. *)
Definition revenue_frame : DataFrame :=
  {| nrows := 1; cols := [("TimeStep", [VInt 0]); ("RevenueOutput", [VInt 9])] |}.

(** A frame with a humans column and no AI column. *)
Definition humans_only_frame : DataFrame :=
  {| nrows := 1; cols := [("TimeStep", [VInt 0]); ("TotalHumans", [VInt 5])] |}.


(** A JSON report without time series. *)
Definition bare_report_world : world :=
  World {[ ["bare.json"] := Json (VDict [("TimeToEquilibrium", VInt 2)]) ]} ∅ [].
(** * Properties *)

(** ** Exceptions and loops *)

Lemma bind_Ok {A B} (m : result A) (f : A -> result B) (b : B) :
  m ≫= f = Ok b ↔ ∃ a, m = Ok a ∧ f a = Ok b.
Proof.
  destruct m as [a|e]; simpl; split.
  - eauto.
  - intros (a' & Ha & H). by simplify_eq.
  - discriminate.
  - intros (a' & Ha & H). discriminate.
Qed.

Lemma mapM_Ok_lookup {A B} (f : A -> result B) (l : list A) (ys : list B) :
  mapM f l = Ok ys →
  length ys = length l ∧
  ∀ k x, l !! k = Some x → ∃ y, f x = Ok y ∧ ys !! k = Some y.
Proof.
  revert ys. induction l as [|x l IH]; intros ys H; simpl in H.
  - simplify_eq. split; [done|]. intros k x Hk. by rewrite lookup_nil in Hk.
  - apply bind_Ok in H as (y & Hy & H). apply bind_Ok in H as (ys' & Hys & H).
    simplify_eq. destruct (IH _ Hys) as [Hlen Hl]. split; [simpl; by f_equal|].
    intros [|k] x' Hk; simpl in *; simplify_eq; eauto.
Qed.

Lemma mapM_Forall2 {A B} (f : A -> result B) (l : list A) (ys : list B) :
  Forall2 (fun x y => f x = Ok y) l ys → mapM f l = Ok ys.
Proof. induction 1 as [|x y l ys Hxy _ IH]; simpl; [done|]. by rewrite Hxy, IH. Qed.

Lemma mapM_fmap_Ok {A B} (f : A -> result B) (g : A -> B) (l : list A) :
  (∀ x, x ∈ l → f x = Ok (g x)) → mapM f l = Ok (g <$> l).
Proof.
  induction l as [|x l IH]; intros H; [done|].
  cbn [mapM]. rewrite (H x) by apply list_elem_of_here.
  cbn [mbind result_bind]. rewrite IH; [done|].
  intros y Hy. apply H. by apply list_elem_of_further.
Qed.

Lemma series_floats_zip (h : float64 -> float64 -> float64) (l : list (float64 * float64)) :
  series_floats ((fun '(u, v) => VFloat (h u v)) <$> l) = Ok ((fun '(u, v) => h u v) <$> l).
Proof.
  unfold series_floats. induction l as [|[u v] l IH]; [done|].
  rewrite !fmap_cons. cbn [mapM to_float]. by rewrite IH.
Qed.

Lemma bind_lift_Ok {A B} (r : result A) (a : A) (k : A -> M B) (w : world) :
  r = Ok a → (lift r ≫= k) w = k a w.
Proof. by intros ->. Qed.

Lemma bind_lift_Raise {A B} (r : result A) (e : exn) (k : A -> M B) (w : world) :
  r = Raise e → (lift r ≫= k) w = (Raise e, w).
Proof. by intros ->. Qed.

Lemma bind_run_Ok {A B} (m : M A) (a : A) (k : A -> M B) (w w' : world) :
  m w = (Ok a, w') → (m ≫= k) w = k a w'.
Proof. intros H. unfold mbind, M_bind. by rewrite H. Qed.

Lemma bind_run_Raise {A B} (m : M A) (e : exn) (k : A -> M B) (w w' : world) :
  m w = (Raise e, w') → (m ≫= k) w = (Raise e, w').
Proof. intros H. unfold mbind, M_bind. by rewrite H. Qed.

Lemma col_lookup_has_column (df : DataFrame) (c : string) (s : Series) :
  col_lookup c (cols df) = Some s → has_column df c = true.
Proof.
  unfold has_column, df_columns. intros H. apply bool_decide_eq_true.
  induction (cols df) as [|[c' s'] l IH]; simpl in *; [done|].
  destruct (String.eqb c c') eqn:E.
  - apply String.eqb_eq in E as ->. apply list_elem_of_here.
  - apply list_elem_of_further. auto.
Qed.

Lemma df_getitem_has_column (df : DataFrame) (c : string) (s : Series) :
  df_getitem df c = Ok s → has_column df c = true.
Proof.
  unfold df_getitem. destruct (col_lookup c (cols df)) eqn:E; [|done].
  intros _. by eapply col_lookup_has_column.
Qed.

(** ** Budget utilization (C8) *)

Lemma zip_with_nested {A B C D} (f : A -> C -> D) (h : A -> B -> C) (a : list A) (b : list B) :
  zip_with f a (zip_with h a b) = zip_with (fun x y => f x (h x y)) a b.
Proof.
  revert b. induction a as [|x a IH]; intros [|y b]; simpl; [done..|]. by rewrite IH.
Qed.

Lemma fmap_zip_with_l {A B C D} (g : C -> D) (h : A -> B -> C) (a : list A) (b : list B) :
  g <$> zip_with h a b = zip_with (fun x y => g (h x y)) a b.
Proof.
  revert b. induction a as [|x a IH]; intros [|y b]; simpl; [done..|]. by rewrite IH.
Qed.

Lemma in_int64_wrap64 (z : Z) : in_int64 (wrap64 z) = true.
Proof.
  unfold in_int64, wrap64.
  pose proof (Z.mod_pos_bound (z + 2 ^ 63) (2 ^ 64) ltac:(lia)).
  apply andb_true_iff. split; [apply Z.leb_le|apply Z.ltb_lt]; lia.
Qed.


Lemma dtype_floats (s : Series) : Forall (fun v => is_float v = true) s → dtype_of s = Float64.
Proof.
  intros H. unfold dtype_of. by rewrite (proj2 (forallb_forall _ _))
    by (intros x Hx%list_elem_of_In; by apply (proj1 (Forall_forall _ _) H)).
Qed.

Lemma dtype_ints (s : Series) :
  Forall (fun v => is_int64 v = true) s → length s ≠ 0%nat → dtype_of s = Int64.
Proof.
  intros H Hne. unfold dtype_of.
  rewrite (proj2 (forallb_forall is_int64 s))
    by (intros x Hx%list_elem_of_In; by apply (proj1 (Forall_forall _ _) H)).
  destruct s as [|v s]; [done|]. apply Forall_cons in H as [Hv _]. by destruct v.
Qed.

Section Utilization.
Context {lib : PyLib}.
Context (laws : rounds_to_nearest lib).

Lemma binary64_of_Z (m k : Z) :
  Z.abs m <= 2 ^ 53 → 0 <= k <= 970 → is_binary64 (inject_Z (m * 2 ^ k)).
Proof. intros Hm Hk. exact (round_exact lib laws m k Hm Hk). Qed.

Lemma binary64_small (z : Z) : Z.abs z <= 2 ^ 53 → is_binary64 (inject_Z z).
Proof.
  intros Hz. replace z with (z * 2 ^ 0) by lia. apply binary64_of_Z; lia.
Qed.


Lemma round_between (a b q : Q) :
  is_binary64 a → is_binary64 b → (a <= q <= b)%Q →
  ∃ r, round_q q = Fin r ∧ (a <= r <= b)%Q.
Proof.
  intros (a' & Ha & Haa) (b' & Hb & Hbb) [Hq1 Hq2].
  pose proof (round_monotone lib laws a q Hq1) as H1.
  pose proof (round_monotone lib laws q b Hq2) as H2.
  rewrite Ha in H1. rewrite Hb in H2.
  destruct (round_q q) as [r| | |]; simpl in H1, H2; try done.
  exists r. split; [done|]. lra.
Qed.






Lemma zip_with_Forall {A B C} (P : C -> Prop) (h : A -> B -> C) (a : list A) (b : list B) :
  (∀ x y, P (h x y)) → Forall P (zip_with h a b).
Proof.
  intros H. apply Forall_forall. intros v Hv. apply list_elem_of_lookup_1 in Hv as [i Hi].
  apply lookup_zip_with_Some in Hi as (? & ? & -> & _). apply H.
Qed.




End Utilization.

(** The exact stand-in for rounding obeys the two laws. *)
Lemma plain_lib_rounds : rounds_to_nearest plain_lib.
Proof.
  split.
  - intros p q H. exact H.
  - intros m k _ _. eexists. split; [reflexivity|reflexivity].
Qed.

(** ** Missing time-to-equilibrium entries (C9) *)

Section TimeValues.
Context {lib : PyLib}.

Lemma time_values_series (r : value) (xs : Series) (by_value : list (string * value)) :
  result_series r xs by_value → time_values r xs = Ok (times_of by_value xs).
Proof.
  intros (d & -> & _ & _ & Ht). unfold time_values, times_of.
  apply mapM_fmap_Ok. intros v _. cbn [py_getitem]. rewrite Ht.
  cbn [mbind result_bind py_get]. by destruct (dict_lookup (py_str v) by_value).
Qed.

Lemma times_of_lookup (by_value : list (string * value)) (xs : Series) (k : nat) (v : value) :
  xs !! k = Some v →
  (dict_lookup (py_str v) by_value = None → times_of by_value xs !! k = Some (VInt 0)) ∧
  (∀ t, dict_lookup (py_str v) by_value = Some t → times_of by_value xs !! k = Some t).
Proof.
  intros Hk. unfold times_of. rewrite list_lookup_fmap, Hk. simpl.
  split; [by intros ->|]. by intros t ->.
Qed.

Lemma variation_traces_series (results : list value)
    (series : list (Series * list (string * value))) :
  Forall2 (fun r s => result_series r s.1 s.2) results series →
  InteractiveDashboard.variation_traces results = Ok (series_traces series).
Proof.
  induction 1 as [|r [xs bv] results series Hr _ IH]; [done|].
  pose proof (time_values_series r xs bv Hr) as Htv.
  destruct Hr as (d & -> & [n Hn] & Hv & Ht). cbn [fst snd] in Hv, Ht.
  cbn [InteractiveDashboard.variation_traces]. rewrite IH.
  cbn [py_getitem py_in and_then]. rewrite Hn, Hv, Ht.
  rewrite !bool_decide_eq_true_2 by eauto.
  cbn [and_then mbind result_bind py_iter fst snd]. rewrite Htv. done.
Qed.

Lemma variation_plots_series (axes : list PlotSensitivity.axes_slot) (results : list value)
    (series : list (Series * list (string * value))) (i : nat) :
  Forall2 (fun r s => result_series r s.1 s.2) results series →
  (∀ j, (i ≤ j < i + length results)%nat → axes !! j = Some (PlotSensitivity.Axes j)) →
  PlotSensitivity.variation_plots axes i results = Ok (series_plots i series).
Proof.
  intros H. revert i. induction H as [|r [xs bv] results series Hr _ IH]; intros i Hax; [done|].
  pose proof (time_values_series r xs bv Hr) as Htv.
  destruct Hr as (d & -> & [n Hn] & Hv & Ht). cbn [fst snd] in Hv, Ht.
  cbn [PlotSensitivity.variation_plots]. rewrite (Hax i) by (simpl; lia).
  rewrite (IH (S i)) by (intros j Hj; apply Hax; simpl; lia).
  cbn [py_getitem py_in and_then]. rewrite Hn, Hv, Ht.
  rewrite !bool_decide_eq_true_2 by eauto.
  cbn [and_then mbind result_bind py_iter fst snd]. rewrite Htv. done.
Qed.

(** C9: for sensitivity results that carry a series, both scripts draw
    one series per result, in order, over the parameter values of the
    result, and the time drawn for a value [v] is the entry under [str(v)]
    of 'TimeToEquilibriumByValue', or the integer 0 where there is none.
    The interactive dashboard, whenever it is built, holds exactly these
    scatter traces between its bar charts and its table;
    [plot_parameter_variations] saves exactly these line plots when there
    is one result, or four and more. *)
Theorem missing_time_is_zero (d : list (string * value)) (results : list value)
    (series : list (Series * list (string * value))) :
  dict_lookup "SensitivityResults" d = Some (VList results) →
  Forall2 (fun r s => result_series r s.1 s.2) results series →
  (∀ fig, InteractiveDashboard.sensitivity_figure (VDict d) = Ok fig →
     ∃ bars1 bars2 table,
       fig = bars1 :: bars2 :: series_traces series ++ [table]) ∧
  (length results = 1%nat ∨ (4 ≤ length results)%nat →
     ∀ output_dir w,
       PlotSensitivity.plot_parameter_variations (VDict d) output_dir w =
       savefig (path_join output_dir "parameter_variations.png") (series_plots 0 series) w) ∧
  (∀ xs by_value k v,
     (xs, by_value) ∈ series → xs !! k = Some v →
     dict_lookup (py_str v) by_value = None →
     times_of by_value xs !! k = Some (VInt 0)).
Proof.
  intros Hd Hseries. split; [|split].
  - intros fig H. unfold InteractiveDashboard.sensitivity_figure in H.
    apply bind_Ok in H as (rankings & _ & H). apply bind_Ok in H as (params & _ & H).
    apply bind_Ok in H as ([[ns ts] cs] & _ & H).
    cbn [py_in py_getitem] in H. rewrite Hd in H.
    rewrite bool_decide_eq_true_2 in H by eauto.
    cbn [mbind result_bind py_iter] in H.
    rewrite (variation_traces_series _ _ Hseries) in H. cbn [mbind result_bind] in H.
    apply bind_Ok in H as (rows & _ & H). simplify_eq. by eexists _, _, _.
  - intros Hn output_dir w.
    assert (lacks (VDict d) "SensitivityResults" = Ok false) as Hl.
    { unfold lacks. cbn [py_truthy py_in]. destruct d as [|kv d']; [done|].
      rewrite bool_decide_eq_false_2 by done. cbn [negb mbind result_bind].
      by rewrite bool_decide_eq_true_2 by (rewrite Hd; eauto). }
    assert (py_getitem (VDict d) "SensitivityResults" = Ok (VList results)) as Hg.
    { cbn [py_getitem]. by rewrite Hd. }
    unfold PlotSensitivity.plot_parameter_variations.
    rewrite (bind_lift_Ok _ _ _ _ Hl), (bind_lift_Ok _ _ _ _ Hg).
    erewrite bind_lift_Ok; [reflexivity|].
    unfold PlotSensitivity.variations_figure. cbn [py_len mbind result_bind py_iter].
    rewrite bool_decide_eq_false_2 by lia. cbn [mbind result_bind].
    apply variation_plots_series; [done|].
    intros j Hj. unfold PlotSensitivity.reshape_axes. destruct Hn as [H1|H4].
    + rewrite bool_decide_eq_true_2 by done. by assert (j = 0%nat) as -> by lia.
    + rewrite bool_decide_eq_false_2 by lia.
      replace (Nat.min 3 (length results)) with 3%nat by lia.
      pose proof (Nat.div_mod_eq (length results + 3 - 1) 3) as Hdiv.
      pose proof (Nat.mod_upper_bound (length results + 3 - 1) 3) as Hmod.
      rewrite bool_decide_eq_false_2 by lia.
      by rewrite list_lookup_fmap, lookup_seq_lt by lia.
  - intros xs by_value k v _ Hk Hnone.
    by apply (proj1 (times_of_lookup by_value xs k v Hk)).
Qed.

End TimeValues.

(** ** Summary statistics of the sensitivity dashboard (C7) *)




Section Summary.
Context {lib : PyLib}.








End Summary.

(** ** The two bar charts of the parameter rankings (C10) *)

Lemma contains_dict (key : string) (d : list (string * value)) :
  contains key (VDict d) = bool_decide (is_Some (dict_lookup key d)).
Proof. done. Qed.

Lemma count_with_cons (key : string) (p : value) (l : list value) :
  count_with key (p :: l) =
  ((if contains key p then 1 else 0) + count_with key l)%nat.
Proof.
  unfold count_with. rewrite filter_cons.
  destruct (decide (contains key p = true)) as [->|H]; [done|].
  by destruct (contains key p).
Qed.

Lemma time_entries_ok (rankings : list value) :
  Forall ranking_entry rankings →
  ∃ ts ns xs, PlotSensitivity.time_entries rankings = Ok (ts, ns) ∧
    length ts = count_with "TimeToEquilibriumImpact" rankings ∧
    length ns = length ts ∧ mapM as_number ts = Ok xs.
Proof.
  induction 1 as [|p l (d & -> & Ht & _) _ (ts & ns & xs & IH & Hlen & Hns & Hnum)].
  - by exists [], [], [].
  - cbn [PlotSensitivity.time_entries]. rewrite count_with_cons, contains_dict.
    cbn [py_in mbind result_bind]. rewrite IH.
    destruct (dict_lookup "TimeToEquilibriumImpact" d) as [t|] eqn:E.
    + destruct (Ht t eq_refl) as ([n Hn] & x & Hx).
      rewrite bool_decide_eq_true_2 by eauto. cbn [py_getitem]. rewrite E, Hn.
      cbn [mbind result_bind]. exists (t :: ts), (n :: ns), (x :: xs).
      split; [done|]. cbn [length mapM]. rewrite Hx, Hnum. repeat split; auto with lia.
    + rewrite bool_decide_eq_false_2 by (by intros [? ?]).
      cbn [mbind result_bind]. by exists ts, ns, xs.
Qed.

Lemma comp_entries_ok (rankings : list value) :
  Forall ranking_entry rankings →
  ∃ cs ys, PlotSensitivity.comp_entries rankings = Ok cs ∧
    length cs = count_with "WorkforceCompositionImpact" rankings ∧
    mapM as_number cs = Ok ys.
Proof.
  induction 1 as [|p l (d & -> & _ & Hc) _ (cs & ys & IH & Hlen & Hnum)].
  - by exists [], [].
  - cbn [PlotSensitivity.comp_entries]. rewrite count_with_cons, contains_dict.
    cbn [py_in mbind result_bind]. rewrite IH.
    destruct (dict_lookup "WorkforceCompositionImpact" d) as [c|] eqn:E.
    + destruct (Hc c eq_refl) as (y & Hy).
      rewrite bool_decide_eq_true_2 by eauto. cbn [py_getitem]. rewrite E.
      cbn [mbind result_bind app]. exists (c :: cs), (y :: ys).
      split; [done|]. cbn [length mapM]. rewrite Hy, Hnum. auto with lia.
    + rewrite bool_decide_eq_false_2 by (by intros [? ?]).
      cbn [mbind result_bind app]. by exists cs, ys.
Qed.

Lemma length_arange (n : nat) : length (PlotSensitivity.arange n) = n.
Proof. unfold PlotSensitivity.arange. by rewrite length_fmap, length_seq. Qed.

Section Rankings.
Context {lib : PyLib}.

Lemma barh_ok (ax : string) (y_pos widths names : Series) (xs : list float64) :
  length y_pos = length widths ∨ length y_pos = 1%nat ∨ length widths = 1%nat →
  mapM as_number widths = Ok xs →
  ∃ fig, PlotSensitivity.barh ax y_pos widths names = Ok fig.
Proof.
  intros Hlen Hnum. unfold PlotSensitivity.barh, PlotSensitivity.broadcastable.
  rewrite bool_decide_eq_true_2 by auto. rewrite Hnum. cbn [mbind result_bind]. eauto.
Qed.

Lemma barh_mismatch (ax : string) (y_pos widths names : Series) :
  length y_pos ≠ length widths → length y_pos ≠ 1%nat → length widths ≠ 1%nat →
  PlotSensitivity.barh ax y_pos widths names = Raise ValueError.
Proof.
  intros H1 H2 H3. unfold PlotSensitivity.barh, PlotSensitivity.broadcastable.
  rewrite bool_decide_eq_false_2; [done|]. intros [?|[?|?]]; done.
Qed.

(** What [rankings_figure] does on well-formed entries, by the number of
    entries with a composition impact and with a time impact. *)
Lemma rankings_figure_cases (rankings : list value) :
  Forall ranking_entry rankings →
  let nt := count_with "TimeToEquilibriumImpact" rankings in
  let nc := count_with "WorkforceCompositionImpact" rankings in
  (drawable nt nc →
     ∃ fig, PlotSensitivity.rankings_figure (VList rankings) = Ok fig) ∧
  (nc ≠ 0%nat → nt = 0%nat →
     PlotSensitivity.rankings_figure (VList rankings) = Raise (UnboundLocalError "y_pos")) ∧
  (nc ≠ 0%nat → nt ≠ 0%nat → nc ≠ nt → nc ≠ 1%nat → nt ≠ 1%nat →
     PlotSensitivity.rankings_figure (VList rankings) = Raise ValueError).
Proof.
  intros Hwf nt nc.
  destruct (time_entries_ok rankings Hwf) as (ts & ns & xs & Hte & Hlt & Hln & Hxs).
  destruct (comp_entries_ok rankings Hwf) as (cs & ys & Hce & Hlc & Hys).
  fold nt in Hlt. fold nc in Hlc.
  unfold PlotSensitivity.rankings_figure. cbn [py_iter mbind result_bind].
  rewrite Hte. cbn [mbind result_bind]. split; [|split].
  - intros Hcase. destruct (decide (ts = [])) as [->|Hts].
    + rewrite bool_decide_eq_true_2 by done. cbn [mbind result_bind].
      rewrite Hce. cbn [mbind result_bind].
      assert (cs = []) as ->.
      { apply length_zero_iff_nil. simpl in Hlt. destruct Hcase as [?|[? _]]; lia. }
      rewrite bool_decide_eq_true_2 by done. cbn [mbind result_bind]. eauto.
    + rewrite bool_decide_eq_false_2 by done.
      destruct (barh_ok "ax1" (PlotSensitivity.arange (length ns)) ts ns xs) as [f1 Hf1];
        [left; by rewrite length_arange|done|].
      rewrite Hf1. cbn [mbind result_bind]. rewrite Hce. cbn [mbind result_bind].
      destruct (decide (cs = [])) as [->|Hcs].
      * rewrite bool_decide_eq_true_2 by done. cbn [mbind result_bind]. eauto.
      * rewrite bool_decide_eq_false_2 by done.
        destruct (barh_ok "ax2" (PlotSensitivity.arange (length ns)) cs ns ys) as [f2 Hf2];
          [|done|].
        { rewrite length_arange. destruct Hcase as [H0|[_ Heq]]; [|lia].
          destruct cs; [done|simpl in Hlc; lia]. }
        rewrite Hf2. cbn [mbind result_bind]. eauto.
  - intros Hnc Hnt.
    assert (ts = []) as -> by (apply length_zero_iff_nil; lia).
    rewrite bool_decide_eq_true_2 by done. cbn [mbind result_bind].
    rewrite Hce. cbn [mbind result_bind].
    rewrite bool_decide_eq_false_2; [done|]. intros ->. simpl in Hlc. lia.
  - intros Hnc Hnt Hne Hc1 Ht1.
    rewrite bool_decide_eq_false_2 by (intros ->; simpl in Hlt; lia).
    destruct (barh_ok "ax1" (PlotSensitivity.arange (length ns)) ts ns xs) as [f1 Hf1];
      [left; by rewrite length_arange|done|].
    rewrite Hf1. cbn [mbind result_bind]. rewrite Hce. cbn [mbind result_bind].
    rewrite bool_decide_eq_false_2 by (intros ->; simpl in Hlc; lia).
    rewrite barh_mismatch; [done|rewrite ?length_arange; lia..].
Qed.

(** C10, as the code has it: on a report whose ranking entries are
    well formed, with [nt] entries containing 'TimeToEquilibriumImpact'
    and [nc] containing 'WorkforceCompositionImpact',
    [plot_parameter_rankings] draws and saves its figure when [nc] is
    zero, and when [nt] is not zero and the two counts are equal or one of
    them is one; with composition impacts but no time impacts it stops at
    the undefined variable [y_pos]; with two different counts, both above
    one, it stops at the [ValueError] of [barh]; in these two cases it
    saves nothing.  So it ends without an error only under the first
    condition. *)
Theorem parameter_rankings_bars (d : list (string * value)) (rankings : list value)
    (output_dir : path) (w : world) :
  dict_lookup "ParameterRankings" d = Some (VList rankings) →
  Forall ranking_entry rankings →
  let nt := count_with "TimeToEquilibriumImpact" rankings in
  let nc := count_with "WorkforceCompositionImpact" rankings in
  (drawable nt nc →
     ∃ fig, PlotSensitivity.plot_parameter_rankings (VDict d) output_dir w =
            savefig (path_join output_dir "parameter_rankings.png") fig w) ∧
  (nc ≠ 0%nat → nt = 0%nat →
     PlotSensitivity.plot_parameter_rankings (VDict d) output_dir w =
     (Raise (UnboundLocalError "y_pos"), w)) ∧
  (nc ≠ 0%nat → nt ≠ 0%nat → nc ≠ nt → nc ≠ 1%nat → nt ≠ 1%nat →
     PlotSensitivity.plot_parameter_rankings (VDict d) output_dir w =
     (Raise ValueError, w)) ∧
  (∀ w', PlotSensitivity.plot_parameter_rankings (VDict d) output_dir w = (Ok tt, w') →
     drawable nt nc).
Proof.
  intros Hd Hwf nt nc.
  destruct (rankings_figure_cases rankings Hwf) as (Hok & Hbad & Hval).
  fold nt nc in Hok, Hbad, Hval.
  assert (lacks (VDict d) "ParameterRankings" = Ok false) as Hl.
  { unfold lacks. cbn [py_truthy py_in].
    destruct d as [|kv d]; [done|]. rewrite bool_decide_eq_false_2 by done.
    cbn [negb mbind result_bind]. by rewrite bool_decide_eq_true_2 by eauto. }
  assert (py_getitem (VDict d) "ParameterRankings" = Ok (VList rankings)) as Hg.
  { cbn [py_getitem]. by rewrite Hd. }
  assert (nc ≠ 0%nat → nt = 0%nat →
          PlotSensitivity.plot_parameter_rankings (VDict d) output_dir w =
          (Raise (UnboundLocalError "y_pos"), w)) as Hunbound.
  { intros Hnc Hnt. unfold PlotSensitivity.plot_parameter_rankings.
    rewrite (bind_lift_Ok _ _ _ _ Hl), (bind_lift_Ok _ _ _ _ Hg).
    by rewrite (bind_lift_Raise _ _ _ _ (Hbad Hnc Hnt)). }
  assert (nc ≠ 0%nat → nt ≠ 0%nat → nc ≠ nt → nc ≠ 1%nat → nt ≠ 1%nat →
          PlotSensitivity.plot_parameter_rankings (VDict d) output_dir w =
          (Raise ValueError, w)) as Hvalue.
  { intros. unfold PlotSensitivity.plot_parameter_rankings.
    rewrite (bind_lift_Ok _ _ _ _ Hl), (bind_lift_Ok _ _ _ _ Hg).
    by rewrite (bind_lift_Raise _ _ _ _ ltac:(by apply Hval)). }
  split; [|split; [done|split; [done|]]].
  - intros Hcase. destruct (Hok Hcase) as [fig Hfig].
    unfold PlotSensitivity.plot_parameter_rankings.
    rewrite (bind_lift_Ok _ _ _ _ Hl), (bind_lift_Ok _ _ _ _ Hg).
    rewrite (bind_lift_Ok _ _ _ _ Hfig). by exists fig.
  - intros w' Hrun. unfold drawable.
    destruct (decide (nc = 0%nat)) as [|Hnc]; [by left|right].
    destruct (decide (nt = 0%nat)) as [Hnt|Hnt].
    { rewrite (Hunbound Hnc Hnt) in Hrun. discriminate. }
    split; [done|].
    destruct (decide (nc = nt)); [by left|].
    destruct (decide (nc = 1%nat)); [by right; left|].
    destruct (decide (nt = 1%nat)); [by right; right|].
    rewrite Hvalue in Hrun by done. discriminate.
Qed.

End Rankings.

(** ** The correlation heatmap (C1) *)

Lemma mapM_Raise_elem {A B} (f : A -> result B) (l : list A) (x : A) (e : exn) :
  x ∈ l → f x = Raise e → ∃ e', mapM f l = Raise e'.
Proof.
  intros Hin Hx. induction l as [|y l IH]; [by apply elem_of_nil in Hin|].
  cbn [mapM]. destruct (f y) as [b|e1] eqn:E; [|by exists e1].
  apply elem_of_cons in Hin as [->|Hin]; [congruence|].
  destruct (IH Hin) as [e' ->]. by exists e'.
Qed.

Lemma concat_singletons {A B} (g : A -> B) (l : list A) :
  concat ((fun x => [g x]) <$> l) = g <$> l.
Proof. induction l as [|x l IH]; [done|]. rewrite !fmap_cons. simpl. by rewrite IH. Qed.

Lemma elem_of_insert_sorted (x y : string) (l : list string) :
  x ∈ PlotSensitivity.insert_sorted y l ↔ x = y ∨ x ∈ l.
Proof.
  induction l as [|z l IH]; simpl.
  - rewrite list_elem_of_singleton, elem_of_nil. tauto.
  - destruct (String.leb y z); rewrite !elem_of_cons; [tauto|]. rewrite IH. tauto.
Qed.

Lemma elem_of_sorted_labels (x : string) (l : list string) :
  x ∈ PlotSensitivity.sorted_labels l ↔ x ∈ l.
Proof.
  unfold PlotSensitivity.sorted_labels. rewrite <- (elem_of_remove_dups l).
  induction (remove_dups l) as [|y k IH]; simpl; [done|].
  rewrite elem_of_insert_sorted, IH, elem_of_cons. tauto.
Qed.

Lemma find_label (s : string) (l : list string) :
  s ∈ l →
  ∃ i, list_find (fun x => PlotSensitivity.is_label s x = true) (VStr <$> l)
         = Some (i, VStr s) ∧ l !! i = Some s.
Proof.
  intros Hin.
  destruct (list_find_elem_of (fun x => PlotSensitivity.is_label s x = true)
              (VStr <$> l) (VStr s)) as [[i x] Hf].
  { apply list_elem_of_fmap. eauto. }
  { simpl. apply String.eqb_refl. }
  pose proof Hf as Hf'. apply list_find_Some in Hf' as (Hi & Hx & _).
  rewrite list_lookup_fmap in Hi.
  destruct (l !! i) as [s'|] eqn:E; [|done]. simpl in Hi. injection Hi as <-.
  simpl in Hx. apply String.eqb_eq in Hx as ->. by exists i.
Qed.

Section Heatmap.
Context {lib : PyLib}.

Lemma column_getitem (df : DataFrame) (c : string) :
  c ∈ df_columns df → df_getitem df c = Ok (column df c) ∧ has_column df c = true.
Proof.
  intros Hin. split; [|by apply bool_decide_eq_true].
  unfold df_getitem, column, df_columns in *.
  induction (cols df) as [|[c' s] l IH]; [by apply elem_of_nil in Hin|].
  simpl in *. destruct (String.eqb c c') eqn:E; [done|].
  apply elem_of_cons in Hin as [->|Hin]; [by rewrite String.eqb_refl in E|auto].
Qed.

Lemma corr_data_correlations (df : DataFrame) (corr : string -> string -> value) :
  correlated df corr →
  PlotSensitivity.corr_data df = Ok (correlations corr df).
Proof.
  intros Hcorr. unfold PlotSensitivity.corr_data, correlations.
  erewrite mapM_fmap_Ok; [done|]. intros p Hp. cbn beta.
  pose proof Hp as Hp'. apply list_elem_of_filter in Hp' as [_ Hpc].
  destruct (column_getitem df p Hpc) as [Hgp Hhp].
  erewrite (mapM_fmap_Ok _ (fun o => [PlotSensitivity.CorrEntry p o (corr p o)])).
  - cbn [mbind result_bind]. by rewrite concat_singletons.
  - intros o Ho. pose proof Ho as Ho'. apply list_elem_of_filter in Ho' as [_ Hoc].
    destruct (column_getitem df o Hoc) as [Hgo Hho].
    rewrite Hhp, Hho, Hgp, Hgo. cbn [andb mbind result_bind].
    by rewrite (Hcorr p o Hp Ho).
Qed.

Lemma corr_data_raises (df : DataFrame) :
  uncorrelated df → ∃ e, PlotSensitivity.corr_data df = Raise e.
Proof.
  intros (p & o & e & Hp & Ho & He). unfold PlotSensitivity.corr_data.
  pose proof Hp as Hp'. apply list_elem_of_filter in Hp' as [_ Hpc].
  pose proof Ho as Ho'. apply list_elem_of_filter in Ho' as [_ Hoc].
  destruct (column_getitem df p Hpc) as [Hgp Hhp].
  destruct (column_getitem df o Hoc) as [Hgo Hho].
  match goal with |- ∃ e, mbind _ (mapM ?f _) = _ =>
    assert (∃ e1, f p = Raise e1) as [e1 He1] end.
  { cbn beta.
    match goal with |- ∃ e1, mbind _ (mapM ?g _) = _ =>
      destruct (mapM_Raise_elem g (PlotSensitivity.outcome_cols df) o e Ho) as [e' ->] end.
    - rewrite Hhp, Hho, Hgp, Hgo. cbn [andb mbind result_bind]. by rewrite He.
    - by exists e'. }
  match goal with |- ∃ e, mbind _ (mapM ?f _) = _ =>
    destruct (mapM_Raise_elem f (PlotSensitivity.param_cols df) p e1 Hp He1) as [e' ->] end.
  by exists e'.
Qed.

Lemma elem_of_correlations (corr : string -> string -> value) (df : DataFrame)
    (e : PlotSensitivity.corr_entry) :
  e ∈ correlations corr df ↔
  ∃ p o, p ∈ PlotSensitivity.param_cols df ∧ o ∈ PlotSensitivity.outcome_cols df ∧
         e = PlotSensitivity.CorrEntry p o (corr p o).
Proof.
  unfold correlations. rewrite list_elem_of_In, in_concat. split.
  - intros (l & Hl & He). apply list_elem_of_In, list_elem_of_fmap in Hl as (p & -> & Hp).
    apply list_elem_of_In, list_elem_of_fmap in He as (o & -> & Ho). eauto.
  - intros (p & o & Hp & Ho & ->). eexists. split.
    + apply list_elem_of_In, list_elem_of_fmap. eauto.
    + apply list_elem_of_In, list_elem_of_fmap. eauto.
Qed.

Lemma correlations_NoDup (corr : string -> string -> value) (df : DataFrame) :
  NoDup (df_columns df) →
  NoDup ((fun e => (PlotSensitivity.entry_parameter e, PlotSensitivity.entry_outcome e))
           <$> correlations corr df).
Proof.
  intros Hnd. unfold correlations.
  assert (NoDup (PlotSensitivity.outcome_cols df)) as Hos by by apply NoDup_filter.
  assert (NoDup (PlotSensitivity.param_cols df)) as Hps by by apply NoDup_filter.
  revert Hos Hps. generalize (PlotSensitivity.outcome_cols df) as os.
  generalize (PlotSensitivity.param_cols df) as ps. intros ps os Hos.
  induction 1 as [|p ps Hp Hps IH]; [constructor|].
  rewrite fmap_cons. cbn [concat]. rewrite fmap_app, NoDup_app. split; [|split].
  - rewrite <- list_fmap_compose.
    apply NoDup_fmap_2_strong; [|done]. intros x y _ _ H. by simplify_eq.
  - intros [p' o'] H1 H2.
    apply list_elem_of_fmap in H1 as (e1 & He1 & H1).
    apply list_elem_of_fmap in H1 as (o1 & -> & _). simpl in He1. simplify_eq.
    apply list_elem_of_fmap in H2 as (e2 & He2 & H2).
    apply list_elem_of_In, in_concat in H2 as (l & Hl & H2).
    apply list_elem_of_In, list_elem_of_fmap in Hl as (p2 & -> & Hp2).
    apply list_elem_of_In, list_elem_of_fmap in H2 as (o2 & -> & _).
    simpl in He2. by simplify_eq.
  - exact IH.
Qed.

Lemma pivot_cell_correlations (corr : string -> string -> value) (df : DataFrame)
    (p o : string) :
  p ∈ PlotSensitivity.param_cols df → o ∈ PlotSensitivity.outcome_cols df →
  PlotSensitivity.pivot_cell (correlations corr df) p o = corr p o.
Proof.
  intros Hp Ho. unfold PlotSensitivity.pivot_cell.
  destruct (List.find _ (correlations corr df)) as [e|] eqn:E.
  - apply find_some in E as [He Hm].
    apply list_elem_of_In, elem_of_correlations in He as (p' & o' & _ & _ & ->).
    simpl in Hm. apply andb_true_iff in Hm as [H1 H2].
    apply String.eqb_eq in H1 as ->. by apply String.eqb_eq in H2 as ->.
  - eapply find_none in E.
    2:{ apply list_elem_of_In, elem_of_correlations. eauto. }
    simpl in E. by rewrite !String.eqb_refl in E.
Qed.

(** C1: take a frame read from CSV (its column names are distinct) with a
    recognised parameter column [p] and a recognised outcome column [o].
    When the library call [df[p'].corr(df[o'])] returns a value for every
    recognised pair, [plot_sensitivity_heatmap] saves a heatmap whose
    cell in row [p] and column [o] is the value the call returns for
    [df[p]] and [df[o]] (pairwise Pearson correlation); nothing else is
    computed on the way.  When the call raises for some recognised pair
    (a column of text, say), the function raises too and saves
    nothing. *)
Theorem heatmap_cell_is_correlation (df : DataFrame) (p o : string) :
  NoDup (df_columns df) →
  p ∈ PlotSensitivity.param_cols df → o ∈ PlotSensitivity.outcome_cols df →
  (∀ corr, correlated df corr →
     ∃ d a b,
       df_getitem df p = Ok a ∧ df_getitem df o = Ok b ∧
       series_corr a b = Ok (corr p o) ∧
       PlotSensitivity.heatmap_cell d p o = Some (corr p o) ∧
       ∀ output_dir w,
         PlotSensitivity.plot_sensitivity_heatmap (Some df) output_dir w =
         savefig (path_join output_dir "sensitivity_heatmap.png") [d] w) ∧
  (uncorrelated df →
     ∃ e, ∀ output_dir w,
       PlotSensitivity.plot_sensitivity_heatmap (Some df) output_dir w = (Raise e, w)).
Proof.
  intros Hnd Hp Ho.
  assert (p ∈ df_columns df) as Hpc by by apply list_elem_of_filter in Hp as [_ ?].
  assert (o ∈ df_columns df) as Hoc by by apply list_elem_of_filter in Ho as [_ ?].
  destruct (column_getitem df p Hpc) as [Hgp _].
  destruct (column_getitem df o Hoc) as [Hgo _].
  assert (bool_decide (PlotSensitivity.param_cols df = []) = false) as Hpne.
  { apply bool_decide_eq_false_2. intros H. rewrite H in Hp. by apply elem_of_nil in Hp. }
  assert (bool_decide (PlotSensitivity.outcome_cols df = []) = false) as Hone.
  { apply bool_decide_eq_false_2. intros H. rewrite H in Ho. by apply elem_of_nil in Ho. }
  split.
  - intros corr Hcorr.
  set (e := PlotSensitivity.CorrEntry p o (corr p o)).
  assert (e ∈ correlations corr df) as He by (apply elem_of_correlations; eauto).
  set (t := PlotSensitivity.PivotTable
              (PlotSensitivity.sorted_labels (PlotSensitivity.entry_parameter <$> correlations corr df))
              (PlotSensitivity.sorted_labels (PlotSensitivity.entry_outcome <$> correlations corr df))
              ((fun p => PlotSensitivity.pivot_cell (correlations corr df) p <$>
                  PlotSensitivity.sorted_labels (PlotSensitivity.entry_outcome <$> correlations corr df))
                 <$> PlotSensitivity.sorted_labels
                       (PlotSensitivity.entry_parameter <$> correlations corr df))).
  assert (PlotSensitivity.heatmap_figure df = Ok (Some [PlotSensitivity.heatmap t])) as Hfig.
  { unfold PlotSensitivity.heatmap_figure. rewrite Hpne, Hone.
    cbn [orb]. rewrite (corr_data_correlations df corr Hcorr). cbn [mbind result_bind].
    rewrite bool_decide_eq_false_2.
    2:{ intros H. rewrite H in He. by apply elem_of_nil in He. }
    unfold PlotSensitivity.pivot.
    rewrite bool_decide_eq_true_2 by by apply correlations_NoDup.
    done. }
  exists (PlotSensitivity.heatmap t), (column df p), (column df o).
  split; [done|]. split; [done|]. split; [by apply Hcorr|]. split.
  + unfold PlotSensitivity.heatmap_cell, PlotSensitivity.heatmap, t.
    cbn [draw_args PlotSensitivity.pt_index PlotSensitivity.pt_columns
         PlotSensitivity.pt_rows].
    destruct (find_label p (PlotSensitivity.sorted_labels
                (PlotSensitivity.entry_parameter <$> correlations corr df))) as (i & Hfi & Hi).
    { apply elem_of_sorted_labels, list_elem_of_fmap. by exists e. }
    destruct (find_label o (PlotSensitivity.sorted_labels
                (PlotSensitivity.entry_outcome <$> correlations corr df))) as (j & Hfj & Hj).
    { apply elem_of_sorted_labels, list_elem_of_fmap. by exists e. }
    rewrite Hfi. cbn [mbind option_bind]. rewrite Hfj. cbn [mbind option_bind].
    rewrite list_lookup_fmap, Hi. cbn [fmap option_fmap option_map mbind option_bind].
    rewrite list_lookup_fmap, Hj. cbn [fmap option_fmap option_map].
    by rewrite pivot_cell_correlations.
  + intros output_dir w. unfold PlotSensitivity.plot_sensitivity_heatmap.
    rewrite Hpne, Hone. cbn [orb]. by rewrite (bind_lift_Ok _ _ _ _ Hfig).
  - intros Hbad. destruct (corr_data_raises df Hbad) as [e He]. exists e.
    intros output_dir w. unfold PlotSensitivity.plot_sensitivity_heatmap.
    rewrite Hpne, Hone. cbn [orb].
    apply bind_lift_Raise. unfold PlotSensitivity.heatmap_figure.
    rewrite Hpne, Hone. cbn [orb]. by rewrite He.
Qed.

End Heatmap.

(** ** Loading a JSON report (C2) *)

Lemma elem_of_first_seen (x : string) (seen ks : list string) :
  x ∈ first_seen seen ks ↔ x ∈ ks ∧ x ∉ seen.
Proof.
  revert seen. induction ks as [|k ks IH]; intros seen; simpl.
  - rewrite elem_of_nil. tauto.
  - case_bool_decide as Hk.
    + rewrite IH, elem_of_cons. split; [tauto|]. intros [[->|?] ?]; tauto.
    + rewrite elem_of_cons, IH, !elem_of_cons. split.
      * intros [->|[? ?]]; tauto.
      * intros [[->|?] ?]; [tauto|]. destruct (decide (x = k)); tauto.
Qed.

Lemma dict_lookup_elem_of (k : string) (d : list (string * value)) (v : value) :
  dict_lookup k d = Some v → k ∈ d.*1.
Proof.
  induction d as [|[k' v'] d IH]; simpl; [done|].
  destruct (String.eqb k k') eqn:E.
  - apply String.eqb_eq in E as ->. intros _. apply list_elem_of_here.
  - intros H. apply list_elem_of_further. auto.
Qed.

Lemma dict_lookup_fmap (k : string) (g : string -> value) (names : list string) :
  dict_lookup k ((fun c => (c, g c)) <$> names) =
  if bool_decide (k ∈ names) then Some (g k) else None.
Proof.
  induction names as [|c names IH]; [done|].
  rewrite fmap_cons. simpl. destruct (String.eqb k c) eqn:E.
  - apply String.eqb_eq in E as ->. by rewrite bool_decide_eq_true_2 by apply list_elem_of_here.
  - rewrite IH. apply String.eqb_neq in E.
    rewrite (bool_decide_ext (k ∈ c :: names) (k ∈ names)); [done|].
    rewrite elem_of_cons. tauto.
Qed.

Lemma dict_lookup_In (k : string) (d : list (string * value)) (v : value) :
  dict_lookup k d = Some v → In (k, v) d.
Proof.
  induction d as [|[k' v'] d IH]; simpl; [done|].
  destruct (String.eqb k k') eqn:E.
  - apply String.eqb_eq in E as ->. intros [= ->]. by left.
  - intros H. right. auto.
Qed.

Lemma int64_records_check (recs : list value) :
  forallb int64_record recs = true → int64_records recs.
Proof.
  intros H r k z Hr Hk. rewrite forallb_forall in H.
  apply list_elem_of_In, H in Hr. destruct r as [| | | | | |d]; try discriminate.
  simpl in Hk, Hr. rewrite forallb_forall in Hr.
  apply dict_lookup_In, Hr in Hk. exact Hk.
Qed.

Section Loading.
Context {lib : PyLib}.

Lemma convert_column_ok (cells : list (option value)) :
  existsb out_of_range cells = false →
  convert_column cells = Ok (converted cells <$> cells).
Proof.
  intros H. unfold convert_column, converted. rewrite H.
  by destruct (forallb is_numeric_cell cells), (forallb is_null_cell cells),
    (forallb is_int_cell cells).
Qed.

Lemma int64_records_cells (recs : list value) (k : string) :
  int64_records recs → existsb out_of_range (cells_of recs k) = false.
Proof.
  intros H. apply not_true_is_false. intros Hex.
  apply existsb_exists in Hex as (x & Hx & Hout).
  apply list_elem_of_In, list_elem_of_fmap in Hx as (r & -> & Hr).
  destruct (record_cell k r) as [[| |z| | | |]|] eqn:E; try discriminate.
  simpl in Hout. by rewrite (H r k z Hr E) in Hout.
Qed.

Lemma frame_of_records_ok (recs : list value) :
  int64_records recs →
  frame_of_records recs =
  Ok {| nrows := length recs;
        cols := (fun c => (c, converted (cells_of recs c) <$> cells_of recs c))
                  <$> first_seen [] (concat (record_keys <$> recs)) |}.
Proof.
  intros H. unfold frame_of_records.
  erewrite mapM_fmap_Ok; [done|]. intros c _. cbn beta.
  fold (cells_of recs c). by rewrite convert_column_ok by by apply int64_records_cells.
Qed.

(** C2, as the code has it: for a JSON report whose top-level object has
    the key 'TimeSeries', bound to a list of records whose ints fit in 64
    bits, [load_simulation_data] (of both scripts) returns the parsed
    object together with a frame that has one row per record, in order,
    and one column per key.  In a column where every record holds an int,
    in one where some record holds something other than a number or null,
    and in one where every record holds null, the row holds the record's
    own value, and NaN where the record lacks the key.  In any other
    column, which holds numbers with a float, a null or a missing cell
    among them, the row holds the record's value converted to a float: an
    int rounded to the nearest float, and NaN for null and for a missing
    key.  Without the key 'TimeSeries' the function prints an error and
    returns (None, None). *)
Theorem load_json_report (s : string) (w : world) (d : list (string * value)) :
  lower (path_suffix (Path s)) = ".json" →
  is_dir w (Path s) = false →
  files w !! Path s = Some (Json (VDict d)) →
  (∀ recs, dict_lookup "TimeSeries" d = Some (VList recs) →
     forallb is_dict recs = true →
     int64_records recs →
     ∃ df,
     PlotSimulation.load_simulation_data s w = (Ok (VDict d, Some df), w) ∧
     InteractiveDashboard.load_simulation_data s w = (Ok (VDict d, Some df), w) ∧
     nrows df = length recs ∧
     (∀ k, k ∈ df_columns df ↔ ∃ r, r ∈ recs ∧ k ∈ record_keys r) ∧
     ∀ i r, recs !! i = Some (VDict r) →
       (df_row df i).*1 = df_columns df ∧
       ∀ k, k ∈ df_columns df →
         let cells := cells_of recs k in
         (forallb is_int_cell cells = true ∨ forallb is_numeric_cell cells = false ∨
          forallb is_null_cell cells = true →
            dict_lookup k (df_row df i) = Some (default (VFloat NaN) (dict_lookup k r))) ∧
         (forallb is_int_cell cells = false → forallb is_numeric_cell cells = true →
          forallb is_null_cell cells = false →
            dict_lookup k (df_row df i) =
            Some (match dict_lookup k r with
                  | Some (VInt z) => VFloat (round_q (inject_Z z))
                  | Some (VFloat f) => VFloat f
                  | _ => VFloat NaN
                  end))) ∧
  (dict_lookup "TimeSeries" d = None →
     let w' := World (files w) (dirs w)
                 (stdout w ++ ["Error: No TimeSeries data found in JSON file"]) in
     PlotSimulation.load_simulation_data s w = (Ok (VNone, None), w') ∧
     InteractiveDashboard.load_simulation_data s w = (Ok (VNone, None), w')).
Proof.
  intros Hsuf Hdir Hfile.
  assert (json_load (Path s) w = (Ok (VDict d), w)) as Hload.
  { unfold json_load. by rewrite Hdir, Hfile. }
  split.
  - intros recs Hts Hrecs Hint.
    pose proof (frame_of_records_ok recs Hint) as Hframe.
    set (names := first_seen [] (concat (record_keys <$> recs))) in *.
    set (df := {| nrows := length recs;
                  cols := (fun c => (c, converted (cells_of recs c) <$> cells_of recs c))
                            <$> names |}) in *.
    assert (py_in "TimeSeries" (VDict d) = Ok true) as Hin.
    { cbn [py_in]. by rewrite bool_decide_eq_true_2 by eauto. }
    assert (py_getitem (VDict d) "TimeSeries" = Ok (VList recs)) as Hget.
    { cbn [py_getitem]. by rewrite Hts. }
    assert (pd_DataFrame (VList recs) = Ok df) as Hdf.
    { cbn [pd_DataFrame]. by rewrite Hrecs. }
    assert (df_columns df = names) as Hcols.
    { unfold df_columns, df. cbn [cols]. rewrite <- list_fmap_compose.
      change (fst ∘ _) with (@id string). by rewrite list_fmap_id. }
    assert (∀ i, df_row df i =
              (fun c => (c, default (VFloat NaN)
                              ((converted (cells_of recs c) <$> cells_of recs c) !! i)))
                <$> names) as Hrow.
    { intros i. unfold df_row, df. cbn [cols]. by rewrite <- list_fmap_compose. }
    exists df. split; [|split; [|split; [|split]]].
    + unfold PlotSimulation.load_simulation_data. rewrite Hsuf. cbn [String.eqb Ascii.eqb Bool.eqb].
      rewrite (bind_run_Ok _ _ _ _ _ Hload), (bind_lift_Ok _ _ _ _ Hin),
        (bind_lift_Ok _ _ _ _ Hget), (bind_lift_Ok _ _ _ _ Hdf). done.
    + unfold InteractiveDashboard.load_simulation_data. rewrite Hsuf.
      cbn [String.eqb Ascii.eqb Bool.eqb].
      rewrite (bind_run_Ok _ _ _ _ _ Hload), (bind_lift_Ok _ _ _ _ Hin),
        (bind_lift_Ok _ _ _ _ Hget), (bind_lift_Ok _ _ _ _ Hdf). done.
    + done.
    + intros k. rewrite Hcols. unfold names.
      rewrite elem_of_first_seen, list_elem_of_In, in_concat. split.
      * intros [(l & Hl & Hk) _].
        apply list_elem_of_In, list_elem_of_fmap in Hl as (r & -> & Hr).
        exists r. split; [done|]. by apply list_elem_of_In.
      * intros (r & Hr & Hk). split; [|apply not_elem_of_nil].
        exists (record_keys r). split; apply list_elem_of_In; [|done].
        apply list_elem_of_fmap. eauto.
    + intros i r Hi. rewrite Hrow, Hcols. split.
      * rewrite <- list_fmap_compose. change (fst ∘ _) with (@id string).
        by rewrite list_fmap_id.
      * intros k Hk cells.
        assert (dict_lookup k
                  ((fun c => (c, default (VFloat NaN)
                       ((converted (cells_of recs c) <$> cells_of recs c) !! i))) <$> names)
                = Some (converted cells (dict_lookup k r))) as Hcell.
        { rewrite (dict_lookup_fmap k (fun c => default (VFloat NaN)
                     ((converted (cells_of recs c) <$> cells_of recs c) !! i))).
          rewrite bool_decide_eq_true_2 by done.
          unfold cells_of at 2. rewrite !list_lookup_fmap, Hi. done. }
        rewrite Hcell. unfold converted. split.
        -- intros [H|[H|H]]; rewrite H; rewrite ?andb_false_r; cbn [andb negb];
             by destruct (dict_lookup k r).
        -- intros H1 H2 H3. rewrite H1, H2, H3. cbn [andb negb].
           unfold float_cell, float_of_int64. by destruct (dict_lookup k r) as [[]|].
  - intros Hts w'.
    assert (py_in "TimeSeries" (VDict d) = Ok false) as Hin.
    { cbn [py_in]. rewrite bool_decide_eq_false_2; [done|]. rewrite Hts. by intros [? ?]. }
    split.
    + unfold PlotSimulation.load_simulation_data. rewrite Hsuf. cbn [String.eqb Ascii.eqb Bool.eqb].
      rewrite (bind_run_Ok _ _ _ _ _ Hload), (bind_lift_Ok _ _ _ _ Hin). done.
    + unfold InteractiveDashboard.load_simulation_data. rewrite Hsuf.
      cbn [String.eqb Ascii.eqb Bool.eqb].
      rewrite (bind_run_Ok _ _ _ _ _ Hload), (bind_lift_Ok _ _ _ _ Hin). done.
Qed.

End Loading.

(** ** Effects on the file system *)

Lemma apply_writes_app (a b : list (path * content)) (fs : gmap path content) :
  apply_writes (a ++ b) fs = apply_writes b (apply_writes a fs).
Proof. unfold apply_writes. by rewrite foldl_app. Qed.

Lemma lookup_apply_writes_last (ws : list (path * content)) (fs : gmap path content)
    (p : path) :
  apply_writes ws fs !! p =
  match last_write ws p with Some c => Some c | None => fs !! p end.
Proof.
  revert fs. induction ws as [|[q c] ws IH]; intros fs; [done|].
  cbn [last_write]. change (apply_writes ((q, c) :: ws) fs)
    with (apply_writes ws (<[q:=c]> fs)).
  rewrite IH. destruct (last_write ws p); [done|].
  destruct (decide (q = p)) as [->|Hne].
  - by rewrite lookup_insert_eq.
  - by rewrite lookup_insert_ne.
Qed.

Lemma last_write_elem_of (ws : list (path * content)) (p : path) (c : content) :
  last_write ws p = Some c → (p, c) ∈ ws.
Proof.
  induction ws as [|[q c'] ws IH]; [done|]. cbn [last_write].
  destruct (last_write ws p) as [c''|].
  - intros ?; simplify_eq. apply list_elem_of_further. by apply IH.
  - destruct (decide (q = p)) as [->|]; [|done].
    intros ?; simplify_eq. apply list_elem_of_here.
Qed.

Lemma apply_writes_twice (ws : list (path * content)) (fs : gmap path content) :
  apply_writes ws (apply_writes ws fs) = apply_writes ws fs.
Proof.
  apply map_eq. intros p. rewrite !lookup_apply_writes_last.
  by destruct (last_write ws p).
Qed.

Lemma lookup_apply_writes_same (ws : list (path * content))
    (fs1 fs2 : gmap path content) (p : path) :
  fs1 !! p = fs2 !! p → apply_writes ws fs1 !! p = apply_writes ws fs2 !! p.
Proof. intros H. rewrite !lookup_apply_writes_last. by rewrite H. Qed.

Lemma is_Some_apply_writes_same (ws : list (path * content))
    (fs1 fs2 : gmap path content) (p : path) :
  (is_Some (fs1 !! p) ↔ is_Some (fs2 !! p)) →
  is_Some (apply_writes ws fs1 !! p) ↔ is_Some (apply_writes ws fs2 !! p).
Proof.
  intros H. rewrite !lookup_apply_writes_last.
  destruct (last_write ws p); [|done]. split; eauto.
Qed.

Lemma lookup_apply_writes (ws : list (path * content)) (fs : gmap path content) (p : path) :
  apply_writes ws fs !! p = fs !! p ∨
  ∃ c, (p, c) ∈ ws ∧ apply_writes ws fs !! p = Some c.
Proof.
  rewrite lookup_apply_writes_last.
  destruct (last_write ws p) as [c|] eqn:E; [|by left].
  right. exists c. split; [by apply last_write_elem_of|done].
Qed.

Lemma is_dir_spec (w : world) (p : path) : is_dir w p = true ↔ p = [] ∨ p ∈ dirs w.
Proof. apply bool_decide_eq_true. Qed.

Lemma same_view_refl (made : path -> Prop) (input : path) (w : world) :
  same_view made input w w.
Proof. done. Qed.

Lemma same_view_after (made : path -> Prop) (input : path)
    (ws : list (path * content)) (ds : list path) (w1 w2 w1' w2' : world) :
  same_view made input w1 w2 →
  files w1' = apply_writes ws (files w1) → files w2' = apply_writes ws (files w2) →
  dirs w1' = list_to_set ds ∪ dirs w1 → dirs w2' = list_to_set ds ∪ dirs w2 →
  same_view made input w1' w2'.
Proof.
  intros (Hd & Hdom & Hin) H1 H2 Hd1 Hd2. split.
  { intros p. specialize (Hd p). apply Bool.eq_iff_eq_true in Hd.
    apply Bool.eq_iff_eq_true. rewrite !is_dir_spec in *. rewrite Hd1, Hd2.
    rewrite !elem_of_union. tauto. }
  rewrite H1, H2. split.
  - intros p Hp. apply is_Some_apply_writes_same. by apply Hdom.
  - by apply lookup_apply_writes_same.
Qed.

Lemma print_all_run (ls : list string) (w : world) :
  print_all ls w = (Ok tt, World (files w) (dirs w) (stdout w ++ ls)).
Proof.
  revert w. induction ls as [|l ls IH]; intros w.
  - simpl. rewrite app_nil_r. by destruct w.
  - cbn [print_all]. unfold mbind, M_bind, print. rewrite IH. simpl.
    by rewrite <- app_assoc.
Qed.

Section Stable.
Context (P : path -> content -> Prop) (made : path -> Prop) (input : path).

Lemma stable_silent {A} (m : M A) :
  (∀ w1 w2, same_view made input w1 w2 →
     (m w1).1 = (m w2).1 ∧ files (m w1).2 = files w1 ∧ files (m w2).2 = files w2 ∧
     dirs (m w1).2 = dirs w1 ∧ dirs (m w2).2 = dirs w2) →
  stable P made input m.
Proof.
  intros H w1 w2 Hv. exists [], []. split; [constructor|]. split; [constructor|].
  destruct (H w1 w2 Hv) as (? & ? & ? & -> & ->).
  repeat split; try done; simpl; by rewrite union_empty_l_L.
Qed.

Lemma stable_ret {A} (a : A) : stable P made input (mret a).
Proof. apply stable_silent. by intros w1 w2 (? & ? & ?). Qed.

Lemma stable_raise {A} (e : exn) : stable P made input (raise e : M A).
Proof. apply stable_silent. by intros w1 w2 (? & ? & ?). Qed.

Lemma stable_sys_exit {A} (code : Z) : stable P made input (sys_exit code : M A).
Proof. apply stable_raise. Qed.

Lemma stable_lift {A} (r : result A) : stable P made input (lift r).
Proof. apply stable_silent. by intros w1 w2 (? & ? & ?). Qed.

Lemma stable_print (s : string) : stable P made input (print s).
Proof. apply stable_silent. by intros w1 w2 (? & ? & ?). Qed.

Lemma stable_json_load : stable P made input (json_load input).
Proof.
  apply stable_silent. intros w1 w2 (Hd & _ & Hin). unfold json_load.
  rewrite (Hd input), Hin.
  destruct (is_dir w2 input); [done|].
  by destruct (files w2 !! input) as [[]|].
Qed.

Lemma stable_read_csv : stable P made input (read_csv input).
Proof.
  apply stable_silent. intros w1 w2 (Hd & _ & Hin). unfold read_csv.
  rewrite (Hd input), Hin.
  destruct (is_dir w2 input); [done|].
  by destruct (files w2 !! input) as [[]|].
Qed.

Lemma stable_mkdir (p : path) : made p → stable P made input (mkdir_exist_ok p).
Proof.
  intros Hp w1 w2 (Hd & Hocc & _). unfold mkdir_exist_ok.
  rewrite (Hd p), (Hd (path_parent p)).
  rewrite (bool_decide_ext (is_Some (files w1 !! p)) (is_Some (files w2 !! p)))
    by by apply Hocc.
  destruct (is_dir w2 p).
  { exists [], []. simpl. by rewrite !union_empty_l_L. }
  destruct (bool_decide (is_Some (files w2 !! p))).
  { exists [], []. simpl. by rewrite !union_empty_l_L. }
  destruct (is_dir w2 (path_parent p)).
  - exists [], [p]. simpl. rewrite !union_empty_r_L.
    repeat split; try done. by constructor.
  - exists [], []. simpl. by rewrite !union_empty_l_L.
Qed.

Lemma stable_write_file (p : path) (c : content) :
  P p c → stable P made input (write_file p c).
Proof.
  intros HP w1 w2 (Hd & _ & _). unfold write_file.
  rewrite (Hd p), (Hd (path_parent p)).
  destruct (is_dir w2 p).
  { exists [], []. simpl. by rewrite !union_empty_l_L. }
  destruct (is_dir w2 (path_parent p)).
  - exists [(p, c)], []. simpl. rewrite !union_empty_l_L.
    repeat split; try done. by constructor.
  - exists [], []. simpl. by rewrite !union_empty_l_L.
Qed.

Lemma stable_print_generated (dir : path) : stable P made input (print_generated dir).
Proof.
  apply stable_silent. intros w1 w2 _. unfold print_generated.
  rewrite !print_all_run. by simpl.
Qed.

Lemma stable_bind {A B} (m : M A) (k : A -> M B) :
  stable P made input m → (∀ a, stable P made input (k a)) →
  stable P made input (m ≫= k).
Proof.
  intros Hm Hk w1 w2 Hv.
  destruct (Hm w1 w2 Hv) as (ws & ds & HP & HD & Hr & H1 & H2 & Hd1 & Hd2).
  unfold mbind, M_bind.
  destruct (m w1) as [r1 w1'], (m w2) as [r2 w2']. simpl in *. subst r2.
  destruct r1 as [a|e].
  - assert (same_view made input w1' w2') as Hv' by by eapply same_view_after.
    destruct (Hk a w1' w2' Hv') as (ws' & ds' & HP' & HD' & Hr' & H1' & H2' & Hd1' & Hd2').
    exists (ws ++ ws'), (ds ++ ds'). split; [by apply Forall_app|].
    split; [by apply Forall_app|].
    rewrite !apply_writes_app, <- H1, <- H2, Hd1', Hd2', Hd1, Hd2.
    rewrite list_to_set_app_L, !(assoc_L (∪)), (comm_L (∪) (list_to_set ds')).
    done.
  - exists ws, ds. done.
Qed.

End Stable.

(** ** The scripts read the input and write their charts only *)

Ltac chart_file_tac :=
  solve [ eexists _, _; split; [|split; reflexivity];
          unfold png_names; rewrite !elem_of_cons; tauto
        | split; [reflexivity|eexists; reflexivity] ].

Ltac stable_step :=
  first
    [ apply stable_ret | apply stable_raise | apply stable_sys_exit
    | apply stable_lift | apply stable_print
    | apply stable_json_load | apply stable_read_csv
    | apply stable_mkdir; reflexivity
    | apply stable_print_generated
    | apply stable_write_file; chart_file_tac
    | apply stable_bind; [|intros ?]
    | match goal with
      | |- stable _ _ _ (if ?b then _ else _) => destruct b
      | |- stable _ _ _ (match ?x with _ => _ end) => destruct x
      end ].

Section Frames.
Context {lib : PyLib}.

Lemma plot_simulation_main_stable (a : PlotSimulation.args) :
  stable (chart_file (Path (PlotSimulation.output a)))
         (eq (Path (PlotSimulation.output a)))
         (Path (PlotSimulation.input_file a)) (PlotSimulation.main a).
Proof.
  unfold PlotSimulation.main, PlotSimulation.load_simulation_data,
    PlotSimulation.plot_workforce_composition,
    PlotSimulation.plot_revenue_and_productivity, PlotSimulation.plot_cost_analysis,
    PlotSimulation.plot_equilibrium_analysis, PlotSimulation.create_summary_dashboard,
    savefig.
  cbv zeta. repeat stable_step.
Qed.

Lemma interactive_main_stable (a : InteractiveDashboard.args) :
  stable (dashboard_file (html_target (path_str (InteractiveDashboard.output_path a))))
         (fun _ => False)
         (Path (InteractiveDashboard.input_file a)) (InteractiveDashboard.main a).
Proof.
  unfold InteractiveDashboard.main, InteractiveDashboard.load_simulation_data,
    InteractiveDashboard.create_simulation_dashboard,
    InteractiveDashboard.create_sensitivity_dashboard, pyo_plot.
  cbv zeta. repeat stable_step.
Qed.

End Frames.

(** ** Unsupported input files (C3) *)

Lemma mkdir_run (p : path) (w : world) :
  files (mkdir_exist_ok p w).2 = files w ∧ stdout (mkdir_exist_ok p w).2 = stdout w ∧
  ((mkdir_exist_ok p w).1 = Ok tt ∨
   ∃ e, (mkdir_exist_ok p w).1 = Raise e ∧ e ≠ SystemExit 0 ∧
        ∀ code, e ≠ SystemExit code).
Proof.
  unfold mkdir_exist_ok. destruct (is_dir w p); [by auto|].
  destruct (bool_decide _); [split; [done|]; split; [done|]; right; by eexists|].
  destruct (is_dir w (path_parent p)); [by auto|].
  split; [done|]. split; [done|]. right. by eexists.
Qed.

Section Unsupported.
Context {lib : PyLib}.

Lemma load_unsupported (s : string) (w : world) :
  lower (path_suffix (Path s)) ≠ ".json" →
  lower (path_suffix (Path s)) ≠ ".csv" →
  PlotSimulation.load_simulation_data s w =
    (Ok (VNone, None),
     World (files w) (dirs w)
       (stdout w ++ ["Error: Unsupported file format " +:+ path_suffix (Path s)])).
Proof.
  intros H1 H2. unfold PlotSimulation.load_simulation_data. cbv zeta.
  apply String.eqb_neq in H1, H2. by rewrite H1, H2.
Qed.

(** A run on an unsupported input: either the output directory cannot
    be made, or the run exits after the error messages. *)
Lemma unsupported_run (a : PlotSimulation.args) (w : world) :
  let p := Path (PlotSimulation.input_file a) in
  lower (path_suffix p) ≠ ".json" →
  lower (path_suffix p) ≠ ".csv" →
  files (PlotSimulation.main a w).2 = files w ∧
  exit_status (PlotSimulation.main a w).1 = 1 ∧
  ((mkdir_exist_ok (Path (PlotSimulation.output a)) w).1 = Ok tt →
   (PlotSimulation.main a w).1 = Raise (SystemExit 1) ∧
   stdout (PlotSimulation.main a w).2 =
     stdout w ++
     [ "Loading simulation data from " +:+ PlotSimulation.input_file a +:+ "...";
       "Error: Unsupported file format " +:+ path_suffix p;
       "Error: Could not load simulation data" ]).
Proof.
  intros p H1 H2.
  destruct (mkdir_run (Path (PlotSimulation.output a)) w) as (Hf & Hs & Hr).
  destruct (mkdir_exist_ok (Path (PlotSimulation.output a)) w) as [[[]|e] w1] eqn:E;
    simpl in Hf, Hs, Hr.
  - assert (PlotSimulation.main a w =
              (Raise (SystemExit 1),
               World (files w1) (dirs w1)
                 (((stdout w1 ++
                    ["Loading simulation data from " +:+ PlotSimulation.input_file a +:+ "..."]) ++
                   ["Error: Unsupported file format " +:+ path_suffix p]) ++
                  ["Error: Could not load simulation data"]))) as ->.
    { unfold PlotSimulation.main. cbv zeta. rewrite (bind_run_Ok _ _ _ _ _ E).
      erewrite (bind_run_Ok (print _)) by reflexivity.
      erewrite bind_run_Ok by (by apply load_unsupported). reflexivity. }
    cbn [fst snd exit_status files stdout]. rewrite Hf, Hs, <- !app_assoc. done.
  - assert (PlotSimulation.main a w = (Raise e, w1)) as ->.
    { unfold PlotSimulation.main. cbv zeta. by rewrite (bind_run_Raise _ _ _ _ _ E). }
    cbn [fst snd exit_status].
    destruct Hr as [?|(e' & He & _ & Hne)]; [done|]. simplify_eq.
    split; [done|]. split; [|done].
    destruct e'; try done. by destruct (Hne code).
Qed.

(** C3: when the suffix of the input path is, ignoring case, neither
    '.json' nor '.csv', [load_simulation_data] prints an error and returns
    (None, None); [main] of plot_simulation.py then ends with exit status
    1 and no file has been written or changed.  If the output directory
    could be made, the exit is the [sys.exit(1)] after the two error
    messages. *)
Theorem unsupported_input (a : PlotSimulation.args) (w : world) :
  let p := Path (PlotSimulation.input_file a) in
  lower (path_suffix p) ≠ ".json" →
  lower (path_suffix p) ≠ ".csv" →
  PlotSimulation.load_simulation_data (PlotSimulation.input_file a) w =
    (Ok (VNone, None),
     World (files w) (dirs w)
       (stdout w ++ ["Error: Unsupported file format " +:+ path_suffix p])) ∧
  exit_status (PlotSimulation.main a w).1 = 1 ∧
  files (PlotSimulation.main a w).2 = files w ∧
  ((mkdir_exist_ok (Path (PlotSimulation.output a)) w).1 = Ok tt →
   (PlotSimulation.main a w).1 = Raise (SystemExit 1) ∧
   stdout (PlotSimulation.main a w).2 =
     stdout w ++
     [ "Loading simulation data from " +:+ PlotSimulation.input_file a +:+ "...";
       "Error: Unsupported file format " +:+ path_suffix p;
       "Error: Could not load simulation data" ]).
Proof.
  intros p H1 H2. split; [by apply load_unsupported|].
  destruct (unsupported_run a w H1 H2) as (Hf & He & Hrun). done.
Qed.

End Unsupported.

(** ** The input file is left alone (C5), and runs are repeatable (C6) *)

Lemma png_name_suffix (output_dir : path) (name : string) :
  name ∈ png_names → lower (path_suffix (path_join output_dir name)) = ".png".
Proof.
  intros H. unfold path_suffix, path_name, path_join. rewrite last_last.
  unfold png_names in H. rewrite !elem_of_cons, elem_of_nil in H.
  destruct H as [->|[->|[->|[->|[->|[]]]]]]; reflexivity.
Qed.

Lemma path_join_neq (p : path) (name : string) : p ≠ path_join p name.
Proof.
  unfold path_join. intros H. apply (f_equal length) in H.
  rewrite length_app in H. simpl in H. lia.
Qed.

Lemma mkdir_cases (p : path) (w : world) :
  mkdir_exist_ok p w = (Ok tt, (mkdir_exist_ok p w).2) ∧
    files (mkdir_exist_ok p w).2 = files w ∧
    is_dir (mkdir_exist_ok p w).2 p = true ∨
  ∃ e, mkdir_exist_ok p w = (Raise e, w).
Proof.
  unfold mkdir_exist_ok. destruct (is_dir w p) eqn:E; [by left|].
  destruct (bool_decide _); [right; by eexists|].
  destruct (is_dir w (path_parent p)); [|right; by eexists].
  left. simpl. repeat split. apply is_dir_spec. simpl. right.
  apply elem_of_union. left. by apply elem_of_singleton.
Qed.

Lemma mkdir_again (p : path) (w : world) :
  is_dir w p = true → mkdir_exist_ok p w = (Ok tt, w).
Proof. intros H. unfold mkdir_exist_ok. by rewrite H. Qed.

Section Frame.
Context {lib : PyLib}.

Lemma plot_simulation_writes (a : PlotSimulation.args) (w : world) :
  ∃ ws ds,
    Forall (fun pc => chart_file (Path (PlotSimulation.output a)) pc.1 pc.2) ws ∧
    Forall (eq (Path (PlotSimulation.output a))) ds ∧
    files (PlotSimulation.main a w).2 = apply_writes ws (files w) ∧
    dirs (PlotSimulation.main a w).2 = list_to_set ds ∪ dirs w.
Proof.
  destruct (plot_simulation_main_stable a w w (same_view_refl _ _ _))
    as (ws & ds & HP & HD & _ & Hf & _ & Hd & _).
  by exists ws, ds.
Qed.

Lemma plot_simulation_input_kept (a : PlotSimulation.args) (w : world) :
  files (PlotSimulation.main a w).2 !! Path (PlotSimulation.input_file a) =
  files w !! Path (PlotSimulation.input_file a).
Proof.
  set (input := Path (PlotSimulation.input_file a)).
  destruct (decide (lower (path_suffix input) = ".json")) as [Hj|Hj].
  2: destruct (decide (lower (path_suffix input) = ".csv")) as [Hc|Hc].
  3: { destruct (unsupported_run a w Hj Hc) as [-> _]. done. }
  all: destruct (plot_simulation_writes a w) as (ws & ds & HP & _ & -> & _).
  all: destruct (lookup_apply_writes ws (files w) input) as [?|(c & Hin & _)]; [done|].
  all: rewrite Forall_forall in HP; apply HP in Hin as (name & fig & Hn & Hp & _).
  all: simpl in Hp; apply (png_name_suffix (Path (PlotSimulation.output a))) in Hn.
  all: rewrite <- Hp in Hn; fold input in Hn; congruence.
Qed.

Lemma changed_file (P : path -> content -> Prop) (ws : list (path * content))
    (fs : gmap path content) (p : path) :
  Forall (fun pc => P pc.1 pc.2) ws →
  apply_writes ws fs !! p ≠ fs !! p →
  ∃ c, apply_writes ws fs !! p = Some c ∧ P p c.
Proof.
  intros HP Hne. destruct (lookup_apply_writes ws fs p) as [?|(c & Hin & Hc)]; [done|].
  exists c. split; [done|]. rewrite Forall_forall in HP. by apply HP in Hin.
Qed.

(** C5, as the code has it: a run of plot_simulation.py changes no file
    but PNG charts, under the five names, directly in the output
    directory, and never the input file; a run of
    interactive_dashboard.py changes no file but the HTML page it writes,
    the file named by [-o] with [.html] appended when it is missing, and
    leaves the input file as it was whenever that page is another file:
    for two paths without [..], both from the root or both from the
    current directory, whenever they differ. *)
Theorem visualization_frame :
  (∀ (a : PlotSimulation.args) (w : world) (p : path),
     files (PlotSimulation.main a w).2 !! p ≠ files w !! p →
     ∃ name fig, name ∈ png_names ∧
       p = path_join (Path (PlotSimulation.output a)) name ∧
       files (PlotSimulation.main a w).2 !! p = Some (Png fig)) ∧
  (∀ (a : PlotSimulation.args) (w : world),
     files (PlotSimulation.main a w).2 !! Path (PlotSimulation.input_file a) =
     files w !! Path (PlotSimulation.input_file a)) ∧
  (∀ (a : InteractiveDashboard.args) (w : world) (p : path),
     files (InteractiveDashboard.main a w).2 !! p ≠ files w !! p →
     p = html_target (path_str (InteractiveDashboard.output_path a)) ∧
     ∃ fig, files (InteractiveDashboard.main a w).2 !! p = Some (Html fig)) ∧
  (∀ (a : InteractiveDashboard.args) (w : world),
     comparable (html_target (path_str (InteractiveDashboard.output_path a)))
                (Path (InteractiveDashboard.input_file a)) →
     html_target (path_str (InteractiveDashboard.output_path a)) ≠
       Path (InteractiveDashboard.input_file a) →
     files (InteractiveDashboard.main a w).2 !! Path (InteractiveDashboard.input_file a) =
     files w !! Path (InteractiveDashboard.input_file a)).
Proof.
  assert (∀ (a : InteractiveDashboard.args) (w : world) (p : path),
     files (InteractiveDashboard.main a w).2 !! p ≠ files w !! p →
     p = html_target (path_str (InteractiveDashboard.output_path a)) ∧
     ∃ fig, files (InteractiveDashboard.main a w).2 !! p = Some (Html fig)) as Hid.
  { intros a w p Hne.
    destruct (interactive_main_stable a w w (same_view_refl _ _ _))
      as (ws & ds & HP & _ & _ & Hf & _).
    rewrite Hf in Hne |- *.
    destruct (changed_file _ ws (files w) p HP Hne) as (c & Hc & -> & fig & ->).
    split; [done|]. by exists fig. }
  split; [|split; [|split]].
  - intros a w p Hne.
    destruct (plot_simulation_writes a w) as (ws & ds & HP & _ & Hf & _).
    rewrite Hf in Hne |- *.
    destruct (changed_file _ ws (files w) p HP Hne) as (c & Hc & name & fig & Hn & -> & ->).
    by exists name, fig.
  - apply plot_simulation_input_kept.
  - exact Hid.
  - intros a w _ Hne.
    destruct (interactive_main_stable a w w (same_view_refl _ _ _))
      as (ws & ds & HP & _ & _ & -> & _).
    destruct (lookup_apply_writes ws (files w) (Path (InteractiveDashboard.input_file a)))
      as [?|(c & Hin & _)]; [done|].
    rewrite Forall_forall in HP. apply HP in Hin as [Hp _]. simpl in Hp. by destruct Hne.
Qed.

(** C6: chart generation is a function of what the script is shown.  From
    two worlds with the same directories and the same contents of the
    input file, whatever else they hold, a script ends the same way after
    writing the same files with the same contents; and running
    plot_simulation.py a second time writes the same charts again, so
    that no file changes. *)
Theorem chart_generation_deterministic :
  (∀ (a : PlotSimulation.args) (w1 w2 : world),
     same_view (eq (Path (PlotSimulation.output a)))
               (Path (PlotSimulation.input_file a)) w1 w2 →
     ∃ ws, (PlotSimulation.main a w1).1 = (PlotSimulation.main a w2).1 ∧
           files (PlotSimulation.main a w1).2 = apply_writes ws (files w1) ∧
           files (PlotSimulation.main a w2).2 = apply_writes ws (files w2)) ∧
  (∀ (a : InteractiveDashboard.args) (w1 w2 : world),
     same_view (fun _ => False) (Path (InteractiveDashboard.input_file a)) w1 w2 →
     ∃ ws, (InteractiveDashboard.main a w1).1 = (InteractiveDashboard.main a w2).1 ∧
           files (InteractiveDashboard.main a w1).2 = apply_writes ws (files w1) ∧
           files (InteractiveDashboard.main a w2).2 = apply_writes ws (files w2)) ∧
  (∀ (a : PlotSimulation.args) (w : world),
     let w' := (PlotSimulation.main a w).2 in
     (PlotSimulation.main a w').1 = (PlotSimulation.main a w).1 ∧
     files (PlotSimulation.main a w').2 = files w').
Proof.
  split; [|split].
  - intros a w1 w2 Hv.
    destruct (plot_simulation_main_stable a w1 w2 Hv) as (ws & ds & _ & _ & ? & ? & ? & _).
    by exists ws.
  - intros a w1 w2 Hv.
    destruct (interactive_main_stable a w1 w2 Hv) as (ws & ds & _ & _ & ? & ? & ? & _).
    by exists ws.
  - intros a w w'. set (out := Path (PlotSimulation.output a)).
    destruct (mkdir_cases out w) as [(Hok & Hf1 & Hdir1)|[e He]].
    2:{ assert (PlotSimulation.main a w = (Raise e, w)) as Hm.
        { unfold PlotSimulation.main. cbv zeta. by rewrite (bind_run_Raise _ _ _ _ _ He). }
        subst w'. rewrite Hm. simpl. by rewrite Hm. }
    set (w1 := (mkdir_exist_ok out w).2) in *.
    assert (PlotSimulation.main a w1 = PlotSimulation.main a w) as Hsame.
    { unfold PlotSimulation.main. cbv zeta. fold out.
      rewrite (bind_run_Ok _ _ _ _ _ Hok).
      by rewrite (bind_run_Ok _ _ _ _ _ (mkdir_again out w1 Hdir1)). }
    assert (same_view (eq out) (Path (PlotSimulation.input_file a)) w1 w') as Hv.
    { subst w'. rewrite <- Hsame.
      destruct (plot_simulation_writes a w1) as (ws & ds & HP & HD & Hf & Hd).
      split; [|split].
      - intros p. apply Bool.eq_iff_eq_true. rewrite !is_dir_spec, Hd, elem_of_union.
        split; [tauto|]. intros [?|[Hin|?]]; [tauto| |tauto].
        apply elem_of_list_to_set in Hin. rewrite Forall_forall in HD.
        apply HD in Hin as <-. by apply is_dir_spec.
      - intros p <-. rewrite Hf.
        destruct (lookup_apply_writes ws (files w1) out) as [->|(c & Hin & _)]; [done|].
        rewrite Forall_forall in HP. apply HP in Hin as (name & fig & _ & Hp & _).
        simpl in Hp. by apply path_join_neq in Hp.
      - symmetry. apply plot_simulation_input_kept. }
    destruct (plot_simulation_main_stable a w1 w' Hv)
      as (ws & ds & _ & _ & Hr & Hfa & Hfb & _).
    rewrite Hsame in Hr, Hfa. fold w' in Hfa. split; [done|].
    rewrite Hfb, Hfa. by rewrite apply_writes_twice.
Qed.

End Frame.

(** ** The charts of a full run (C4) *)

Lemma bind_run_inv {A B} (m : M A) (k : A -> M B) (w w' : world) (b : B) :
  (m ≫= k) w = (Ok b, w') → ∃ a w1, m w = (Ok a, w1) ∧ k a w1 = (Ok b, w').
Proof.
  unfold mbind, M_bind. destruct (m w) as [[a|e] w1]; [|discriminate]. eauto.
Qed.

(** A computation that may write nothing leaves the files alone. *)
Lemma stable_no_write {A} (made : path -> Prop) (input : path) (m : M A) (w : world) :
  stable (fun _ _ => False) made input m → files (m w).2 = files w.
Proof.
  intros H. destruct (H w w (same_view_refl _ _ _)) as (ws & ds & HP & _ & _ & -> & _).
  destruct ws as [|pc ws]; [done|]. by apply Forall_cons in HP as [[] _].
Qed.

Lemma print_files (s : string) (w w' : world) (u : unit) :
  print s w = (Ok u, w') → files w' = files w.
Proof. unfold print. intros ?; by simplify_eq. Qed.

Lemma savefig_files (p : path) (fig : figure) (w w' : world) (u : unit) :
  savefig p fig w = (Ok u, w') → files w' = <[p := Png fig]> (files w).
Proof.
  unfold savefig, write_file. destruct (is_dir w p); [discriminate|].
  destruct (is_dir w (path_parent p)); [|discriminate]. intros ?; by simplify_eq.
Qed.

Lemma lift_save_files {A} (r : result A) (f : A -> figure) (p : path) (w w' : world)
    (u : unit) :
  (x ← lift r; savefig p (f x)) w = (Ok u, w') →
  ∃ fig, files w' = <[p := Png fig]> (files w).
Proof.
  intros H. apply bind_run_inv in H as (x & w1 & Hl & H).
  unfold lift in Hl. simplify_eq. exists (f x). by eapply savefig_files.
Qed.

Ltac names_neq :=
  let H := fresh in
  unfold path_join; intros H; apply app_inv_head in H; discriminate.

Section FullRun.
Context {lib : PyLib}.

Lemma load_files (s : string) (w : world) :
  files (PlotSimulation.load_simulation_data s w).2 = files w.
Proof.
  apply (stable_no_write (fun _ => False) (Path s)).
  unfold PlotSimulation.load_simulation_data. cbv zeta. repeat stable_step.
Qed.

Lemma load_data_kind (s : string) (w w' : world) (data : value) (df : DataFrame) :
  PlotSimulation.load_simulation_data s w = (Ok (data, Some df), w') →
  (data = VNone ↔ lower (path_suffix (Path s)) = ".csv").
Proof.
  unfold PlotSimulation.load_simulation_data. cbv zeta.
  destruct (String.eqb (lower (path_suffix (Path s))) ".json") eqn:Ej.
  - apply String.eqb_eq in Ej. rewrite Ej. intros H.
    apply bind_run_inv in H as (d & w1 & _ & H).
    apply bind_run_inv in H as (b & w2 & Hin & H).
    unfold lift in Hin. destruct b.
    + apply bind_run_inv in H as (ts & w3 & _ & H).
      apply bind_run_inv in H as (df' & w4 & _ & H). cbv in H. simplify_eq.
      split; [|done]. intros ->. done.
    + apply bind_run_inv in H as (? & ? & _ & H). cbv in H. simplify_eq.
  - destruct (String.eqb (lower (path_suffix (Path s))) ".csv") eqn:Ec.
    + apply String.eqb_eq in Ec. intros H.
      apply bind_run_inv in H as (df' & w1 & _ & H). cbv in H. by simplify_eq.
    + intros H. apply bind_run_inv in H as (? & ? & _ & H). cbv in H. simplify_eq.
Qed.

(** C4, as the code has it: a full run of plot_simulation.py that
    completes has written revenue_productivity.png, cost_analysis.png and
    simulation_dashboard.png as PNG images in the output directory;
    workforce_composition.png as well when the frame has a head-count
    column ('Workforce.Humans.Total' or 'TotalHumans'), and otherwise that
    file is left as it was; equilibrium_analysis.png as well when the
    input was a JSON report, while for a CSV input that file is left as it
    was. *)
Theorem full_run_charts (a : PlotSimulation.args) (w w' : world) :
  PlotSimulation.dashboard_only a = false →
  PlotSimulation.main a w = (Ok tt, w') →
  let out := Path (PlotSimulation.output a) in
  ∃ data df,
    loaded a w = Ok (data, Some df) ∧
    (data = VNone ↔ lower (path_suffix (Path (PlotSimulation.input_file a))) = ".csv") ∧
    png_at w' (path_join out "revenue_productivity.png") ∧
    png_at w' (path_join out "cost_analysis.png") ∧
    png_at w' (path_join out "simulation_dashboard.png") ∧
    match PlotSimulation.workforce_columns df with
    | Some _ => png_at w' (path_join out "workforce_composition.png")
    | None => files w' !! path_join out "workforce_composition.png" =
              files w !! path_join out "workforce_composition.png"
    end ∧
    (if is_none data
     then files w' !! path_join out "equilibrium_analysis.png" =
          files w !! path_join out "equilibrium_analysis.png"
     else png_at w' (path_join out "equilibrium_analysis.png")).
Proof.
  intros Hfull Hrun out. unfold PlotSimulation.main in Hrun. cbv zeta in Hrun.
  fold out in Hrun. rewrite Hfull in Hrun.
  apply bind_run_inv in Hrun as ([] & w1 & Hmk & Hrun).
  apply bind_run_inv in Hrun as ([] & w2 & Hp1 & Hrun).
  apply bind_run_inv in Hrun as ([data [df|]] & w3 & Hload & Hrun).
  2:{ apply bind_run_inv in Hrun as (? & ? & _ & Hrun). discriminate. }
  exists data, df.
  assert (loaded a w = Ok (data, Some df)) as Hloaded.
  { unfold loaded. fold out. rewrite (bind_run_Ok _ _ _ _ _ Hmk).
    rewrite (bind_run_Ok _ _ _ _ _ Hp1). by rewrite Hload. }
  split; [done|]. split; [by eapply load_data_kind|].
  assert (files w3 = files w) as Hf3.
  { pose proof (load_files (PlotSimulation.input_file a) w2) as H. rewrite Hload in H.
    simpl in H. rewrite H. rewrite (print_files _ _ _ _ Hp1).
    pose proof (stable_no_write (fun _ => True) [] _ w (stable_mkdir _ _ _ out I)) as H'.
    by rewrite Hmk in H'. }
  apply bind_run_inv in Hrun as ([] & w4 & Hp2 & Hrun).
  apply bind_run_inv in Hrun as ([] & w5 & Hbody & Hrun).
  apply bind_run_inv in Hrun as ([] & w6 & Hp3 & Hrun).
  apply bind_run_inv in Hrun as ([] & w7 & Hp4 & Hrun).
  assert (files w' = files w5) as Hend.
  { unfold print_generated in Hrun. rewrite print_all_run in Hrun. simplify_eq. simpl.
    by rewrite (print_files _ _ _ _ Hp4), (print_files _ _ _ _ Hp3). }
  apply bind_run_inv in Hbody as ([] & v1 & Hq1 & Hbody).
  apply bind_run_inv in Hbody as ([] & v2 & Hwf & Hbody).
  apply bind_run_inv in Hbody as ([] & v3 & Hq2 & Hbody).
  apply bind_run_inv in Hbody as ([] & v4 & Hrev & Hbody).
  apply bind_run_inv in Hbody as ([] & v5 & Hq3 & Hbody).
  apply bind_run_inv in Hbody as ([] & v6 & Hcost & Hbody).
  apply bind_run_inv in Hbody as ([] & v7 & Hq4 & Hbody).
  apply bind_run_inv in Hbody as ([] & v8 & Heq & Hbody).
  apply bind_run_inv in Hbody as ([] & v9 & Hq5 & Hdash).
  apply print_files in Hp2, Hq1, Hq2, Hq3, Hq4, Hq5.
  apply lift_save_files in Hrev as [frev Hrev].
  apply lift_save_files in Hcost as [fcost Hcost].
  apply lift_save_files in Hdash as [fdash Hdash].
  assert (match PlotSimulation.workforce_columns df with
          | Some _ => ∃ fig, files v2 =
                        <[path_join out "workforce_composition.png" := Png fig]> (files v1)
          | None => files v2 = files v1
          end) as Hwf'.
  { unfold PlotSimulation.plot_workforce_composition in Hwf.
    destruct (PlotSimulation.workforce_columns df) as [[h c]|].
    - by apply lift_save_files in Hwf.
    - by apply print_files in Hwf. }
  assert (if is_none data
          then files v8 = files v7
          else ∃ fig, files v8 = <[path_join out "equilibrium_analysis.png" := Png fig]> (files v7))
    as Heq'.
  { unfold PlotSimulation.plot_equilibrium_analysis in Heq.
    destruct data; cbn [is_none]; try (by apply lift_save_files in Heq).
    by apply print_files in Heq. }
  unfold png_at. rewrite Hend, Hdash, Hq5.
  split; [|split; [|split; [|split]]].
  - unfold png_at. rewrite lookup_insert_ne by names_neq.
    destruct (is_none data); [rewrite Heq'|destruct Heq' as [? ->];
      rewrite lookup_insert_ne by names_neq];
      rewrite Hq4, Hcost, lookup_insert_ne by names_neq;
      rewrite Hq3, Hrev, lookup_insert_eq; eauto.
  - unfold png_at. rewrite lookup_insert_ne by names_neq.
    destruct (is_none data); [rewrite Heq'|destruct Heq' as [? ->];
      rewrite lookup_insert_ne by names_neq];
      rewrite Hq4, Hcost, lookup_insert_eq; eauto.
  - unfold png_at. rewrite lookup_insert_eq. eauto.
  - assert (files v8 !! path_join out "workforce_composition.png" =
            files v2 !! path_join out "workforce_composition.png") as Hsame.
    { destruct (is_none data); [rewrite Heq'|destruct Heq' as [? ->];
        rewrite lookup_insert_ne by names_neq];
        rewrite Hq4, Hcost, lookup_insert_ne by names_neq;
        by rewrite Hq3, Hrev, lookup_insert_ne, Hq2 by names_neq. }
    unfold png_at. rewrite lookup_insert_ne by names_neq. rewrite Hsame.
    destruct (PlotSimulation.workforce_columns df).
    + destruct Hwf' as [fig ->]. rewrite lookup_insert_eq. eauto.
    + by rewrite Hwf', Hq1, Hp2, Hf3.
  - unfold png_at. rewrite lookup_insert_ne by names_neq.
    destruct (is_none data).
    + rewrite Heq', Hq4, Hcost, lookup_insert_ne by names_neq.
      rewrite Hq3, Hrev, lookup_insert_ne, Hq2 by names_neq.
      destruct (PlotSimulation.workforce_columns df).
      * destruct Hwf' as [fig ->]. rewrite lookup_insert_ne by names_neq.
        by rewrite Hq1, Hp2, Hf3.
      * by rewrite Hwf', Hq1, Hp2, Hf3.
    + destruct Heq' as [fig ->]. rewrite lookup_insert_eq. eauto.
Qed.

End FullRun.

(** ** plot_sensitivity.py as a whole *)

Lemma stable_bind_reach {A B} (P : path -> content -> Prop) (made : path -> Prop)
    (input : path) (Q : A -> Prop) (m : M A) (k : A -> M B) :
  stable P made input m →
  (∀ w a, (m w).1 = Ok a → Q a) →
  (∀ a, Q a → stable P made input (k a)) →
  stable P made input (m ≫= k).
Proof.
  intros Hm HQ Hk w1 w2 Hv.
  destruct (Hm w1 w2 Hv) as (ws & ds & HP & HD & Hr & H1 & H2 & Hd1 & Hd2).
  unfold mbind, M_bind. specialize (HQ w1).
  destruct (m w1) as [r1 w1'], (m w2) as [r2 w2']. simpl in *. subst r2.
  destruct r1 as [a|e].
  - assert (same_view made input w1' w2') as Hv' by by eapply same_view_after.
    destruct (Hk a (HQ a eq_refl) w1' w2' Hv')
      as (ws' & ds' & HP' & HD' & Hr' & H1' & H2' & Hd1' & Hd2').
    exists (ws ++ ws'), (ds ++ ds'). split; [by apply Forall_app|].
    split; [by apply Forall_app|].
    rewrite !apply_writes_app, <- H1, <- H2, Hd1', Hd2', Hd1, Hd2.
    rewrite list_to_set_app_L, !(assoc_L (∪)), (comm_L (∪) (list_to_set ds')).
    done.
  - exists ws, ds. done.
Qed.

Lemma stable_weaken {A} (P P' : path -> content -> Prop) (made : path -> Prop)
    (input : path) (m : M A) :
  (∀ p c, P p c → P' p c) → stable P made input m → stable P' made input m.
Proof.
  intros HPP H w1 w2 Hv. destruct (H w1 w2 Hv) as (ws & ds & HP & Hrest).
  exists ws, ds. split; [|done]. eapply Forall_impl; [done|]. intros [p c]. apply HPP.
Qed.

Ltac png_under_tac :=
  solve [ eexists _, _; split; [|split; reflexivity];
          rewrite ?elem_of_cons; tauto ].

Ltac stable_png_step :=
  first
    [ apply stable_ret | apply stable_raise | apply stable_sys_exit
    | apply stable_lift | apply stable_print
    | apply stable_json_load | apply stable_read_csv
    | apply stable_mkdir; reflexivity
    | apply stable_print_generated
    | apply stable_write_file; png_under_tac
    | apply stable_bind; [|intros ?]
    | match goal with
      | |- stable _ _ _ (if ?b then _ else _) => destruct b
      | |- stable _ _ _ (match ?x with _ => _ end) => destruct x
      end ].

Ltac unfold_sensitivity :=
  unfold PlotSensitivityRun.main, PlotSensitivity.load_sensitivity_data,
    PlotSensitivity.plot_parameter_rankings, PlotSensitivity.plot_parameter_variations,
    PlotSensitivity.plot_sensitivity_heatmap,
    PlotSensitivityRun.plot_parameter_distributions,
    PlotSensitivityRun.create_sensitivity_dashboard, savefig;
  cbv zeta.

Section SensitivityRun.
Context {lib : PyLib} {stats : StatsLib}.

Lemma sensitivity_main_stable (a : PlotSensitivityRun.args) :
  stable (png_under sensitivity_png_names (Path (PlotSensitivityRun.output a)))
         (eq (Path (PlotSensitivityRun.output a)))
         (Path (PlotSensitivityRun.input_file a)) (PlotSensitivityRun.main a).
Proof. unfold_sensitivity. unfold sensitivity_png_names. repeat stable_png_step. Qed.

Lemma load_sensitivity_files (s : string) (w : world) :
  files (PlotSensitivity.load_sensitivity_data s w).2 = files w.
Proof.
  apply (stable_no_write (fun _ => False) (Path s)).
  unfold PlotSensitivity.load_sensitivity_data. cbv zeta. repeat stable_step.
Qed.

(** What [load_sensitivity_data] returns, by the suffix of the path. *)
Lemma load_sensitivity_kind (s : string) (w : world) (data : value) (df : option DataFrame) :
  (PlotSensitivity.load_sensitivity_data s w).1 = Ok (data, df) →
  (lower (path_suffix (Path s)) = ".json" ∧ df = None) ∨
  (lower (path_suffix (Path s)) = ".csv" ∧ data = VNone ∧ is_Some df) ∨
  (lower (path_suffix (Path s)) ≠ ".json" ∧ lower (path_suffix (Path s)) ≠ ".csv" ∧
   data = VNone ∧ df = None).
Proof.
  unfold PlotSensitivity.load_sensitivity_data. cbv zeta.
  destruct (String.eqb (lower (path_suffix (Path s))) ".json") eqn:Ej.
  - apply String.eqb_eq in Ej. intros H. left. split; [done|].
    unfold mbind, M_bind in H. destruct (json_load (Path s) w) as [[d|e] w1];
      simpl in H; by simplify_eq.
  - apply String.eqb_neq in Ej.
    destruct (String.eqb (lower (path_suffix (Path s))) ".csv") eqn:Ec.
    + apply String.eqb_eq in Ec. intros H. right. left. split; [done|].
      unfold mbind, M_bind in H. destruct (read_csv (Path s) w) as [[d|e] w1];
        simpl in H; simplify_eq. split; [done|]. by eexists.
    + apply String.eqb_neq in Ec. intros H. right. right.
      cbv in H. by simplify_eq.
Qed.

Lemma sensitivity_unsupported_run (a : PlotSensitivityRun.args) (w : world) :
  let p := Path (PlotSensitivityRun.input_file a) in
  lower (path_suffix p) ≠ ".json" →
  lower (path_suffix p) ≠ ".csv" →
  exit_status (PlotSensitivityRun.main a w).1 = 1 ∧
  files (PlotSensitivityRun.main a w).2 = files w ∧
  ((mkdir_exist_ok (Path (PlotSensitivityRun.output a)) w).1 = Ok tt →
   (PlotSensitivityRun.main a w).1 = Raise (SystemExit 1) ∧
   stdout (PlotSensitivityRun.main a w).2 =
     stdout w ++
     [ "Loading sensitivity analysis data from " +:+ PlotSensitivityRun.input_file a +:+ "...";
       "Error: Unsupported file format " +:+ path_suffix p;
       "Error: Could not load sensitivity analysis data" ]).
Proof.
  intros p H1 H2.
  destruct (mkdir_run (Path (PlotSensitivityRun.output a)) w) as (Hf & Hs & Hr).
  destruct (mkdir_exist_ok (Path (PlotSensitivityRun.output a)) w) as [[[]|e] w1] eqn:E;
    simpl in Hf, Hs, Hr.
  - assert (∀ w0, PlotSensitivity.load_sensitivity_data (PlotSensitivityRun.input_file a) w0 =
              (Ok (VNone, None),
               World (files w0) (dirs w0)
                 (stdout w0 ++ ["Error: Unsupported file format " +:+ path_suffix p]))) as Hl.
    { intros w0. unfold PlotSensitivity.load_sensitivity_data. cbv zeta. fold p.
      apply String.eqb_neq in H1, H2. by rewrite H1, H2. }
    assert (PlotSensitivityRun.main a w =
              (Raise (SystemExit 1),
               World (files w1) (dirs w1)
                 (((stdout w1 ++
                    ["Loading sensitivity analysis data from " +:+
                     PlotSensitivityRun.input_file a +:+ "..."]) ++
                   ["Error: Unsupported file format " +:+ path_suffix p]) ++
                  ["Error: Could not load sensitivity analysis data"]))) as ->.
    { unfold PlotSensitivityRun.main. cbv zeta. rewrite (bind_run_Ok _ _ _ _ _ E).
      erewrite (bind_run_Ok (print _)) by reflexivity.
      erewrite bind_run_Ok by apply Hl. reflexivity. }
    cbn [fst snd exit_status files stdout]. rewrite Hf, Hs, <- !app_assoc. done.
  - assert (PlotSensitivityRun.main a w = (Raise e, w1)) as ->.
    { unfold PlotSensitivityRun.main. cbv zeta. by rewrite (bind_run_Raise _ _ _ _ _ E). }
    cbn [fst snd exit_status].
    destruct Hr as [?|(e' & He & _ & Hne)]; [done|]. simplify_eq.
    split; [|done]. destruct e'; try done. by destruct (Hne code).
Qed.

(** X1: with an input whose suffix is neither '.json' nor '.csv',
    [main] of plot_sensitivity.py ends with exit status 1 and no file has
    changed; when the output directory could be made, it is the
    [sys.exit(1)] after the two error messages. *)
Theorem sensitivity_unsupported_input (a : PlotSensitivityRun.args) (w : world) :
  let p := Path (PlotSensitivityRun.input_file a) in
  lower (path_suffix p) ≠ ".json" →
  lower (path_suffix p) ≠ ".csv" →
  exit_status (PlotSensitivityRun.main a w).1 = 1 ∧
  files (PlotSensitivityRun.main a w).2 = files w ∧
  ((mkdir_exist_ok (Path (PlotSensitivityRun.output a)) w).1 = Ok tt →
   (PlotSensitivityRun.main a w).1 = Raise (SystemExit 1) ∧
   stdout (PlotSensitivityRun.main a w).2 =
     stdout w ++
     [ "Loading sensitivity analysis data from " +:+ PlotSensitivityRun.input_file a +:+ "...";
       "Error: Unsupported file format " +:+ path_suffix p;
       "Error: Could not load sensitivity analysis data" ]).
Proof. intros p H1 H2. by apply sensitivity_unsupported_run. Qed.

Lemma sensitivity_png_suffix (output_dir : path) (name : string) :
  name ∈ sensitivity_png_names → lower (path_suffix (path_join output_dir name)) = ".png".
Proof.
  intros H. unfold path_suffix, path_name, path_join. rewrite last_last.
  unfold sensitivity_png_names in H. rewrite !elem_of_cons, elem_of_nil in H.
  destruct H as [->|[->|[->|[->|[->|[]]]]]]; reflexivity.
Qed.

Lemma sensitivity_input_kept (a : PlotSensitivityRun.args) (w : world) :
  files (PlotSensitivityRun.main a w).2 !! Path (PlotSensitivityRun.input_file a) =
  files w !! Path (PlotSensitivityRun.input_file a).
Proof.
  destruct (sensitivity_main_stable a w w (same_view_refl _ _ _))
    as (ws & ds & HP & HD & _ & Hf & _ & Hd & _).
  set (input := Path (PlotSensitivityRun.input_file a)).
  destruct (decide (lower (path_suffix input) = ".json")) as [Hj|Hj].
  2: destruct (decide (lower (path_suffix input) = ".csv")) as [Hc|Hc].
  3: { destruct (sensitivity_unsupported_run a w Hj Hc) as (_ & -> & _). done. }
  all: rewrite Hf.
  all: destruct (lookup_apply_writes ws (files w) input) as [?|(c & Hin & _)]; [done|].
  all: rewrite Forall_forall in HP; apply HP in Hin as (name & fig & Hn & Hp & _).
  all: simpl in Hp; apply (sensitivity_png_suffix (Path (PlotSensitivityRun.output a))) in Hn.
  all: rewrite <- Hp in Hn; fold input in Hn; congruence.
Qed.

(** X2: a run of plot_sensitivity.py changes no file but PNG charts,
    under its five names, directly in the output directory; it never
    changes the input file; and it makes no directory but the output
    directory. *)
Theorem sensitivity_run_frame (a : PlotSensitivityRun.args) (w : world) :
  (∀ p, files (PlotSensitivityRun.main a w).2 !! p ≠ files w !! p →
     ∃ name fig, name ∈ sensitivity_png_names ∧
       p = path_join (Path (PlotSensitivityRun.output a)) name ∧
       files (PlotSensitivityRun.main a w).2 !! p = Some (Png fig)) ∧
  files (PlotSensitivityRun.main a w).2 !! Path (PlotSensitivityRun.input_file a) =
    files w !! Path (PlotSensitivityRun.input_file a) ∧
  (∀ p, p ∈ dirs (PlotSensitivityRun.main a w).2 →
     p ∈ dirs w ∨ p = Path (PlotSensitivityRun.output a)).
Proof.
  destruct (sensitivity_main_stable a w w (same_view_refl _ _ _))
    as (ws & ds & HP & HD & _ & Hf & _ & Hd & _).
  split; [|split].
  - intros p Hne. rewrite Hf in Hne |- *.
    destruct (changed_file _ ws (files w) p HP Hne) as (c & Hc & name & fig & Hn & -> & ->).
    by exists name, fig.
  - apply sensitivity_input_kept.
  - intros p. rewrite Hd, elem_of_union, elem_of_list_to_set. intros [Hin|?]; [|by left].
    right. rewrite Forall_forall in HD. by apply HD in Hin.
Qed.

(** X3: what a run of plot_sensitivity.py can write depends on the kind
    of input.  From a CSV table it writes neither the rankings nor the
    variations chart, from a JSON report neither the heatmap nor the
    distributions chart. *)
Theorem sensitivity_charts_by_kind (a : PlotSensitivityRun.args) (w : world) (p : path) :
  files (PlotSensitivityRun.main a w).2 !! p ≠ files w !! p →
  let out := Path (PlotSensitivityRun.output a) in
  let suffix := lower (path_suffix (Path (PlotSensitivityRun.input_file a))) in
  (suffix = ".csv" →
     p ∈ [ path_join out "sensitivity_heatmap.png"; path_join out "outcome_distributions.png";
           path_join out "sensitivity_dashboard.png" ]) ∧
  (suffix = ".json" →
     p ∈ [ path_join out "parameter_rankings.png"; path_join out "parameter_variations.png";
           path_join out "sensitivity_dashboard.png" ]).
Proof.
  intros Hne out suffix.
  assert (∀ names (Q : value * option DataFrame -> Prop),
    (∀ w0 r, (PlotSensitivity.load_sensitivity_data (PlotSensitivityRun.input_file a) w0).1
               = Ok r → Q r) →
    (∀ r, Q r →
       stable (png_under names out) (eq out) (Path (PlotSensitivityRun.input_file a))
         (let '(data, df) := r in
          match data, df with
          | VNone, None =>
              print "Error: Could not load sensitivity analysis data";; sys_exit 1
          | _, _ =>
              match df with
              | Some df =>
                  print ("Loaded " +:+ py_str (VInt (Z.of_nat (nrows df))) +:+
                         " sensitivity analysis runs")
              | None => mret tt
              end;;
              (if PlotSensitivityRun.dashboard_only a then
                 print "Creating sensitivity analysis dashboard...";;
                 PlotSensitivityRun.create_sensitivity_dashboard data df out
               else
                 (if py_truthy data then
                    print "Creating parameter ranking plots...";;
                    PlotSensitivity.plot_parameter_rankings data out;;
                    print "Creating parameter variation plots...";;
                    PlotSensitivity.plot_parameter_variations data out
                  else mret tt);;
                 match df with
                 | Some _ =>
                     print "Creating sensitivity heatmap...";;
                     PlotSensitivity.plot_sensitivity_heatmap df out;;
                     print "Creating outcome distribution plots...";;
                     PlotSensitivityRun.plot_parameter_distributions df out
                 | None => mret tt
                 end;;
                 print "Creating sensitivity analysis dashboard...";;
                 PlotSensitivityRun.create_sensitivity_dashboard data df out);;
              print ("Plots saved to " +:+ path_str out +:+ "/");;
              print "Generated files:";;
              print_generated out
          end)) →
    ∃ name, name ∈ names ∧ p = path_join out name) as Hgen.
  { intros names Q Hreach Hk.
    assert (stable (png_under names out) (eq out) (Path (PlotSensitivityRun.input_file a))
              (PlotSensitivityRun.main a)) as Hst.
    { unfold PlotSensitivityRun.main. cbv zeta. fold out.
      apply stable_bind; [apply stable_mkdir; reflexivity|intros _].
      apply stable_bind; [apply stable_print|intros _].
      apply (stable_bind_reach _ _ _ Q); [|exact Hreach|exact Hk].
      unfold PlotSensitivity.load_sensitivity_data. cbv zeta. repeat stable_png_step. }
    destruct (Hst w w (same_view_refl _ _ _)) as (ws & ds & HP & _ & _ & Hf & _).
    rewrite Hf in Hne.
    destruct (changed_file _ ws (files w) p HP Hne) as (c & _ & name & fig & Hn & -> & _).
    by exists name. }
  split; intros Hs.
  - destruct (Hgen ["sensitivity_heatmap.png"; "outcome_distributions.png";
                    "sensitivity_dashboard.png"] (fun r => r.1 = VNone))
      as (name & Hn & ->).
    + intros w0 [data df] H. apply load_sensitivity_kind in H.
      fold suffix in H. destruct H as [[? _]|[(_ & ? & _)|(_ & _ & ? & _)]];
        [congruence|done|done].
    + intros [data df] Hq. simpl in Hq. subst data.
      unfold PlotSensitivity.plot_sensitivity_heatmap,
        PlotSensitivityRun.plot_parameter_distributions,
        PlotSensitivityRun.create_sensitivity_dashboard, savefig.
      cbn [py_truthy]. repeat stable_png_step.
    + rewrite !elem_of_cons in *. rewrite elem_of_nil in Hn.
      destruct Hn as [->|[->|[->|[]]]]; tauto.
  - destruct (Hgen ["parameter_rankings.png"; "parameter_variations.png";
                    "sensitivity_dashboard.png"] (fun r => r.2 = None))
      as (name & Hn & ->).
    + intros w0 [data df] H. apply load_sensitivity_kind in H.
      fold suffix in H. destruct H as [[_ ?]|[(? & _)|(? & _)]];
        [done|congruence|congruence].
    + intros [data df] Hq. simpl in Hq. subst df.
      unfold PlotSensitivity.plot_parameter_rankings,
        PlotSensitivity.plot_parameter_variations,
        PlotSensitivityRun.create_sensitivity_dashboard, savefig.
      repeat stable_png_step.
    + rewrite !elem_of_cons in *. rewrite elem_of_nil in Hn.
      destruct Hn as [->|[->|[->|[]]]]; tauto.
Qed.

End SensitivityRun.

(** ** More on the runs of plot_simulation.py and interactive_dashboard.py *)

Lemma is_Some_apply_writes (ws : list (path * content)) (fs : gmap path content) (p : path) :
  is_Some (fs !! p) → is_Some (apply_writes ws fs !! p).
Proof.
  intros H. rewrite lookup_apply_writes_last. destruct (last_write ws p); [by eexists|done].
Qed.

Lemma glob_png_lists (dir : path) (name : string) (w : world) :
  is_Some (files w !! path_join dir name) → endswith name ".png" = true →
  name ∈ glob_png dir w.
Proof.
  intros Hin Hpng. unfold glob_png. apply list_elem_of_fmap.
  exists (path_join dir name). unfold path_name, path_join. rewrite last_last.
  split; [done|]. apply list_elem_of_filter. split.
  - split; [by destruct dir|]. unfold path_parent, path_name.
    by rewrite removelast_last, last_last.
  - apply elem_of_elements, elem_of_dom. exact Hin.
Qed.

Section Runs.
Context {lib : PyLib}.

(** X4: without --sensitivity, interactive_dashboard.py accepts '.json'
    only: for any other suffix (a CSV table included) [main] prints two
    errors and exits with status 1, and nothing has been written. *)
Theorem interactive_unsupported_input (a : InteractiveDashboard.args) (w : world) :
  let p := Path (InteractiveDashboard.input_file a) in
  InteractiveDashboard.sensitivity a = false →
  lower (path_suffix p) ≠ ".json" →
  InteractiveDashboard.main a w =
    (Raise (SystemExit 1),
     World (files w) (dirs w)
       (stdout w ++
        [ "Loading data from " +:+ InteractiveDashboard.input_file a +:+ "...";
          "Error: Unsupported file format " +:+ path_suffix p;
          "Error: Could not load simulation data" ])).
Proof.
  intros p Hs Hj. unfold InteractiveDashboard.main. cbv zeta. rewrite Hs.
  unfold InteractiveDashboard.load_simulation_data. cbv zeta. fold p.
  apply String.eqb_neq in Hj. rewrite Hj.
  cbv [mbind M_bind print mret M_ret sys_exit raise]. cbn [files dirs stdout].
  by rewrite <- !app_assoc.
Qed.

(** X5: with --sensitivity, a report that is empty or has no
    'ParameterRankings' makes [main] print an error and return normally,
    with exit status 0 and no file written; with --open it still announces
    a dashboard opened in the browser. *)
Theorem sensitivity_without_rankings (a : InteractiveDashboard.args) (w : world)
    (data : value) :
  InteractiveDashboard.sensitivity a = true →
  is_dir w (Path (InteractiveDashboard.input_file a)) = false →
  files w !! Path (InteractiveDashboard.input_file a) = Some (Json data) →
  lacks data "ParameterRankings" = Ok true →
  InteractiveDashboard.main a w =
    (Ok tt,
     World (files w) (dirs w)
       (stdout w ++
        [ "Loading data from " +:+ InteractiveDashboard.input_file a +:+ "...";
          "Error: No parameter rankings found in sensitivity data" ] ++
        (if InteractiveDashboard.open_browser a
         then ["Dashboard opened in browser"] else []))).
Proof.
  intros Hs Hd Hf Hl. unfold InteractiveDashboard.main. cbv zeta. rewrite Hs.
  erewrite (bind_run_Ok (print _)) by reflexivity.
  erewrite (bind_run_Ok (json_load _ ≫= _)).
  2:{ erewrite bind_run_Ok.
      2:{ unfold json_load. cbn [dirs files]. unfold is_dir in *. cbn [dirs].
          rewrite Hd, Hf. reflexivity. }
      unfold InteractiveDashboard.create_sensitivity_dashboard.
      rewrite (bind_lift_Ok _ _ _ _ Hl). reflexivity. }
  destruct (InteractiveDashboard.open_browser a);
    cbv [print mret M_ret]; cbn [files dirs stdout]; rewrite <- ?app_assoc; simpl;
    by rewrite ?app_nil_r.
Qed.

(** X6: with --dashboard-only, plot_simulation.py changes no file but
    simulation_dashboard.png in the output directory, and a run that
    completes has written it. *)
Theorem dashboard_only_run (a : PlotSimulation.args) (w : world) :
  PlotSimulation.dashboard_only a = true →
  let target := path_join (Path (PlotSimulation.output a)) "simulation_dashboard.png" in
  (∀ p, files (PlotSimulation.main a w).2 !! p ≠ files w !! p → p = target) ∧
  ((PlotSimulation.main a w).1 = Ok tt → png_at (PlotSimulation.main a w).2 target).
Proof.
  intros Hd target. split.
  - intros p Hne.
    assert (stable (png_under ["simulation_dashboard.png"] (Path (PlotSimulation.output a)))
              (eq (Path (PlotSimulation.output a))) (Path (PlotSimulation.input_file a))
              (PlotSimulation.main a)) as Hst.
    { unfold PlotSimulation.main, PlotSimulation.load_simulation_data,
        PlotSimulation.create_summary_dashboard, savefig.
      cbv zeta. rewrite Hd. repeat stable_png_step. }
    destruct (Hst w w (same_view_refl _ _ _)) as (ws & ds & HP & _ & _ & Hf & _).
    rewrite Hf in Hne.
    destruct (changed_file _ ws (files w) p HP Hne) as (c & _ & name & fig & Hn & -> & _).
    apply list_elem_of_singleton in Hn as ->. done.
  - intros Hok.
    destruct (PlotSimulation.main a w) as [r w'] eqn:Hrun. simpl in Hok. subst r. simpl.
    unfold PlotSimulation.main in Hrun. cbv zeta in Hrun. rewrite Hd in Hrun.
    apply bind_run_inv in Hrun as ([] & w1 & _ & Hrun).
    apply bind_run_inv in Hrun as ([] & w2 & _ & Hrun).
    apply bind_run_inv in Hrun as ([data [df|]] & w3 & _ & Hrun).
    2:{ apply bind_run_inv in Hrun as (? & ? & _ & Hrun). discriminate. }
    apply bind_run_inv in Hrun as ([] & w4 & _ & Hrun).
    apply bind_run_inv in Hrun as ([] & w5 & Hbody & Hrun).
    apply bind_run_inv in Hrun as ([] & w6 & Hp3 & Hrun).
    apply bind_run_inv in Hrun as ([] & w7 & Hp4 & Hrun).
    unfold print_generated in Hrun. rewrite print_all_run in Hrun. simplify_eq.
    apply bind_run_inv in Hbody as ([] & v1 & _ & Hdash).
    apply lift_save_files in Hdash as [fig Hdash].
    unfold png_at. cbn [files].
    rewrite (print_files _ _ _ _ Hp4), (print_files _ _ _ _ Hp3), Hdash.
    rewrite lookup_insert_eq. eauto.
Qed.

(** X7: no script removes a directory; plot_simulation.py makes no
    directory but its output directory, and interactive_dashboard.py makes
    none at all. *)
Theorem directories_made :
  (∀ (a : PlotSimulation.args) (w : world) (p : path),
     p ∈ dirs (PlotSimulation.main a w).2 →
     p ∈ dirs w ∨ p = Path (PlotSimulation.output a)) ∧
  (∀ (a : PlotSimulation.args) (w : world) (p : path),
     p ∈ dirs w → p ∈ dirs (PlotSimulation.main a w).2) ∧
  (∀ (a : InteractiveDashboard.args) (w : world),
     dirs (InteractiveDashboard.main a w).2 = dirs w).
Proof.
  split; [|split].
  - intros a w p.
    destruct (plot_simulation_writes a w) as (ws & ds & _ & HD & _ & Hd).
    rewrite Hd, elem_of_union, elem_of_list_to_set. rewrite Forall_forall in HD.
    intros [Hin|?]; [|by left]. right. by apply HD in Hin.
  - intros a w p Hin.
    destruct (plot_simulation_writes a w) as (ws & ds & _ & _ & _ & Hd).
    rewrite Hd. apply elem_of_union. by right.
  - intros a w.
    destruct (interactive_main_stable a w w (same_view_refl _ _ _))
      as (ws & ds & _ & HD & _ & _ & _ & Hd & _).
    rewrite Hd. destruct ds as [|d ds]; [simpl; by rewrite union_empty_l_L|].
    by apply Forall_cons in HD as [[] _].
Qed.

(** X8: the list printed under 'Generated files:' is the content of the
    output directory, not what the run has generated: every [*.png] that
    was in the directory before the run is listed as well. *)
Theorem generated_files_lists_old_charts (a : PlotSimulation.args) (w w' : world)
    (name : string) :
  PlotSimulation.main a w = (Ok tt, w') →
  is_Some (files w !! path_join (Path (PlotSimulation.output a)) name) →
  endswith name ".png" = true →
  "  - " +:+ name ∈ stdout w'.
Proof.
  intros Hrun Hold Hpng. set (out := Path (PlotSimulation.output a)) in *.
  assert (is_Some (files w' !! path_join out name)) as Hnew.
  { destruct (plot_simulation_writes a w) as (ws & ds & _ & _ & Hf & _).
    rewrite Hrun in Hf. simpl in Hf. rewrite Hf. by apply is_Some_apply_writes. }
  unfold PlotSimulation.main in Hrun. cbv zeta in Hrun. fold out in Hrun.
  apply bind_run_inv in Hrun as ([] & w1 & _ & Hrun).
  apply bind_run_inv in Hrun as ([] & w2 & _ & Hrun).
  apply bind_run_inv in Hrun as ([data [df|]] & w3 & _ & Hrun).
  2:{ apply bind_run_inv in Hrun as (? & ? & _ & Hrun). discriminate. }
  apply bind_run_inv in Hrun as ([] & w4 & _ & Hrun).
  apply bind_run_inv in Hrun as ([] & w5 & _ & Hrun).
  apply bind_run_inv in Hrun as ([] & w6 & _ & Hrun).
  apply bind_run_inv in Hrun as ([] & w7 & _ & Hrun).
  unfold print_generated in Hrun. rewrite print_all_run in Hrun. simplify_eq.
  cbn [files stdout] in *. apply elem_of_app. right.
  apply list_elem_of_fmap. exists name. split; [done|]. by apply glob_png_lists.
Qed.

End Runs.

(** * The charts of the sensitivity script, case by case *)

Lemma lacks_present (d : list (string * value)) (key : string) (v : value) :
  dict_lookup key d = Some v → lacks (VDict d) key = Ok false.
Proof.
  intros H. unfold lacks. cbn [py_truthy py_in].
  destruct d as [|kv d']; [done|].
  rewrite bool_decide_eq_false_2 by done. cbn [negb mbind result_bind].
  by rewrite bool_decide_eq_true_2 by (rewrite H; eauto).
Qed.

Lemma has_key_present (d : list (string * value)) (key : string) (v : value) :
  dict_lookup key d = Some v → has_key (VDict d) key = Ok true.
Proof.
  intros H. unfold has_key. cbn [py_truthy py_in].
  destruct d as [|kv d']; [done|].
  rewrite bool_decide_eq_false_2 by done. cbn [negb].
  by rewrite bool_decide_eq_true_2 by (rewrite H; eauto).
Qed.

Section Variations.
Context {lib : PyLib}.

Lemma time_values_dict (r : value) (by_value : list (string * value)) (xs : Series) :
  py_getitem r "TimeToEquilibriumByValue" = Ok (VDict by_value) →
  ∃ ys, time_values r xs = Ok ys.
Proof.
  intros H. unfold time_values.
  exists ((fun v => default (VInt 0) (dict_lookup (py_str v) by_value)) <$> xs).
  apply mapM_fmap_Ok. intros v _. rewrite H. cbn [mbind result_bind py_get].
  by destruct (dict_lookup (py_str v) by_value).
Qed.

Lemma variation_plots_ok (axes : list PlotSensitivity.axes_slot) (l : list value) (i : nat) :
  Forall (fun r => plottable r = true) l →
  (∀ j, (i ≤ j < i + length l)%nat → ∃ k, axes !! j = Some (PlotSensitivity.Axes k)) →
  ∃ fig, PlotSensitivity.variation_plots axes i l = Ok fig ∧
         length fig = length l ∧ Forall (fun d => draw_prim d = "plot") fig.
Proof.
  intros Hl. revert i. induction Hl as [|r l Hr _ IH]; intros i Hax.
  - by exists [].
  - destruct (Hax i) as [k Hk]; [simpl; lia|].
    destruct (IH (S i)) as (fs & Hfs & Hlen & Hall).
    { intros j Hj. apply Hax. simpl. lia. }
    destruct r as [| | | | | |d]; try discriminate. simpl in Hr.
    destruct (dict_lookup "ParameterName" d) as [n|] eqn:En; [|discriminate].
    destruct (dict_lookup "ParameterValues" d) as [[| | | | |xs|]|] eqn:Ev; try discriminate.
    destruct (dict_lookup "TimeToEquilibriumByValue" d) as [[| | | | | |bv]|] eqn:Et;
      try discriminate.
    destruct (time_values_dict (VDict d) bv xs) as [ys Hys].
    { cbn [py_getitem]. by rewrite Et. }
    cbn [PlotSensitivity.variation_plots]. rewrite Hk, Hfs.
    cbn [py_getitem py_in and_then]. rewrite En, Ev, Et.
    rewrite !bool_decide_eq_true_2 by eauto.
    cbn [mbind result_bind py_iter]. rewrite Hys.
    cbn [mbind result_bind PlotSensitivity.plot_on app].
    eexists; split; [done|]. split; [simpl; by f_equal|]. by constructor.
Qed.

Lemma variation_plots_array (r : value) (l : list value) :
  plottable r = true →
  PlotSensitivity.variation_plots [PlotSensitivity.AxesArray] 0 (r :: l)
    = Raise AttributeError.
Proof.
  intros Hr. destruct r as [| | | | | |d]; try discriminate. simpl in Hr.
  destruct (dict_lookup "ParameterName" d) as [n|] eqn:En; [|discriminate].
  destruct (dict_lookup "ParameterValues" d) as [[| | | | |xs|]|] eqn:Ev; try discriminate.
  destruct (dict_lookup "TimeToEquilibriumByValue" d) as [[| | | | | |bv]|] eqn:Et;
    try discriminate.
  destruct (time_values_dict (VDict d) bv xs) as [ys Hys].
  { cbn [py_getitem]. by rewrite Et. }
  cbn [PlotSensitivity.variation_plots lookup list_lookup].
  cbn [py_getitem py_in and_then]. rewrite En, Ev, Et.
  rewrite !bool_decide_eq_true_2 by eauto.
  cbn [mbind result_bind py_iter]. rewrite Hys. done.
Qed.

Lemma variations_figure_cases (l : list value) :
  Forall (fun r => plottable r = true) l →
  (length l = 0%nat → PlotSensitivity.variations_figure (VList l) = Raise ZeroDivisionError) ∧
  ((2 ≤ length l ≤ 3)%nat → PlotSensitivity.variations_figure (VList l) = Raise AttributeError) ∧
  (length l = 1%nat ∨ (4 ≤ length l)%nat →
     ∃ fig, PlotSensitivity.variations_figure (VList l) = Ok fig ∧
            length fig = length l ∧ Forall (fun d => draw_prim d = "plot") fig).
Proof.
  intros Hl. split; [|split].
  - intros H0. destruct l; [done|discriminate].
  - intros H23. destruct l as [|r1 [|r2 [|r3 [|r4 l]]]]; simpl in H23; try lia.
    + apply Forall_cons in Hl as [Hr _].
      unfold PlotSensitivity.variations_figure. cbn [py_len mbind result_bind py_iter].
      rewrite bool_decide_eq_false_2 by (simpl; lia). cbn [mbind result_bind].
      replace (PlotSensitivity.reshape_axes _ _ _) with [PlotSensitivity.AxesArray]
        by reflexivity.
      by apply variation_plots_array.
    + apply Forall_cons in Hl as [Hr _].
      unfold PlotSensitivity.variations_figure. cbn [py_len mbind result_bind py_iter].
      rewrite bool_decide_eq_false_2 by (simpl; lia). cbn [mbind result_bind].
      replace (PlotSensitivity.reshape_axes _ _ _) with [PlotSensitivity.AxesArray]
        by reflexivity.
      by apply variation_plots_array.
  - intros H14. unfold PlotSensitivity.variations_figure.
    cbn [py_len mbind result_bind py_iter].
    rewrite bool_decide_eq_false_2 by lia. cbn [mbind result_bind].
    apply variation_plots_ok; [done|].
    intros j Hj. exists j. unfold PlotSensitivity.reshape_axes.
    destruct H14 as [H1|H4].
    + rewrite bool_decide_eq_true_2 by done.
      assert (j = 0%nat) as -> by lia. done.
    + rewrite bool_decide_eq_false_2 by lia.
      replace (Nat.min 3 (length l)) with 3%nat by lia.
      pose proof (Nat.div_mod_eq (length l + 3 - 1) 3) as Hdiv.
      pose proof (Nat.mod_upper_bound (length l + 3 - 1) 3) as Hmod.
      rewrite bool_decide_eq_false_2 by lia.
      rewrite list_lookup_fmap, lookup_seq_lt by lia. done.
Qed.

(** X9: [plot_parameter_variations] on results that can all be plotted,
    by their number: none stops at the division by [cols = 0], two or
    three stop at [ax.plot] on an array of subplots, and in both cases
    nothing is saved; one, or four and more, give a figure with exactly
    one line plot per result. *)
Theorem variations_chart_by_count (d : list (string * value)) (l : list value)
    (output_dir : path) (w : world) :
  dict_lookup "SensitivityResults" d = Some (VList l) →
  Forall (fun r => plottable r = true) l →
  let run := PlotSensitivity.plot_parameter_variations (VDict d) output_dir w in
  (length l = 0%nat → run = (Raise ZeroDivisionError, w)) ∧
  ((2 ≤ length l ≤ 3)%nat → run = (Raise AttributeError, w)) ∧
  (length l = 1%nat ∨ (4 ≤ length l)%nat →
     ∃ fig, run = savefig (path_join output_dir "parameter_variations.png") fig w ∧
            length fig = length l ∧ count_prim "plot" fig = length l).
Proof.
  intros Hd Hl run. subst run.
  destruct (variations_figure_cases l Hl) as (H0 & H23 & H14).
  assert (py_getitem (VDict d) "SensitivityResults" = Ok (VList l)) as Hg.
  { cbn [py_getitem]. by rewrite Hd. }
  unfold PlotSensitivity.plot_parameter_variations.
  rewrite (bind_lift_Ok _ _ _ _ (lacks_present _ _ _ Hd)), (bind_lift_Ok _ _ _ _ Hg).
  split; [|split].
  - intros H. by rewrite (bind_lift_Raise _ _ _ _ (H0 H)).
  - intros H. by rewrite (bind_lift_Raise _ _ _ _ (H23 H)).
  - intros H. destruct (H14 H) as (fig & Hfig & Hlen & Hall).
    rewrite (bind_lift_Ok _ _ _ _ Hfig). exists fig. split; [done|]. split; [done|].
    unfold count_prim. rewrite <- Hlen. f_equal.
    clear -Hall. induction Hall as [|x fig Hx _ IH]; [done|].
    rewrite filter_cons_True by done. by f_equal.
Qed.

End Variations.

Section MissingName.
Context {lib : PyLib} {stats : StatsLib}.

Lemma time_entries_missing_name (rankings : list value) :
  Forall (fun r => is_dict r = true) rankings →
  Exists (fun r => contains "TimeToEquilibriumImpact" r = true ∧
                   contains "ParameterName" r = false) rankings →
  PlotSensitivity.time_entries rankings = Raise (KeyError "ParameterName").
Proof.
  induction 1 as [|r l Hr Hl IH]; intros Hex; [by apply Exists_nil in Hex|].
  destruct r as [| | | | | |d]; try discriminate.
  cbn [PlotSensitivity.time_entries py_in mbind result_bind].
  destruct (dict_lookup "TimeToEquilibriumImpact" d) as [t|] eqn:Et.
  - rewrite bool_decide_eq_true_2 by eauto. cbn [py_getitem]. rewrite Et.
    cbn [mbind result_bind].
    destruct (dict_lookup "ParameterName" d) as [n|] eqn:En; [|done].
    cbn [mbind result_bind]. rewrite IH; [done|].
    apply Exists_cons in Hex as [[_ Hn]|Hex]; [|done].
    rewrite contains_dict, En in Hn. by rewrite bool_decide_eq_true_2 in Hn by eauto.
  - rewrite bool_decide_eq_false_2 by (by intros [? ?]). cbn [mbind result_bind].
    rewrite IH; [done|].
    apply Exists_cons in Hex as [[Ht _]|Hex]; [|done].
    rewrite contains_dict, Et in Ht. by rewrite bool_decide_eq_false_2 in Ht by (by intros [? ?]).
Qed.

(** X10: when the ranking entries are objects and one of them has a
    'TimeToEquilibriumImpact' but no 'ParameterName', both the rankings
    chart and the dashboard of [plot_sensitivity.py] stop with
    [KeyError: 'ParameterName'] and save nothing. *)
Theorem ranking_without_name (d : list (string * value)) (rankings : list value)
    (df : option DataFrame) (output_dir : path) (w : world) :
  dict_lookup "ParameterRankings" d = Some (VList rankings) →
  Forall (fun r => is_dict r = true) rankings →
  Exists (fun r => contains "TimeToEquilibriumImpact" r = true ∧
                   contains "ParameterName" r = false) rankings →
  PlotSensitivity.plot_parameter_rankings (VDict d) output_dir w
    = (Raise (KeyError "ParameterName"), w) ∧
  PlotSensitivityRun.create_sensitivity_dashboard (VDict d) df output_dir w
    = (Raise (KeyError "ParameterName"), w).
Proof.
  intros Hd Hl Hex.
  pose proof (time_entries_missing_name rankings Hl Hex) as Hte.
  assert (py_getitem (VDict d) "ParameterRankings" = Ok (VList rankings)) as Hg.
  { cbn [py_getitem]. by rewrite Hd. }
  split.
  - unfold PlotSensitivity.plot_parameter_rankings.
    rewrite (bind_lift_Ok _ _ _ _ (lacks_present _ _ _ Hd)), (bind_lift_Ok _ _ _ _ Hg).
    apply bind_lift_Raise.
    unfold PlotSensitivity.rankings_figure. cbn [py_iter mbind result_bind].
    by rewrite Hte.
  - unfold PlotSensitivityRun.create_sensitivity_dashboard.
    apply bind_lift_Raise.
    unfold PlotSensitivityRun.dashboard_figure.
    rewrite (has_key_present _ _ _ Hd). cbn [mbind result_bind].
    unfold PlotSensitivityRun.rankings_row. rewrite Hg. cbn [py_iter mbind result_bind].
    by rewrite Hte.
Qed.

End MissingName.

Section InteractiveBars.
Context {lib : PyLib}.

Lemma ranking_columns_aligned (l ns ts cs : list value) :
  InteractiveDashboard.ranking_columns l = Ok (ns, ts, cs) →
  length ns = length l ∧ length ts = length l ∧ length cs = length l ∧
  ∀ i r, l !! i = Some r →
    ∃ n t c, ns !! i = Some n ∧ ts !! i = Some t ∧ cs !! i = Some c ∧
      py_getitem r "ParameterName" = Ok n ∧
      py_get r "TimeToEquilibriumImpact" (VInt 0) = Ok t ∧
      py_get r "WorkforceCompositionImpact" (VInt 0) = Ok c.
Proof.
  revert ns ts cs. induction l as [|r l IH]; intros ns ts cs H.
  - simpl in H. simplify_eq. by repeat split.
  - cbn [InteractiveDashboard.ranking_columns] in H.
    apply bind_Ok in H as (n & Hn & H). apply bind_Ok in H as (t & Ht & H).
    apply bind_Ok in H as (c & Hc & H). apply bind_Ok in H as ([[ns' ts'] cs'] & Hrest & H).
    simplify_eq. destruct (IH _ _ _ Hrest) as (L1 & L2 & L3 & Hall).
    split; [simpl; by f_equal|]. split; [simpl; by f_equal|]. split; [simpl; by f_equal|].
    intros [|i] r' Hi; simpl in Hi.
    + simplify_eq. by exists n, t, c.
    + apply (Hall i r' Hi).
Qed.

(** X11: whenever the interactive sensitivity dashboard is drawn, its two
    bar charts have one bar per ranking entry, in the order of the
    entries: bar [i] carries the name of entry [i] and its impact, or [0]
    when the entry has none. *)
Theorem interactive_bars_aligned (data : value) (l : list value) (fig : figure) :
  py_getitem data "ParameterRankings" = Ok (VList l) →
  InteractiveDashboard.sensitivity_figure data = Ok fig →
  ∃ ns ts cs rest,
    fig = Draw "1,1" "Bar" [ns; ts] :: Draw "1,2" "Bar" [ns; cs] :: rest ∧
    length ns = length l ∧ length ts = length l ∧ length cs = length l ∧
    ∀ i r, l !! i = Some r →
      ∃ n t c, ns !! i = Some n ∧ ts !! i = Some t ∧ cs !! i = Some c ∧
        py_getitem r "ParameterName" = Ok n ∧
        py_get r "TimeToEquilibriumImpact" (VInt 0) = Ok t ∧
        py_get r "WorkforceCompositionImpact" (VInt 0) = Ok c.
Proof.
  intros Hg H. unfold InteractiveDashboard.sensitivity_figure in H.
  rewrite Hg in H. cbn [mbind result_bind py_iter] in H.
  apply bind_Ok in H as ([[ns ts] cs] & Hcols & H).
  apply bind_Ok in H as (has_r & _ & H). apply bind_Ok in H as (traces & _ & H).
  apply bind_Ok in H as (rows & _ & H). simplify_eq.
  exists ns, ts, cs. eexists. split; [done|]. by apply ranking_columns_aligned.
Qed.

End InteractiveBars.

(** * Budget utilization outside its precondition *)

Lemma map_fmap {A B} (f : A -> B) (l : list A) : List.map f l = f <$> l.
Proof. induction l as [|x l IH]; [done|]. simpl. by rewrite IH. Qed.

Lemma count_prim_app (prim : string) (f g : list draw) :
  count_prim prim (f ++ g) = (count_prim prim f + count_prim prim g)%nat.
Proof. unfold count_prim. by rewrite filter_app, length_app. Qed.

Lemma count_prim_all (prim : string) (f : list draw) :
  Forall (fun d => draw_prim d = prim) f → count_prim prim f = length f.
Proof.
  unfold count_prim. induction 1 as [|x f Hx _ IH]; [done|].
  rewrite filter_cons_True by done. simpl. by f_equal.
Qed.

Lemma count_prim_none (prim : string) (f : list draw) :
  Forall (fun d => draw_prim d ≠ prim) f → count_prim prim f = 0%nat.
Proof.
  unfold count_prim. induction 1 as [|x f Hx _ IH]; [done|].
  by rewrite filter_cons_False by done.
Qed.

Lemma zip_with_agree {A B C} (f g : A -> B -> C) (a : list A) (b : list B) :
  (∀ i x y, a !! i = Some x → b !! i = Some y → f x y = g x y) →
  zip_with f a b = zip_with g a b.
Proof.
  revert b. induction a as [|x a IH]; intros [|y b] H; simpl; [done..|].
  rewrite (H 0%nat x y) by done. f_equal. apply IH. intros i. apply (H (S i)).
Qed.

Section ZeroDivisor.
Context {lib : PyLib}.
Context (laws : rounds_to_nearest lib).

Lemma utilization_cells (cost budget : Series) :
  length cost = length budget → measured cost budget →
  (s ← series_add cost budget; q ← series_div cost s; series_mul_scalar q 100)
    = Ok (zip_with (fun c b => VFloat (utilization_cell c b)) cost budget).
Proof.
  intros Hlen [[Hc Hb]|[Hc Hb]].
  - destruct (decide (length cost = 0%nat)) as [H0|Hne].
    { destruct cost, budget; done. }
    unfold series_add. rewrite (dtype_ints _ Hc), (dtype_ints _ Hb) by lia.
    cbn [mbind result_bind]. unfold series_div. rewrite (dtype_ints _ Hc) by lia.
    rewrite dtype_ints.
    2:{ apply zip_with_Forall. intros. apply in_int64_wrap64. }
    2:{ rewrite length_zip_with. lia. }
    cbn [mbind result_bind]. unfold series_mul_scalar. rewrite dtype_floats
      by (by apply zip_with_Forall).
    f_equal. rewrite zip_with_nested, fmap_zip_with_l.
    apply zip_with_agree. intros i x y Hx Hy.
    pose proof (proj1 (Forall_lookup _ _) Hc i x Hx) as Hxi.
    pose proof (proj1 (Forall_lookup _ _) Hb i y Hy) as Hyi.
    destruct x; try discriminate. destruct y; try discriminate. done.
  - unfold series_add. rewrite (dtype_floats _ Hc), (dtype_floats _ Hb).
    cbn [mbind result_bind]. unfold series_div. rewrite (dtype_floats _ Hc).
    rewrite dtype_floats by (by apply zip_with_Forall).
    cbn [mbind result_bind]. unfold series_mul_scalar. rewrite dtype_floats
      by (by apply zip_with_Forall).
    f_equal. rewrite zip_with_nested, fmap_zip_with_l.
    apply zip_with_agree. intros i x y Hx Hy.
    pose proof (proj1 (Forall_lookup _ _) Hc i x Hx) as Hxi.
    pose proof (proj1 (Forall_lookup _ _) Hb i y Hy) as Hyi.
    destruct x; try discriminate. destruct y; try discriminate. done.
Qed.

Lemma round_zero (q : Q) : (q == 0)%Q → ∃ r, round_q q = Fin r ∧ (r == 0)%Q.
Proof.
  intros Hq. pose proof (binary64_small laws 0 ltac:(lia)) as H0.
  destruct (round_between laws (inject_Z 0) (inject_Z 0) q H0 H0) as (r & Hr & Hr1 & Hr2).
  { change (inject_Z 0) with 0%Q. lra. }
  exists r. split; [done|]. change (inject_Z 0) with 0%Q in *. lra.
Qed.

(** The float of an int64 is finite and has the sign of the int. *)
Lemma float_of_int64_sign (z : Z) :
  in_int64 z = true →
  ∃ a, float_of_int64 z = Fin a ∧ (0 ?= a)%Q = (0 ?= inject_Z z)%Q.
Proof.
  intros Hz. unfold in_int64 in Hz. apply andb_true_iff in Hz as [H1 H2].
  apply Z.leb_le in H1. apply Z.ltb_lt in H2. unfold float_of_int64.
  pose proof (binary64_small laws 1 ltac:(lia)) as B1.
  pose proof (binary64_small laws (-1) ltac:(lia)) as Bm1.
  pose proof (binary64_of_Z laws 1 63 ltac:(lia) ltac:(lia)) as Bmax.
  pose proof (binary64_of_Z laws (-1) 63 ltac:(lia) ltac:(lia)) as Bmin.
  destruct (Z.compare_spec 0 z) as [<-|Hpos|Hneg].
  - destruct (round_zero (inject_Z 0)) as (r & Hr & Hr0); [reflexivity|].
    exists r. split; [done|]. by rewrite Hr0.
  - destruct (round_between laws _ _ (inject_Z z) B1 Bmax) as (r & Hr & Hr1 & _).
    { split; rewrite <- Zle_Qle; lia. }
    exists r. split; [done|].
    assert (0 < r)%Q as Hlt by (change (inject_Z 1) with 1%Q in Hr1; lra).
    assert (0 < inject_Z z)%Q as Hlt' by (change 0%Q with (inject_Z 0); rewrite <- Zlt_Qlt; lia).
    destruct (Qcompare_spec 0 r), (Qcompare_spec 0 (inject_Z z)); try done; lra.
  - destruct (round_between laws _ _ (inject_Z z) Bmin Bm1) as (r & Hr & _ & Hr2).
    { split; rewrite <- Zle_Qle; lia. }
    exists r. split; [done|].
    assert (r < 0)%Q as Hlt by (change (inject_Z (-1)) with (-1)%Q in Hr2; lra).
    assert (inject_Z z < 0)%Q as Hlt' by (change 0%Q with (inject_Z 0); rewrite <- Zlt_Qlt; lia).
    destruct (Qcompare_spec 0 r), (Qcompare_spec 0 (inject_Z z)); try done; lra.
Qed.

Lemma divided_by_zero (a r : Q) :
  (r == 0)%Q →
  fround (fmul (fround (fdiv (Fin a) (Fin r))) (Fin 100)) = zero_division a.
Proof.
  intros Hr. apply Qeq_bool_iff in Hr. cbn [fdiv]. rewrite Hr.
  unfold zero_division, fsign. by destruct (0 ?= a)%Q.
Qed.

(** X12: on two int64 columns, and on two float64 columns, of cost and
    budget the budget-utilization series is computed without an
    exception, cell by cell as [cost / (cost + budget) * 100] in float
    arithmetic (the sum of two ints wrapping around at 64 bits); a step
    whose cost [x] and budget [y] add up to zero holds no number there:
    NaN when [x] is zero, an infinity with the sign of [x] otherwise. *)
Theorem utilization_zero_divisor (df : DataFrame) (cost budget : Series) :
  df_getitem df "TotalCost" = Ok cost →
  df_getitem df "AvailableBudget" = Ok budget →
  length cost = length budget →
  measured cost budget →
  ∃ u, budget_utilization df = Ok u ∧ length u = length cost ∧
       (∀ i c b, cost !! i = Some c → budget !! i = Some b →
          u !! i = Some (VFloat (utilization_cell c b))) ∧
       (∀ i c b x y, cost !! i = Some c → budget !! i = Some b →
          cell_number c = Some x → cell_number b = Some y → (x + y == 0)%Q →
          u !! i = Some (VFloat (zero_division x))).
Proof.
  intros Hc Hb Hlen Hm.
  exists (zip_with (fun c b => VFloat (utilization_cell c b)) cost budget).
  assert (∀ i c b, cost !! i = Some c → budget !! i = Some b →
            zip_with (fun c b => VFloat (utilization_cell c b)) cost budget !! i
            = Some (VFloat (utilization_cell c b))) as Hcell.
  { intros i c b Hi Hj. by rewrite lookup_zip_with, Hi, Hj. }
  split; [|split; [|split]].
  - unfold budget_utilization. rewrite Hc, Hb. cbn [mbind result_bind].
    by apply utilization_cells.
  - rewrite length_zip_with. lia.
  - exact Hcell.
  - intros i c b x y Hi Hj Hx Hy Hz. rewrite (Hcell i c b Hi Hj). do 2 f_equal.
    destruct Hm as [[Hci Hbi]|[Hcf Hbf]].
    + pose proof (proj1 (Forall_lookup _ _) Hci i c Hi) as Hcz.
      pose proof (proj1 (Forall_lookup _ _) Hbi i b Hj) as Hbz.
      destruct c as [| |zx| | | |]; try discriminate.
      destruct b as [| |zy| | | |]; try discriminate.
      cbn [cell_number] in Hx, Hy. simplify_eq. cbn [is_int64] in Hcz, Hbz.
      assert (zx + zy = 0) as Hsum.
      { unfold Qeq in Hz. simpl in Hz. lia. }
      unfold utilization_cell, wrapped_total. cbn [cell_float]. rewrite Hsum.
      change (wrap64 0) with 0.
      destruct (float_of_int64_sign zx Hcz) as (a & -> & Ha).
      destruct (round_zero (inject_Z 0)) as (r & Hr & Hr0); [reflexivity|].
      unfold float_of_int64 at 1. rewrite Hr. rewrite (divided_by_zero a r Hr0).
      unfold zero_division. by rewrite Ha.
    + pose proof (proj1 (Forall_lookup _ _) Hcf i c Hi) as Hcz.
      pose proof (proj1 (Forall_lookup _ _) Hbf i b Hj) as Hbz.
      destruct c as [| | |[fx| | |]| | |]; try discriminate.
      destruct b as [| | |[fy| | |]| | |]; try discriminate.
      cbn [cell_number] in Hx, Hy. simplify_eq.
      unfold utilization_cell, wrapped_total. cbn [cell_float fadd fround].
      destruct (round_zero (x + y)%Q Hz) as (r & -> & Hr0).
      apply (divided_by_zero x r Hr0).
Qed.

End ZeroDivisor.

(** * Outcome distributions and the dashboard of plot_sensitivity.py *)

Section Distributions.
Context {lib : PyLib} {stats : StatsLib}.

Lemma has_column_getitem (df : DataFrame) (c : string) :
  has_column df c = true → ∃ s, df_getitem df c = Ok s.
Proof.
  intros H. apply bool_decide_eq_true in H.
  destruct (column_getitem df c H) as [Hg _]. eauto.
Qed.

(** X13: [plot_parameter_distributions] looks for four outcome columns.
    With none of them in the frame it prints a warning and writes no
    file; otherwise, when mean and standard deviation are defined on the
    columns found, it saves one figure holding one histogram and three
    vertical lines per column found. *)
Theorem distributions_per_outcome (df : DataFrame) (output_dir : path) (w : world) :
  let found := PlotSensitivityRun.available
                 ["TimeToEquilibrium"; "FinalHumans"; "FinalAIAgents"; "FinalRevenue"] df in
  let run := PlotSensitivityRun.plot_parameter_distributions (Some df) output_dir w in
  (found = [] →
     run = print "Warning: No outcome columns found for distribution plots" w) ∧
  (found ≠ [] → reducible df found →
     ∃ fig, run = savefig (path_join output_dir "outcome_distributions.png") fig w ∧
            count_prim "hist" fig = length found ∧
            count_prim "axvline" fig = (3 * length found)%nat).
Proof.
  intros found run. subst run. unfold PlotSensitivityRun.plot_parameter_distributions.
  fold found. split.
  - intros ->. done.
  - intros Hne Hred. rewrite bool_decide_eq_false_2 by done.
    assert (take 4 found = found) as ->.
    { apply take_ge. subst found. unfold PlotSensitivityRun.available.
      etrans; [apply length_filter|]. simpl. lia. }
    assert (Forall (fun c => has_column df c = true) found) as Hcols.
    { apply Forall_forall. intros c Hc. subst found.
      unfold PlotSensitivityRun.available in Hc.
      by apply list_elem_of_filter in Hc as [? _]. }
    clear Hne. revert Hcols Hred. generalize found. clear found. intros found Hcols Hred.
    assert (∀ i, ∃ fig, PlotSensitivityRun.distributions df i found = Ok fig ∧
              count_prim "hist" fig = length found ∧
              count_prim "axvline" fig = (3 * length found)%nat) as Hfig.
    { induction Hcols as [|c l Hc _ IH]; intros i; [by exists []|].
      destruct (has_column_getitem df c Hc) as [s Hs].
      destruct (Hred c s) as [[m Hm] [sd Hsd]]; [apply list_elem_of_here|done|].
      destruct (IH (fun c' s' Hin => Hred c' s' (list_elem_of_further _ _ _ Hin)) (S i))
        as (fs & Hfs & Hh & Hv).
      cbn [PlotSensitivityRun.distributions]. unfold PlotSensitivityRun.distribution.
      rewrite Hs. cbn [mbind result_bind]. rewrite Hm. cbn [mbind result_bind].
      rewrite Hsd. cbn [mbind result_bind]. rewrite Hfs. cbn [mbind result_bind].
      eexists; split; [done|]. rewrite !count_prim_app, Hh, Hv. split; [done|].
      simpl. unfold count_prim. simpl. lia. }
    destruct (Hfig 0%nat) as (fig & Hf & Hh & Hv).
    rewrite (bind_lift_Ok _ _ _ _ Hf). by exists fig.
Qed.

Lemma variation_panels_ok (l : list value) (i : nat) :
  Forall (fun r => plottable r = true) l → (i + length l ≤ 6)%nat →
  ∃ fig, PlotSensitivityRun.variation_panels i l = Ok fig ∧
         length fig = length l ∧ Forall (fun d => draw_prim d = "plot") fig.
Proof.
  intros Hl. revert i. induction Hl as [|r l Hr _ IH]; intros i Hi.
  - by exists [].
  - destruct (IH (S i)) as (fs & Hfs & Hlen & Hall); [simpl in Hi; lia|].
    destruct r as [| | | | | |d]; try discriminate. simpl in Hr.
    destruct (dict_lookup "ParameterName" d) as [n|] eqn:En; [|discriminate].
    destruct (dict_lookup "ParameterValues" d) as [[| | | | |xs|]|] eqn:Ev; try discriminate.
    destruct (dict_lookup "TimeToEquilibriumByValue" d) as [[| | | | | |bv]|] eqn:Et;
      try discriminate.
    destruct (time_values_dict (VDict d) bv xs) as [ys Hys].
    { cbn [py_getitem]. by rewrite Et. }
    cbn [PlotSensitivityRun.variation_panels].
    assert (i / 3 < 2)%nat by (apply Nat.Div0.div_lt_upper_bound; simpl in Hi; lia).
    rewrite bool_decide_eq_false_2 by lia. rewrite Hfs.
    cbn [py_getitem py_in and_then]. rewrite En, Ev, Et.
    rewrite !bool_decide_eq_true_2 by eauto.
    cbn [mbind result_bind py_iter]. rewrite Hys.
    cbn [mbind result_bind app].
    eexists; split; [done|]. split; [simpl; by f_equal|]. by constructor.
Qed.

Lemma histograms_hist (df : DataFrame) (l : list string) (i : nat) (fig : figure) :
  PlotSensitivityRun.histograms df i l = Ok fig →
  length fig = length l ∧ Forall (fun d => draw_prim d = "hist") fig.
Proof.
  revert i fig. induction l as [|c l IH]; intros i fig H.
  - simpl in H. by simplify_eq.
  - cbn [PlotSensitivityRun.histograms] in H.
    apply bind_Ok in H as (s & _ & H). apply bind_Ok in H as (fs & Hfs & H).
    simplify_eq. destruct (IH _ _ Hfs) as [Hlen Hall].
    split; [simpl; by f_equal|]. by constructor.
Qed.

Lemma rankings_row_prims (data : value) (df : option DataFrame) (fig : figure) :
  PlotSensitivityRun.rankings_row data df = Ok fig →
  Forall (fun d => draw_prim d ≠ "plot" ∧ draw_prim d ≠ "hist") fig.
Proof.
  unfold PlotSensitivityRun.rankings_row. intros H.
  apply bind_Ok in H as (rankings & _ & H). apply bind_Ok in H as (params & _ & H).
  apply bind_Ok in H as ([ts ns] & _ & H). apply bind_Ok in H as (f2 & Hf2 & H).
  simplify_eq. apply Forall_app. split.
  - destruct (bool_decide (ts = [])); [done|]. by repeat constructor.
  - destruct df as [df|]; [|by simplify_eq].
    destruct (has_column df "TimeToEquilibrium"); [|by simplify_eq].
    apply bind_Ok in Hf2 as (s & _ & Hf2). simplify_eq. by repeat constructor.
Qed.

(** X14: the dashboard of [plot_sensitivity.py] looks at the first six
    sensitivity results only: when those can be plotted, a dashboard that
    is drawn holds one line plot for each of them, however many results
    follow and whatever they are, and one histogram per outcome column
    found among the three it looks for. *)
Theorem dashboard_panels (d : list (string * value)) (l : list value)
    (df : option DataFrame) (fig : figure) :
  dict_lookup "SensitivityResults" d = Some (VList l) →
  Forall (fun r => plottable r = true) (take 6 l) →
  PlotSensitivityRun.dashboard_figure (VDict d) df = Ok fig →
  count_prim "plot" fig = Nat.min 6 (length l) ∧
  count_prim "hist" fig =
    match df with
    | Some df =>
        length (PlotSensitivityRun.available
                  ["TimeToEquilibrium"; "FinalHumans"; "FinalAIAgents"] df)
    | None => 0%nat
    end.
Proof.
  intros Hd Hl H. unfold PlotSensitivityRun.dashboard_figure in H.
  apply bind_Ok in H as (has_r & _ & H). apply bind_Ok in H as (top & Htop & H).
  rewrite (has_key_present _ _ _ Hd) in H. cbn [mbind result_bind py_getitem] in H.
  rewrite Hd in H. cbn [mbind result_bind py_take] in H.
  destruct (variation_panels_ok (take 6 l) 0 Hl) as (middle & Hm & Hlen & Hplot).
  { rewrite length_take. lia. }
  rewrite Hm in H. cbn [mbind result_bind] in H.
  apply bind_Ok in H as (bottom & Hbottom & H). simplify_eq.
  assert (Forall (fun x => draw_prim x ≠ "plot" ∧ draw_prim x ≠ "hist") top) as Htop'.
  { destruct has_r; [by eapply rankings_row_prims|by simplify_eq]. }
  assert (∃ n, length bottom = n ∧ Forall (fun x => draw_prim x = "hist") bottom ∧
            n = match df with
                | Some df =>
                    length (PlotSensitivityRun.available
                              ["TimeToEquilibrium"; "FinalHumans"; "FinalAIAgents"] df)
                | None => 0%nat
                end) as (n & Hn & Hhist & ->).
  { destruct df as [df|]; [|simplify_eq; by exists 0%nat].
    apply histograms_hist in Hbottom as [Hlb Hall].
    exists (length bottom). split; [done|].
    split; [done|]. rewrite Hlb. f_equal. apply take_ge.
    unfold PlotSensitivityRun.available. etrans; [apply length_filter|]. simpl. lia. }
  assert (Forall (fun x => draw_prim x ≠ "plot") top) as Htp.
  { eapply Forall_impl; [exact Htop'|]. by intros ? [? ?]. }
  assert (Forall (fun x => draw_prim x ≠ "hist") top) as Hth.
  { eapply Forall_impl; [exact Htop'|]. by intros ? [? ?]. }
  assert (Forall (fun x => draw_prim x ≠ "plot") bottom) as Hbp.
  { eapply Forall_impl; [exact Hhist|]. by intros ? ->. }
  assert (Forall (fun x => draw_prim x ≠ "hist") middle) as Hmh.
  { eapply Forall_impl; [exact Hplot|]. by intros ? ->. }
  rewrite !count_prim_app. split.
  - rewrite (count_prim_none "plot" top Htp), (count_prim_all "plot" middle Hplot),
      (count_prim_none "plot" bottom Hbp), Hlen, length_take. lia.
  - rewrite (count_prim_none "hist" top Hth), (count_prim_all "hist" bottom Hhist),
      (count_prim_none "hist" middle Hmh). simpl. exact Hn.
Qed.

End Distributions.

(** * An empty sensitivity report *)

Section EmptyReport.
Context {lib : PyLib} {stats : StatsLib}.

Lemma dashboard_figure_falsy (data : value) :
  py_truthy data = false → PlotSensitivityRun.dashboard_figure data None = Ok [].
Proof. intros H. unfold PlotSensitivityRun.dashboard_figure, has_key. by rewrite H. Qed.

(** X15: a JSON sensitivity report that is empty without being [null]
    (an empty object or list, say) is not refused: with the output
    directory in place, [plot_sensitivity.py] completes and writes exactly
    one file, a dashboard image on which nothing is drawn. *)
Theorem empty_sensitivity_report (a : PlotSensitivityRun.args) (w : world) (data : value) :
  let input := Path (PlotSensitivityRun.input_file a) in
  let output_dir := Path (PlotSensitivityRun.output a) in
  let png := path_join output_dir "sensitivity_dashboard.png" in
  lower (path_suffix input) = ".json" →
  is_dir w input = false → files w !! input = Some (Json data) →
  py_truthy data = false → is_none data = false →
  is_dir w output_dir = true → is_dir w png = false →
  ∃ w', PlotSensitivityRun.main a w = (Ok tt, w') ∧
        files w' = <[png := Png []]> (files w) ∧ dirs w' = dirs w.
Proof.
  intros input output_dir png Hsuf Hd Hf Ht Hn Hout Hpng.
  unfold PlotSensitivityRun.main. cbv zeta. fold output_dir.
  erewrite (bind_run_Ok (mkdir_exist_ok _)) by (apply mkdir_again; exact Hout).
  erewrite (bind_run_Ok (print _)) by reflexivity.
  erewrite (bind_run_Ok (PlotSensitivity.load_sensitivity_data _) (data, None)).
  2:{ unfold PlotSensitivity.load_sensitivity_data. cbv zeta. fold input. rewrite Hsuf.
      cbn [String.eqb Ascii.eqb Bool.eqb]. 
      erewrite bind_run_Ok; [reflexivity|].
      unfold json_load, is_dir in *. cbn [dirs files]. rewrite Hd, Hf. reflexivity. }
  cbv beta iota.
  assert (∀ w1, is_dir w1 output_dir = true → is_dir w1 png = false →
            PlotSensitivityRun.create_sensitivity_dashboard data None output_dir w1 =
            (Ok tt, World (<[png := Png []]> (files w1)) (dirs w1) (stdout w1))) as Hcreate.
  { intros w1 H1 H2. unfold PlotSensitivityRun.create_sensitivity_dashboard.
    rewrite (bind_lift_Ok _ _ _ _ (dashboard_figure_falsy data Ht)).
    unfold savefig, write_file. fold png. rewrite H2.
    replace (path_parent png) with output_dir
      by (unfold png, path_join, path_parent; by rewrite removelast_last).
    by rewrite H1. }
  assert (∀ s1 s2 w1, ∃ so,
            (print s1 ≫= λ _ : (), print s2 ≫= λ _ : (), print_generated output_dir) w1 =
            (Ok tt, World (files w1) (dirs w1) so)) as Htail.
  { intros s1 s2 w1. unfold print_generated.
    erewrite bind_run_Ok by reflexivity. erewrite bind_run_Ok by reflexivity.
    rewrite print_all_run. cbn [files dirs stdout]. eauto. }
  rewrite Ht.
  destruct data; try discriminate; destruct (PlotSensitivityRun.dashboard_only a);
    (erewrite (bind_run_Ok (mret ())) by reflexivity);
    (erewrite bind_run_Ok;
     [|repeat (erewrite bind_run_Ok by reflexivity); apply Hcreate; [exact Hout|exact Hpng]]);
    (edestruct Htail as [so Hso]; rewrite Hso; eexists; split; [reflexivity|];
     split; reflexivity).
Qed.
End EmptyReport.

(** * The charts of plot_simulation.py, column by column *)

Lemma has_column_false_getitem (df : DataFrame) (c : string) :
  has_column df c = false → df_getitem df c = Raise (KeyError c).
Proof.
  intros H. apply bool_decide_eq_false in H. unfold df_getitem, df_columns in *.
  induction (cols df) as [|[c' s] l IH]; [done|]. simpl in *.
  destruct (String.eqb c c') eqn:E.
  - apply String.eqb_eq in E as ->. destruct H. apply list_elem_of_here.
  - apply IH. intros Hin. apply H. by apply list_elem_of_further.
Qed.

Section Charts.
Context {lib : PyLib}.

Lemma plot_column_cases (ax : string) (df : DataFrame) (c : string) :
  (has_column df c = false → PlotSimulation.plot_column ax df c = Ok []) ∧
  (has_column df c = true → has_column df "TimeStep" = true →
     ∃ t y, PlotSimulation.plot_column ax df c = Ok [Draw ax "plot" [t; y]]) ∧
  (has_column df c = true → has_column df "TimeStep" = false →
     PlotSimulation.plot_column ax df c = Raise (KeyError "TimeStep")).
Proof.
  unfold PlotSimulation.plot_column. split; [|split].
  - by intros ->.
  - intros Hc Ht. rewrite Hc.
    destruct (has_column_getitem df _ Ht) as [t ->].
    destruct (has_column_getitem df _ Hc) as [y ->]. by exists t, y.
  - intros Hc Ht. by rewrite Hc, (has_column_false_getitem _ _ Ht).
Qed.

(** X16: the revenue chart draws one line per column it finds among
    'RevenueOutput' and 'TotalProductivity'.  With a numeric 'TimeStep'
    column and numbers in the columns found it is saved with exactly
    these lines; without a 'TimeStep' column it stops with [KeyError:
    'TimeStep'] as soon as there is a line to draw; and with neither
    column it saves an empty chart, without a warning. *)
Theorem revenue_chart_by_columns (df : DataFrame) (output_dir : path) (w : world) :
  let found := present df ["RevenueOutput"; "TotalProductivity"] in
  let run := PlotSimulation.plot_revenue_and_productivity df output_dir w in
  let target := path_join output_dir "revenue_productivity.png" in
  (Forall (numeric_column df) ("TimeStep" :: found) →
     ∃ fig, run = savefig target fig w ∧ count_prim "plot" fig = length found ∧
            length fig = length found) ∧
  (has_column df "TimeStep" = false → found ≠ [] →
     run = (Raise (KeyError "TimeStep"), w)) ∧
  (found = [] → run = savefig target [] w).
Proof.
  intros found run target. subst found run target.
  unfold PlotSimulation.plot_revenue_and_productivity, PlotSimulation.revenue_figure, present.
  destruct (plot_column_cases "ax1" df "RevenueOutput") as (R0 & R1 & R2).
  destruct (plot_column_cases "ax2" df "TotalProductivity") as (P0 & P1 & P2).
  rewrite !filter_cons, filter_nil.
  destruct (has_column df "RevenueOutput") eqn:Er;
    destruct (has_column df "TotalProductivity") eqn:Ep;
    (split; [|split]); try done.
  all: try (intros Hnum; apply Forall_cons in Hnum as [(t0 & ? & Ht%df_getitem_has_column & _) _];
            try destruct (R1 eq_refl Ht) as (t1 & y1 & ->);
            try destruct (P1 eq_refl Ht) as (t2 & y2 & ->);
            rewrite ?(R0 eq_refl), ?(P0 eq_refl);
            eexists; split; [reflexivity|]; done).
  all: try (intros Ht _; rewrite ?(R2 eq_refl Ht), ?(R0 eq_refl), ?(P2 eq_refl Ht); done).
  intros _. by rewrite (R0 eq_refl), (P0 eq_refl).
Qed.

(** X17: the three head-count charts test the humans column only.  On a
    frame with numeric 'TimeStep' and humans columns but without the
    matching AI column, [plot_workforce_composition] and both dashboards
    stop with a [KeyError] naming the AI column, and nothing is
    written. *)
Theorem workforce_needs_ai_column (df : DataFrame) (humans_col ai_col : string) :
  PlotSimulation.workforce_columns df = Some (humans_col, ai_col) →
  numeric_column df "TimeStep" → numeric_column df humans_col →
  has_column df ai_col = false →
  (∀ output_dir w,
     PlotSimulation.plot_workforce_composition df output_dir w
       = (Raise (KeyError ai_col), w)) ∧
  (∀ data output_dir w,
     PlotSimulation.create_summary_dashboard data df output_dir w
       = (Raise (KeyError ai_col), w)) ∧
  (∀ data output_path w,
     InteractiveDashboard.create_simulation_dashboard data df output_path w
       = (Raise (KeyError ai_col), w)).
Proof.
  intros Hcols (t & ? & Htime & _) _ Hai.
  pose proof (has_column_false_getitem _ _ Hai) as Hmiss.
  assert (has_column df humans_col = true ∧
          (if has_column df "Workforce.Humans.Total"
           then ("Workforce.Humans.Total", "Workforce.AIAgents.Total")
           else ("TotalHumans", "TotalAIAgents")) = (humans_col, ai_col)) as [Hh Hpair].
  { unfold PlotSimulation.workforce_columns in Hcols.
    destruct (has_column df "Workforce.Humans.Total") eqn:E1; [by simplify_eq|].
    destruct (has_column df "TotalHumans") eqn:E2; by simplify_eq. }
  destruct (has_column_getitem df _ Hh) as [h Hhum].
  split; [|split].
  - intros output_dir w. unfold PlotSimulation.plot_workforce_composition. rewrite Hcols.
    apply bind_lift_Raise. unfold PlotSimulation.workforce_figure.
    by rewrite Htime, Hhum, Hmiss.
  - intros data output_dir w. unfold PlotSimulation.create_summary_dashboard.
    apply bind_lift_Raise. unfold PlotSimulation.dashboard_figure.
    rewrite Hpair, Hh. by rewrite Htime, Hhum, Hmiss.
  - intros data output_path w. unfold InteractiveDashboard.create_simulation_dashboard.
    apply bind_lift_Raise. unfold InteractiveDashboard.simulation_figure.
    rewrite Hpair, Hh. by rewrite Htime, Hhum, Hmiss.
Qed.



End Charts.

(** * The default output of interactive_dashboard.py *)

Lemma list_ascii_app (s1 s2 : string) :
  String.list_ascii_of_string (s1 +:+ s2) =
  String.list_ascii_of_string s1 ++ String.list_ascii_of_string s2.
Proof. induction s1 as [|c s1 IH]; [done|]. simpl. by rewrite IH. Qed.

Lemma split_on_notin (c : ascii) (l : list ascii) : c ∉ l → split_on c l = [l].
Proof.
  induction l as [|x l IH]; intros H; [done|]. simpl.
  apply not_elem_of_cons in H as [Hx Hl]. rewrite (IH Hl).
  destruct (Ascii.eqb x c) eqn:E; [|done].
  apply Ascii.eqb_eq in E. by subst.
Qed.

Lemma split_on_segments (c : ascii) (l : list ascii) :
  Forall (fun sg => c ∉ sg) (split_on c l).
Proof.
  induction l as [|x l IH]; simpl.
  - repeat constructor. apply not_elem_of_nil.
  - destruct (Ascii.eqb x c) eqn:E.
    + constructor; [apply not_elem_of_nil|done].
    + apply Ascii.eqb_neq in E. destruct (split_on c l) as [|h t].
      * repeat constructor. apply not_elem_of_cons. split; [congruence|apply not_elem_of_nil].
      * apply Forall_cons in IH as [Hh Ht]. constructor; [|done].
        apply not_elem_of_cons. split; [congruence|done].
Qed.

Lemma split_on_snoc (c : ascii) (y k : list ascii) :
  c ∉ k →
  ∃ init sg, split_on c y = init ++ [sg] ∧ split_on c (y ++ k) = init ++ [sg ++ k].
Proof.
  intros Hk. induction y as [|x y (init & sg & H1 & H2)].
  - exists [], []. split; [done|]. by apply split_on_notin.
  - simpl. rewrite H1, H2. destruct (Ascii.eqb x c).
    + by exists ([] :: init), sg.
    + destruct init as [|h t]; simpl.
      * by exists [], (x :: sg).
      * by exists ((x :: h) :: t), sg.
Qed.

Lemma last_segment_clean (l : list ascii) : "/"%char ∉ last_segment l.
Proof.
  unfold last_segment. pose proof (split_on_segments "/"%char l) as H.
  destruct (split_on_snoc "/"%char l []) as (init & sg & H1 & _); [apply not_elem_of_nil|].
  rewrite H1 in H |- *. rewrite last_last.
  apply Forall_app in H as [_ H]. by apply Forall_cons in H as [H _].
Qed.

Lemma last_segment_app (l m : list ascii) :
  "/"%char ∉ m → last_segment (l ++ m) = last_segment l ++ m.
Proof.
  intros Hm. unfold last_segment.
  destruct (split_on_snoc "/"%char l m Hm) as (init & sg & -> & ->).
  by rewrite !last_last.
Qed.

Lemma rfind_dot_app (l k : list ascii) (j : nat) :
  rfind_dot k = Some j → rfind_dot (l ++ k) = Some (length l + j)%nat.
Proof. intros H. induction l as [|x l IH]; [done|]. simpl. by rewrite IH. Qed.

Lemma concat_snoc (p : list string) (n : string) :
  ∃ yl, String.list_ascii_of_string (String.concat "/" (p ++ [n])) =
        yl ++ String.list_ascii_of_string n.
Proof.
  induction p as [|x p (yl & IH)]; [by exists []|].
  exists (String.list_ascii_of_string x ++ "/"%char :: yl).
  change ((x :: p) ++ [n]) with (x :: (p ++ [n])).
  cbn [String.concat]. destruct (p ++ [n]) as [|z zs] eqn:E; [by destruct p|].
  change (x ++ "/" ++ String.concat "/" (z :: zs))%string
    with (x +:+ "/" +:+ String.concat "/" (z :: zs)).
  rewrite !list_ascii_app, IH. cbn [String.list_ascii_of_string].
  by rewrite <- !app_assoc.
Qed.

Lemma path_str_snoc (p : list string) (n : string) :
  ∃ yl, String.list_ascii_of_string (path_str (path_join p n)) =
        yl ++ String.list_ascii_of_string n.
Proof.
  unfold path_join. destruct p as [|c rest]; cbn [app]; unfold path_str.
  - destruct (String.eqb n "/") eqn:E.
    + apply String.eqb_eq in E as ->. by exists [].
    + by exists [].
  - destruct (String.eqb c "/").
    + destruct (concat_snoc rest n) as [yl Hyl]. exists ("/"%char :: yl).
      change ("/" +:+ String.concat "/" (rest ++ [n]))
        with (String "/"%char (String.concat "/" (rest ++ [n]))).
      cbn [String.list_ascii_of_string]. by rewrite Hyl.
    + apply (concat_snoc (c :: rest) n).
Qed.

(** The name of a path whose text ends with [k]: its last segment. *)
Lemma path_name_tail (s : string) (yl kl : list ascii) :
  String.list_ascii_of_string s = yl ++ kl → "/"%char ∉ kl → (2 ≤ length kl)%nat →
  path_name (Path s) = String.string_of_list_ascii (last_segment yl ++ kl).
Proof.
  intros Hs Hk Hlen. unfold Path, path_name, last_segment. rewrite Hs.
  destruct (split_on_snoc "/"%char yl kl Hk) as (init & sg & -> & ->).
  rewrite last_last, fmap_app, filter_app. cbn [fmap list_fmap].
  rewrite filter_cons_True, filter_nil.
  - by rewrite !app_assoc, last_last.
  - assert (String.list_ascii_of_string (String.string_of_list_ascii (sg ++ kl)) = sg ++ kl)
      as Hrt by apply String.list_ascii_of_string_of_list_ascii.
    split; intros Hbad; rewrite Hbad in Hrt; apply (f_equal length) in Hrt;
      rewrite length_app in Hrt; simpl in Hrt; lia.
Qed.

Lemma endswith_tail (s : string) (yl : list ascii) (suf : string) :
  String.list_ascii_of_string s = yl ++ String.list_ascii_of_string suf →
  endswith s suf = true.
Proof.
  intros Hs. unfold endswith. rewrite Hs. apply bool_decide_eq_true.
  apply drop_app_length'. rewrite length_app. lia.
Qed.

(** A path built from the stem of [p] and an ending [k] that brings its
    own suffix is never [p] again, even after being printed and parsed. *)
Lemma stem_path_differs (s k : string) (j : nat) :
  let kl := String.list_ascii_of_string k in
  "/"%char ∉ kl → rfind_dot kl = Some j → (0 < j < length kl - 1)%nat →
  Path (path_str (path_join (path_parent (Path s)) (path_stem (Path s) +:+ k))) ≠ Path s.
Proof.
  intros kl Hk Hdot Hj Heq. set (inp := Path s) in *.
  remember (path_stem inp) as stem eqn:Hstem.
  destruct (path_str_snoc (path_parent inp) (stem +:+ k)) as [yl Hyl].
  rewrite list_ascii_app, app_assoc in Hyl. fold kl in Hyl.
  pose proof (path_name_tail _ _ _ Hyl Hk ltac:(lia)) as Hname.
  rewrite Heq in Hname.
  assert ("/"%char ∉ take j kl) as Hclean.
  { intros Hin. apply Hk. apply elem_of_take in Hin as (i & Hi & _).
    by eapply list_elem_of_lookup_2. }
  set (sg := last_segment (yl ++ String.list_ascii_of_string stem)) in *.
  assert (String.list_ascii_of_string stem = sg ++ take j kl) as Hs.
  { rewrite Hstem. unfold path_stem. rewrite Hname.
    rewrite String.list_ascii_of_string_of_list_ascii.
    unfold suffix_start. rewrite (rfind_dot_app _ _ _ Hdot).
    rewrite bool_decide_eq_true_2 by (rewrite length_app; lia).
    rewrite String.list_ascii_of_string_of_list_ascii.
    by rewrite take_app_add. }
  assert ("/"%char ∉ String.list_ascii_of_string stem) as Hstem_clean.
  { rewrite Hs. apply not_elem_of_app. split; [apply last_segment_clean|done]. }
  assert (length sg = length (last_segment yl ++ String.list_ascii_of_string stem)) as Hlen.
  { unfold sg. by rewrite last_segment_app. }
  rewrite length_app, Hs, length_app, length_take in Hlen. lia.
Qed.

Section DefaultOutput.
Context {lib : PyLib}.

(** X19: without [-o], interactive_dashboard.py never writes over its
    input: the page it writes, named after the stem of the input, is a
    different file, so the input file is left as it was by every run. *)
Theorem default_output_spares_input (a : InteractiveDashboard.args) :
  InteractiveDashboard.output a = "" →
  html_target (path_str (InteractiveDashboard.output_path a)) ≠
    Path (InteractiveDashboard.input_file a) ∧
  ∀ w, files (InteractiveDashboard.main a w).2 !! Path (InteractiveDashboard.input_file a) =
       files w !! Path (InteractiveDashboard.input_file a).
Proof.
  intros Ho.
  assert (html_target (path_str (InteractiveDashboard.output_path a)) ≠
          Path (InteractiveDashboard.input_file a)) as Hne.
  { unfold InteractiveDashboard.output_path. rewrite Ho. cbn [String.eqb negb].
    cbv zeta. set (inp := Path (InteractiveDashboard.input_file a)).
    destruct (InteractiveDashboard.sensitivity a).
    - destruct (path_str_snoc (path_parent inp)
                  (path_stem inp +:+ "_sensitivity_dashboard.html")) as [yl Hyl].
      unfold html_target. erewrite endswith_tail.
      2:{ rewrite Hyl.
          change "_sensitivity_dashboard.html"
            with ("_sensitivity_dashboard" +:+ ".html") at 1.
          rewrite !list_ascii_app, !app_assoc. reflexivity. }
      apply (stem_path_differs _ "_sensitivity_dashboard.html" 22).
      + apply (bool_decide_unpack _). vm_compute. exact I.
      + reflexivity.
      + simpl. lia.
    - destruct (path_str_snoc (path_parent inp) (path_stem inp +:+ "_dashboard.html"))
        as [yl Hyl].
      unfold html_target. erewrite endswith_tail.
      2:{ rewrite Hyl.
          change "_dashboard.html" with ("_dashboard" +:+ ".html") at 1.
          rewrite !list_ascii_app, !app_assoc. reflexivity. }
      apply (stem_path_differs _ "_dashboard.html" 10).
      + apply (bool_decide_unpack _). vm_compute. exact I.
      + reflexivity.
      + simpl. lia. }
  split; [exact Hne|]. intros w.
  destruct (interactive_main_stable a w w (same_view_refl _ _ _))
    as (ws & ds & HP & _ & _ & -> & _).
  destruct (lookup_apply_writes ws (files w) (Path (InteractiveDashboard.input_file a)))
    as [?|(c & Hin & _)]; [done|].
  rewrite Forall_forall in HP. apply HP in Hin as [Hp _]. simpl in Hp. by destruct Hne.
Qed.

End DefaultOutput.

(** * A report without time series *)

Lemma mkdir_keeps_files (p q : path) (w w1 : world) :
  mkdir_exist_ok p w = (Ok tt, w1) → is_Some (files w !! q) → is_dir w q = false →
  files w1 = files w ∧ stdout w1 = stdout w ∧ is_dir w1 q = false.
Proof.
  unfold mkdir_exist_ok. intros H Hq Hd.
  destruct (is_dir w p) eqn:Ep; [by simplify_eq|].
  case_bool_decide as Hfile; [done|].
  destruct (is_dir w (path_parent p)); [|done]. simplify_eq. cbn [files stdout].
  split; [done|]. split; [done|].
  apply bool_decide_eq_false. apply bool_decide_eq_false in Hd. cbn [dirs].
  intros [->|Hin]; [tauto|]. apply elem_of_union in Hin as [Hin|Hin]; [|tauto].
  apply elem_of_singleton in Hin as ->. done.
Qed.

Section NoTimeSeries.
Context {lib : PyLib}.

Lemma load_without_time_series (s : string) (w : world) (d : list (string * value)) :
  lower (path_suffix (Path s)) = ".json" →
  is_dir w (Path s) = false → files w !! Path s = Some (Json (VDict d)) →
  dict_lookup "TimeSeries" d = None →
  PlotSimulation.load_simulation_data s w =
    (Ok (VNone, None),
     World (files w) (dirs w) (stdout w ++ ["Error: No TimeSeries data found in JSON file"])) ∧
  InteractiveDashboard.load_simulation_data s w =
    (Ok (VNone, None),
     World (files w) (dirs w) (stdout w ++ ["Error: No TimeSeries data found in JSON file"])).
Proof.
  intros Hs Hd Hf Hts.
  unfold PlotSimulation.load_simulation_data, InteractiveDashboard.load_simulation_data.
  cbv zeta. rewrite Hs. cbn [String.eqb Ascii.eqb Bool.eqb].
  assert (json_load (Path s) w = (Ok (VDict d), w)) as Hl.
  { unfold json_load. by rewrite Hd, Hf. }
  rewrite !(bind_run_Ok _ _ _ _ _ Hl).
  assert (py_in "TimeSeries" (VDict d) = Ok false) as Hin.
  { cbn [py_in]. rewrite Hts. by rewrite bool_decide_eq_false_2 by (by intros [? ?]). }
  by rewrite !(bind_lift_Ok _ _ _ _ Hin).
Qed.

(** X20: a JSON report without the key 'TimeSeries' ends both scripts
    with exit status 1 and leaves every file as it was: once the output
    directory is in place, plot_simulation.py prints the loading line,
    'Error: No TimeSeries data found in JSON file' and 'Error: Could not
    load simulation data' and exits; interactive_dashboard.py (without
    --sensitivity) prints its own three lines and exits the same way. *)
Theorem report_without_time_series (s : string) (w : world) (d : list (string * value)) :
  lower (path_suffix (Path s)) = ".json" →
  is_dir w (Path s) = false → files w !! Path s = Some (Json (VDict d)) →
  dict_lookup "TimeSeries" d = None →
  (∀ out only w1,
     mkdir_exist_ok (Path out) w = (Ok tt, w1) →
     PlotSimulation.main (PlotSimulation.Args s out only) w =
       (Raise (SystemExit 1),
        World (files w) (dirs w1)
          (stdout w ++
           [ "Loading simulation data from " +:+ s +:+ "...";
             "Error: No TimeSeries data found in JSON file";
             "Error: Could not load simulation data" ]))) ∧
  (∀ out open,
     InteractiveDashboard.main (InteractiveDashboard.Args s out false open) w =
       (Raise (SystemExit 1),
        World (files w) (dirs w)
          (stdout w ++
           [ "Loading data from " +:+ s +:+ "...";
             "Error: No TimeSeries data found in JSON file";
             "Error: Could not load simulation data" ]))).
Proof.
  intros Hs Hd Hf Hts. split.
  - intros out only w1 Hmk.
    destruct (mkdir_keeps_files _ (Path s) _ _ Hmk) as (Hf1 & Hs1 & Hd1); [by eexists|done|].
    unfold PlotSimulation.main. cbv zeta. cbn [PlotSimulation.output PlotSimulation.input_file].
    rewrite (bind_run_Ok _ _ _ _ _ Hmk).
    erewrite (bind_run_Ok (print _)) by reflexivity.
    erewrite bind_run_Ok.
    2:{ apply (load_without_time_series s _ d); [done| |cbn [files]; by rewrite Hf1|done].
        unfold is_dir in *. exact Hd1. }
    cbv [mbind M_bind print sys_exit raise]. cbn [files dirs stdout].
    by rewrite Hf1, Hs1, <- !app_assoc.
  - intros out open. unfold InteractiveDashboard.main. cbv zeta.
    cbn [InteractiveDashboard.sensitivity InteractiveDashboard.input_file].
    erewrite (bind_run_Ok (print _)) by reflexivity.
    assert (∀ w0 lines,
              is_dir w0 (Path s) = false → files w0 !! Path s = Some (Json (VDict d)) →
              files w0 = files w → dirs w0 = dirs w → stdout w0 = stdout w ++ lines →
              (InteractiveDashboard.load_simulation_data s ≫= λ '(data, df),
                 match data, df with
                 | VNone, _ | _, None =>
                     print "Error: Could not load simulation data";; sys_exit 1
                 | _, Some df =>
                     InteractiveDashboard.create_simulation_dashboard data df
                       (InteractiveDashboard.output_path
                          (InteractiveDashboard.Args s out false open))
                 end) w0 =
              (Raise (SystemExit 1),
               World (files w) (dirs w)
                 (stdout w ++ lines ++
                  [ "Error: No TimeSeries data found in JSON file";
                    "Error: Could not load simulation data" ]))) as Hbody.
    { intros w0 lines Hd0 Hf0 Hfs Hds Hso.
      erewrite bind_run_Ok by (by apply (load_without_time_series s _ d)).
      cbv [mbind M_bind print sys_exit raise]. cbn [files dirs stdout].
      by rewrite Hfs, Hds, Hso, <- !app_assoc. }
    erewrite bind_run_Raise; [reflexivity|].
    rewrite (Hbody _ ["Loading data from " +:+ s +:+ "..."]); try done.
Qed.

End NoTimeSeries.

(** * Running plot_sensitivity.py again *)

Section Rerun.
Context {lib : PyLib} {stats : StatsLib}.


End Rerun.

(** * Examples *)

#[local] Existing Instance plain_lib.

(** Without the precondition of C8 the division is still carried out: a
    step with no cost and no budget gives NaN, not an exception. *)
Example utilization_unguarded :
  budget_utilization
    {| nrows := 1; cols := [("TotalCost", [VInt 0]); ("AvailableBudget", [VInt 0])] |}
  = Ok [VFloat NaN].
Proof. reflexivity. Qed.

(** With two or three parameters and a first result that can be plotted,
    [plot_parameter_variations] stops at [ax.plot] on an array of
    subplots. *)
Example variations_two_params :
  PlotSensitivity.variations_figure
    (VList [ VDict [("ParameterName", VStr "a"); ("ParameterValues", VList [VInt 1]);
                    ("TimeToEquilibriumByValue", VDict [])];
             VDict [("ParameterName", VStr "b")] ])
  = Raise AttributeError.
Proof. reflexivity. Qed.

Lemma heatmap_cell_is_correlation_witness :
  ∃ d a b,
    df_getitem sensitivity_frame "Param_rate" = Ok a ∧
    df_getitem sensitivity_frame "TimeToEquilibrium" = Ok b ∧
    series_corr a b = Ok (VFloat NaN) ∧
    PlotSensitivity.heatmap_cell d "Param_rate" "TimeToEquilibrium" = Some (VFloat NaN) ∧
    ∀ output_dir w,
      PlotSensitivity.plot_sensitivity_heatmap (Some sensitivity_frame) output_dir w =
      savefig (path_join output_dir "sensitivity_heatmap.png") [d] w.
Proof.
  assert (NoDup (df_columns sensitivity_frame)) as H1
    by (apply (bool_decide_unpack _); vm_compute; exact I).
  assert ("Param_rate" ∈ PlotSensitivity.param_cols sensitivity_frame) as H2
    by (apply (bool_decide_unpack _); vm_compute; exact I).
  assert ("TimeToEquilibrium" ∈ PlotSensitivity.outcome_cols sensitivity_frame) as H3
    by (apply (bool_decide_unpack _); vm_compute; exact I).
  destruct (heatmap_cell_is_correlation sensitivity_frame "Param_rate" "TimeToEquilibrium"
              H1 H2 H3) as [H _].
  apply (H (fun _ _ => VFloat NaN)). intros p o _ _. reflexivity.
Defined.

Lemma load_json_report_witness :
  ∃ df,
    PlotSimulation.load_simulation_data "report.json" report_world =
      (Ok (VDict report, Some df), report_world) ∧
    nrows df = 2%nat.
Proof.
  assert (lower (path_suffix (Path "report.json")) = ".json") as H1 by reflexivity.
  assert (is_dir report_world (Path "report.json") = false) as H2 by reflexivity.
  assert (files report_world !! Path "report.json" = Some (Json (VDict report))) as H3
    by reflexivity.
  destruct (load_json_report "report.json" report_world report H1 H2 H3) as [H _].
  destruct (H [ VDict [("TimeStep", VInt 0); ("TotalHumans", VInt 5);
                       ("TotalAIAgents", VInt 0)];
                VDict [("TimeStep", VInt 1); ("TotalHumans", VInt 4)] ]
              eq_refl eq_refl)
    as (df & Hload & _ & Hrows & _).
  { apply int64_records_check. reflexivity. }
  exists df. split; [exact Hload|exact Hrows].
Defined.

(** A cost above 2^53 in a column where a later record has no cost: the
    column becomes float64, and the row of the frame holds the nearest
    float, which is another number than the record's. *)
Lemma report_row_differs_from_record :
  let first := [("TimeStep", VInt 0); ("TotalCost", VInt 9007199254740993)] in
  let d := [("TimeSeries", VList [VDict first; VDict [("TimeStep", VInt 1)]])] in
  let w := World {[ ["report.json"] := Json (VDict d) ]} ∅ [] in
  ∃ df q,
    PlotSimulation.load_simulation_data (lib := binary64_lib) "report.json" w
      = (Ok (VDict d, Some df), w) ∧
    dict_lookup "TotalCost" first = Some (VInt 9007199254740993) ∧
    dict_lookup "TotalCost" (df_row df 0) = Some (VFloat (Fin q)) ∧
    (q == 9007199254740992)%Q ∧
    dict_lookup "TotalCost" (df_row df 1) = Some (VFloat NaN).
Proof.
  vm_compute. eexists _, _. split; [reflexivity|]. repeat split; reflexivity.
Qed.

Lemma unsupported_input_witness :
  exit_status (PlotSimulation.main (PlotSimulation.Args "report.txt" "plots" false)
                 report_world).1 = 1 ∧
  files (PlotSimulation.main (PlotSimulation.Args "report.txt" "plots" false)
           report_world).2 = files report_world.
Proof.
  assert (lower (path_suffix (Path "report.txt")) ≠ ".json") as H1 by discriminate.
  assert (lower (path_suffix (Path "report.txt")) ≠ ".csv") as H2 by discriminate.
  destruct (unsupported_input (PlotSimulation.Args "report.txt" "plots" false)
              report_world H1 H2) as (_ & He & Hf & _).
  split; [exact He|exact Hf].
Defined.

(** A CSV file is loaded and the full run completes, yet no
    equilibrium_analysis.png is written: the routine gives up, with a
    warning, when there is no JSON data. *)
Lemma csv_run_has_no_equilibrium_chart :
  let a := PlotSimulation.Args "run.csv" "plots" false in
  loaded a csv_world = Ok (VNone, Some csv_frame) ∧
  (PlotSimulation.main a csv_world).1 = Ok tt ∧
  files (PlotSimulation.main a csv_world).2 !! ["plots"; "equilibrium_analysis.png"] = None ∧
  In "Warning: Cannot create equilibrium analysis without JSON data"
     (stdout (PlotSimulation.main a csv_world).2).
Proof. vm_compute. repeat split; auto 10. Qed.

Lemma full_run_charts_witness :
  let a := PlotSimulation.Args "run.csv" "plots" false in
  let w' := (PlotSimulation.main a csv_world).2 in
  png_at w' ["plots"; "revenue_productivity.png"] ∧
  png_at w' ["plots"; "cost_analysis.png"] ∧
  png_at w' ["plots"; "simulation_dashboard.png"].
Proof.
  intros a w'.
  assert (PlotSimulation.main a csv_world = (Ok tt, w')) as Hrun.
  { assert ((PlotSimulation.main a csv_world).1 = Ok tt) as H by (vm_compute; reflexivity).
    subst w'. destruct (PlotSimulation.main a csv_world) as [r w1].
    simpl in H. by rewrite H. }
  destruct (full_run_charts a csv_world w' eq_refl Hrun)
    as (data & df & _ & _ & H1 & H2 & H3 & _).
  split; [exact H1|]. split; [exact H2|exact H3].
Defined.

(** A sensitivity report stored as report.html and a dashboard written
    to the same path: the run replaces the report by the page. *)
Lemma dashboard_overwrites_its_input :
  let a := InteractiveDashboard.Args "report.html" "report.html" true false in
  (InteractiveDashboard.main a sensitivity_world).1 = Ok tt ∧
  files sensitivity_world !! Path "report.html" = Some (Json sensitivity_report) ∧
  ∃ fig, files (InteractiveDashboard.main a sensitivity_world).2 !! Path "report.html"
         = Some (Html fig).
Proof. vm_compute. repeat split. eexists. reflexivity. Qed.

Lemma visualization_frame_witness :
  let a := InteractiveDashboard.Args "report.html" "dashboard.html" true false in
  files (InteractiveDashboard.main a sensitivity_world).2 !! Path "report.html" =
  files sensitivity_world !! Path "report.html".
Proof.
  intros a. destruct visualization_frame as (_ & _ & _ & H).
  apply (H a sensitivity_world).
  - split; [|split]; [apply (bool_decide_unpack _); vm_compute; exact I..|reflexivity].
  - vm_compute. discriminate.
Defined.

Lemma chart_generation_deterministic_witness :
  let a := PlotSimulation.Args "run.csv" "plots" false in
  let other := World (<[ ["notes.txt"] := Blob ]> (files csv_world)) ∅ ["earlier output"] in
  ∃ ws, (PlotSimulation.main a csv_world).1 = (PlotSimulation.main a other).1 ∧
        files (PlotSimulation.main a csv_world).2 = apply_writes ws (files csv_world) ∧
        files (PlotSimulation.main a other).2 = apply_writes ws (files other).
Proof.
  intros a other. destruct chart_generation_deterministic as (H & _ & _).
  apply (H a csv_world other). split; [done|]. split.
  - intros p <-. vm_compute. split; intros [? ?]; discriminate.
  - reflexivity.
Defined.




Lemma missing_time_is_zero_witness :
  ∃ bars1 bars2 table,
    InteractiveDashboard.sensitivity_figure sensitivity_report =
      Ok [bars1; bars2; Draw "2,1" "Scatter" [[VInt 1; VInt 2]; [VInt 7; VInt 0]]; table].
Proof.
  destruct (InteractiveDashboard.sensitivity_figure sensitivity_report) as [fig|e] eqn:E;
    [|vm_compute in E; discriminate].
  destruct (missing_time_is_zero
    [ ("ParameterRankings",
       VList [ VDict [("ParameterName", VStr "rate"); ("TimeToEquilibriumImpact", VInt 1)];
               VDict [("ParameterName", VStr "budget"); ("TimeToEquilibriumImpact", VInt 3);
                      ("WorkforceCompositionImpact", VInt 2)];
               VDict [("ParameterName", VStr "humans"); ("TimeToEquilibriumImpact", VInt 3)] ]);
      ("SensitivityResults",
       VList [ VDict [("ParameterName", VStr "rate");
                      ("ParameterValues", VList [VInt 1; VInt 2]);
                      ("TimeToEquilibriumByValue", VDict [("1", VInt 7)])] ]) ]
    [ VDict [("ParameterName", VStr "rate");
             ("ParameterValues", VList [VInt 1; VInt 2]);
             ("TimeToEquilibriumByValue", VDict [("1", VInt 7)])] ]
    [ ([VInt 1; VInt 2], [("1", VInt 7)]) ]) as (Hfig & _ & _).
  - reflexivity.
  - constructor; [|constructor]. eexists. split; [reflexivity|].
    split; [by eexists|]. split; reflexivity.
  - destruct (Hfig fig E) as (bars1 & bars2 & table & ->).
    by exists bars1, bars2, table.
Defined.

(** One entry with a time impact and none with a composition impact: the
    two counts differ, and the function still draws and saves its
    figure. *)
Lemma rankings_without_composition_run :
  let data := VDict [("ParameterRankings", VList time_only_rankings)] in
  let w := World ∅ {[ ["out"] ]} [] in
  count_with "WorkforceCompositionImpact" time_only_rankings ≠
    count_with "TimeToEquilibriumImpact" time_only_rankings ∧
  (PlotSensitivity.plot_parameter_rankings data ["out"] w).1 = Ok tt ∧
  ∃ fig, files (PlotSensitivity.plot_parameter_rankings data ["out"] w).2
           !! ["out"; "parameter_rankings.png"] = Some (Png fig).
Proof. vm_compute. split; [discriminate|]. split; [reflexivity|]. eexists. reflexivity. Qed.

(** Two entries with a time impact and one with a composition impact:
    the single width is repeated for both positions. *)
Example rankings_two_against_one :
  let rankings :=
    [ VDict [("ParameterName", VStr "rate"); ("TimeToEquilibriumImpact", VInt 1);
             ("WorkforceCompositionImpact", VInt 2)];
      VDict [("ParameterName", VStr "budget"); ("TimeToEquilibriumImpact", VInt 3)] ] in
  let data := VDict [("ParameterRankings", VList rankings)] in
  (PlotSensitivity.plot_parameter_rankings data ["out"] (World ∅ {[ ["out"] ]} [])).1 = Ok tt.
Proof. reflexivity. Qed.

(** Three entries with a time impact and two with a composition impact:
    [barh] refuses the two lists. *)
Example rankings_three_against_two :
  let rankings :=
    [ VDict [("ParameterName", VStr "rate"); ("TimeToEquilibriumImpact", VInt 1);
             ("WorkforceCompositionImpact", VInt 2)];
      VDict [("ParameterName", VStr "budget"); ("TimeToEquilibriumImpact", VInt 3);
             ("WorkforceCompositionImpact", VInt 1)];
      VDict [("ParameterName", VStr "humans"); ("TimeToEquilibriumImpact", VInt 3)] ] in
  let data := VDict [("ParameterRankings", VList rankings)] in
  (PlotSensitivity.plot_parameter_rankings data ["out"] (World ∅ {[ ["out"] ]} [])).1
    = Raise ValueError.
Proof. reflexivity. Qed.

Lemma parameter_rankings_bars_witness :
  ∃ fig, PlotSensitivity.plot_parameter_rankings
           (VDict [("ParameterRankings", VList time_only_rankings)]) ["out"]
           (World ∅ {[ ["out"] ]} []) =
         savefig ["out"; "parameter_rankings.png"] fig (World ∅ {[ ["out"] ]} []).
Proof.
  destruct (parameter_rankings_bars [("ParameterRankings", VList time_only_rankings)]
              time_only_rankings ["out"] (World ∅ {[ ["out"] ]} []) eq_refl) as [H _].
  - repeat constructor. eexists. split; [reflexivity|]. split.
    + intros t Ht. vm_compute in Ht. simplify_eq. split; [by eexists|by eexists].
    + intros c Hc. vm_compute in Hc. discriminate.
  - apply H. by left.
Defined.

(** * Examples for the further properties *)

#[local] Existing Instance plain_stats.

Lemma sensitivity_unsupported_input_witness :
  exit_status (PlotSensitivityRun.main (PlotSensitivityRun.Args "report.txt" "plots" false)
                 report_world).1 = 1 ∧
  files (PlotSensitivityRun.main (PlotSensitivityRun.Args "report.txt" "plots" false)
           report_world).2 = files report_world.
Proof.
  assert (lower (path_suffix (Path "report.txt")) ≠ ".json") as H1 by discriminate.
  assert (lower (path_suffix (Path "report.txt")) ≠ ".csv") as H2 by discriminate.
  destruct (sensitivity_unsupported_input (PlotSensitivityRun.Args "report.txt" "plots" false)
              report_world H1 H2) as (He & Hf & _).
  split; [exact He|exact Hf].
Defined.

Lemma sensitivity_charts_by_kind_witness :
  ["plots"; "sensitivity_heatmap.png"] ∈
    [ ["plots"; "sensitivity_heatmap.png"]; ["plots"; "outcome_distributions.png"];
      ["plots"; "sensitivity_dashboard.png"] ].
Proof.
  assert (files (PlotSensitivityRun.main (PlotSensitivityRun.Args "sens.csv" "plots" false)
                   sensitivity_csv_world).2 !! ["plots"; "sensitivity_heatmap.png"] ≠
          files sensitivity_csv_world !! ["plots"; "sensitivity_heatmap.png"]) as Hne.
  { vm_compute. discriminate. }
  destruct (sensitivity_charts_by_kind (PlotSensitivityRun.Args "sens.csv" "plots" false)
              sensitivity_csv_world ["plots"; "sensitivity_heatmap.png"] Hne) as [H _].
  apply H. reflexivity.
Defined.

Lemma interactive_unsupported_input_witness :
  InteractiveDashboard.main (InteractiveDashboard.Args "run.csv" "" false false) csv_world =
    (Raise (SystemExit 1),
     World (files csv_world) (dirs csv_world)
       [ "Loading data from run.csv..."; "Error: Unsupported file format .csv";
         "Error: Could not load simulation data" ]).
Proof.
  apply (interactive_unsupported_input
           (InteractiveDashboard.Args "run.csv" "" false false) csv_world).
  - reflexivity.
  - discriminate.
Defined.

Lemma sensitivity_without_rankings_witness :
  InteractiveDashboard.main (InteractiveDashboard.Args "report.json" "" true true)
      report_world =
    (Ok tt,
     World (files report_world) (dirs report_world)
       [ "Loading data from report.json...";
         "Error: No parameter rankings found in sensitivity data";
         "Dashboard opened in browser" ]).
Proof.
  apply (sensitivity_without_rankings
           (InteractiveDashboard.Args "report.json" "" true true) report_world
           (VDict report)); reflexivity.
Defined.

Lemma dashboard_only_run_witness :
  png_at (PlotSimulation.main (PlotSimulation.Args "run.csv" "plots" true) csv_world).2
    ["plots"; "simulation_dashboard.png"].
Proof.
  destruct (dashboard_only_run (PlotSimulation.Args "run.csv" "plots" true) csv_world
              eq_refl) as [_ H].
  apply H. vm_compute. reflexivity.
Defined.

Lemma generated_files_lists_old_charts_witness :
  "  - old.png" ∈
    stdout (PlotSimulation.main (PlotSimulation.Args "run.csv" "plots" false) used_world).2.
Proof.
  set (a := PlotSimulation.Args "run.csv" "plots" false).
  assert (PlotSimulation.main a used_world = (Ok tt, (PlotSimulation.main a used_world).2))
    as Hrun.
  { assert ((PlotSimulation.main a used_world).1 = Ok tt) as H by (vm_compute; reflexivity).
    destruct (PlotSimulation.main a used_world) as [r w1]. simpl in H. by rewrite H. }
  apply (generated_files_lists_old_charts a used_world _ "old.png" Hrun).
  - vm_compute. by eexists.
  - reflexivity.
Defined.

Lemma variations_chart_by_count_witness :
  PlotSensitivity.plot_parameter_variations (VDict results_report) ["plots"]
      empty_report_world
    = (Raise AttributeError, empty_report_world).
Proof.
  destruct (variations_chart_by_count results_report two_results ["plots"]
              empty_report_world eq_refl) as (_ & H & _).
  - repeat constructor.
  - apply H. simpl. lia.
Defined.

Lemma ranking_without_name_witness :
  PlotSensitivity.plot_parameter_rankings (VDict nameless_report) ["plots"]
      empty_report_world
    = (Raise (KeyError "ParameterName"), empty_report_world).
Proof.
  destruct (ranking_without_name nameless_report
              [VDict [("TimeToEquilibriumImpact", VInt 1)]] None ["plots"]
              empty_report_world eq_refl) as [H _].
  - repeat constructor.
  - apply Exists_cons_hd. split; reflexivity.
  - exact H.
Defined.

Lemma interactive_bars_aligned_witness :
  ∃ ns ts cs rest,
    InteractiveDashboard.sensitivity_figure sensitivity_report =
      Ok (Draw "1,1" "Bar" [ns; ts] :: Draw "1,2" "Bar" [ns; cs] :: rest) ∧
    length ns = 3%nat ∧ length ts = 3%nat ∧ length cs = 3%nat.
Proof.
  destruct (InteractiveDashboard.sensitivity_figure sensitivity_report) as [fig|e] eqn:E;
    [|vm_compute in E; discriminate].
  destruct (interactive_bars_aligned sensitivity_report _ fig eq_refl E)
    as (ns & ts & cs & rest & -> & H1 & H2 & H3 & _).
  by exists ns, ts, cs, rest.
Defined.

Lemma utilization_zero_divisor_witness :
  ∃ u, budget_utilization idle_frame = Ok u ∧ u !! 0%nat = Some (VFloat NaN).
Proof.
  destruct (utilization_zero_divisor plain_lib_rounds idle_frame [VInt 0] [VInt 0]
              eq_refl eq_refl eq_refl) as (u & Hu & _ & _ & Hz).
  - left. split; repeat constructor.
  - exists u. split; [exact Hu|].
    apply (Hz 0%nat (VInt 0) (VInt 0) (inject_Z 0) (inject_Z 0)); reflexivity.
Defined.

Lemma distributions_per_outcome_witness :
  ∃ fig,
    PlotSensitivityRun.plot_parameter_distributions (Some sensitivity_frame) ["plots"]
        empty_report_world
      = savefig ["plots"; "outcome_distributions.png"] fig empty_report_world ∧
    count_prim "hist" fig = 1%nat ∧ count_prim "axvline" fig = 3%nat.
Proof.
  destruct (distributions_per_outcome sensitivity_frame ["plots"] empty_report_world)
    as [_ H].
  apply H.
  - discriminate.
  - intros c s _ _. split; by eexists.
Defined.

Lemma dashboard_panels_witness :
  ∃ fig, PlotSensitivityRun.dashboard_figure (VDict results_report) None = Ok fig ∧
         count_prim "plot" fig = 2%nat ∧ count_prim "hist" fig = 0%nat.
Proof.
  destruct (PlotSensitivityRun.dashboard_figure (VDict results_report) None)
    as [fig|e] eqn:E; [|vm_compute in E; discriminate].
  exists fig. split; [done|].
  apply (dashboard_panels results_report two_results None fig eq_refl).
  - repeat constructor.
  - exact E.
Defined.

Lemma empty_sensitivity_report_witness :
  ∃ w', PlotSensitivityRun.main (PlotSensitivityRun.Args "empty.json" "plots" false)
          empty_report_world = (Ok tt, w') ∧
        files w' = <[ ["plots"; "sensitivity_dashboard.png"] := Png [] ]>
                     (files empty_report_world) ∧
        dirs w' = dirs empty_report_world.
Proof.
  apply (empty_sensitivity_report (PlotSensitivityRun.Args "empty.json" "plots" false)
           empty_report_world (VDict [])); reflexivity.
Defined.

Lemma revenue_chart_by_columns_witness :
  ∃ fig,
    PlotSimulation.plot_revenue_and_productivity revenue_frame ["plots"] empty_report_world
      = savefig ["plots"; "revenue_productivity.png"] fig empty_report_world ∧
    count_prim "plot" fig = 1%nat.
Proof.
  destruct (revenue_chart_by_columns revenue_frame ["plots"] empty_report_world)
    as [H _].
  destruct H as (fig & Hrun & Hcount & _).
  - repeat constructor; by eexists _, _.
  - by exists fig.
Defined.

Lemma workforce_needs_ai_column_witness :
  PlotSimulation.plot_workforce_composition humans_only_frame ["plots"] empty_report_world
    = (Raise (KeyError "TotalAIAgents"), empty_report_world).
Proof.
  destruct (workforce_needs_ai_column humans_only_frame "TotalHumans" "TotalAIAgents"
              eq_refl) as [H _].
  - by eexists _, _.
  - by eexists _, _.
  - reflexivity.
  - apply H.
Defined.


Lemma default_output_spares_input_witness :
  files (InteractiveDashboard.main (InteractiveDashboard.Args "report.json" "" false false)
           report_world).2 !! Path "report.json" =
  files report_world !! Path "report.json".
Proof.
  destruct (default_output_spares_input
              (InteractiveDashboard.Args "report.json" "" false false) eq_refl) as [_ H].
  apply (H report_world).
Defined.

Lemma report_without_time_series_witness :
  InteractiveDashboard.main (InteractiveDashboard.Args "bare.json" "" false false)
      bare_report_world =
    (Raise (SystemExit 1),
     World (files bare_report_world) (dirs bare_report_world)
       [ "Loading data from bare.json...";
         "Error: No TimeSeries data found in JSON file";
         "Error: Could not load simulation data" ]).
Proof.
  destruct (report_without_time_series "bare.json" bare_report_world
              [("TimeToEquilibrium", VInt 2)] eq_refl eq_refl eq_refl eq_refl) as [_ H].
  apply (H "" false).
Defined.

